(** * NexusDrive ETL pipeline: enrichment and alignment

    A shallow embedding of the pandas code of
    [dags/mock/weather_generator.py], [dags/mock/traffic_generator.py],
    [dags/data_ingest.py] and [dags/data_transformation.py], and the
    properties the specification states about it.

    - A table is laid out the way pandas lays it out: an ordered list of
      column labels and rows of cells addressed by position, each row with
      its index label; so column order, renaming and the suffixes of a merge
      are what they are in the code.
    - A cell is None, a number (an exact rational, or one of the three
      special floats), a string, a timestamp in nanoseconds, NaT or a date.
    - An exception is a value of an error monad; a statement that a function
      does not raise says that it returns [Ok].
    - The functions of pandas and of the Python library that the code calls
      are written out on these tables where the statements depend on what
      they compute ([dropna], [sort_values], [merge_asof], [concat],
      [fillna], ...).  The two string parsers, [pd.to_datetime] and
      [datetime.strptime], are parameters: every general statement holds for
      all parsers.  Console output is left out, except where printing reads
      a column and may raise. *)

From Stdlib Require Import QArith Qabs Qpower Lqa Ascii String.
From stdpp Require Import base decidable option list strings sorting gmap.

Local Open Scope Z_scope.

(** ** Exceptions *)

Inductive exn :=
  | TypeError
  | KeyError (key : string)
  | FileNotFoundError (msg : string)
  | MergeError
  | ValueError (msg : string).

Inductive result (A : Type) :=
  | Ok (a : A)
  | Raise (e : exn).
Arguments Ok {A} a.
Arguments Raise {A} e.

Definition bind {A B} (m : result A) (f : A → result B) : result B :=
  match m with
  | Ok a => f a
  | Raise e => Raise e
  end.

Notation "x <- m ;; k" := (bind m (λ x, k))
  (at level 100, m at next level, right associativity).

(** Python's [a and b] on booleans: [b] is not evaluated (an exception it
    would raise is not seen) when [a] is false. *)
Definition and_then (a b : result bool) : result bool :=
  x <- a ;; if x then b else Ok false.

(** ** Cells *)

(** A numeric cell: a Python int or a float.  Finite values are exact
    rationals (every int64 and every finite float64 is one); the three
    special floats are separate. *)
Inductive number :=
  | Fin (q : Q)
  | PosInf
  | NegInf
  | NaN.

Definition Qltb (x y : Q) : bool :=
  match (x ?= y)%Q with Lt => true | _ => false end.
Definition Qleb (x y : Q) : bool :=
  match (x ?= y)%Q with Gt => false | _ => true end.
Definition Qeqb (x y : Q) : bool :=
  match (x ?= y)%Q with Eq => true | _ => false end.

(** IEEE comparisons: anything involving NaN is false. *)
Definition num_lt (x y : number) : bool :=
  match x, y with
  | NaN, _ | _, NaN => false
  | Fin a, Fin b => Qltb a b
  | NegInf, NegInf => false
  | NegInf, _ => true
  | _, NegInf => false
  | PosInf, _ => false
  | Fin _, PosInf => true
  end.

Definition num_le (x y : number) : bool :=
  match x, y with
  | NaN, _ | _, NaN => false
  | Fin a, Fin b => Qleb a b
  | NegInf, _ => true
  | _, NegInf => false
  | _, PosInf => true
  | PosInf, Fin _ => false
  end.

Definition num_eq (x y : number) : bool :=
  match x, y with
  | Fin a, Fin b => Qeqb a b
  | PosInf, PosInf | NegInf, NegInf => true
  | _, _ => false
  end.

(** What a cell of a table can hold.  Timestamps are nanoseconds since the
    epoch, dates are days since the epoch. *)
Inductive cell :=
  | CNone
  | CNum (x : number)
  | CStr (s : string)
  | CTime (ns : Z)
  | CNaT
  | CDate (days : Z).

(** [pd.isna]: None, NaN and NaT are the nulls. *)
Definition isna (c : cell) : bool :=
  match c with
  | CNone | CNum NaN | CNaT => true
  | _ => false
  end.

(** Truth value of a cell in an [if]: None, zero and the empty string are
    false; NaN is true. *)
Definition truthy (c : cell) : bool :=
  match c with
  | CNone => false
  | CNum (Fin q) => negb (Qeqb q 0)
  | CNum _ => true
  | CStr s => negb (String.eqb s EmptyString)
  | CTime _ | CNaT | CDate _ => true
  end.

Definition not_none (c : cell) : bool :=
  match c with CNone => false | _ => true end.

(** Ordering a cell against a number: defined on numbers, a [TypeError] on
    None, strings and timestamps. *)
Definition cell_lt (c : cell) (k : Q) : result bool :=
  match c with CNum x => Ok (num_lt x (Fin k)) | _ => Raise TypeError end.
Definition cell_gt (c : cell) (k : Q) : result bool :=
  match c with CNum x => Ok (num_lt (Fin k) x) | _ => Raise TypeError end.
Definition cell_le (c : cell) (k : Q) : result bool :=
  match c with CNum x => Ok (num_le x (Fin k)) | _ => Raise TypeError end.
Definition cell_ge (c : cell) (k : Q) : result bool :=
  match c with CNum x => Ok (num_le (Fin k) x) | _ => Raise TypeError end.

(** [c == k] never raises: a cell that is not a number is just unequal. *)
Definition cell_eq (c : cell) (k : Q) : bool :=
  match c with CNum x => num_eq x (Fin k) | _ => false end.

(** ** Rows *)

(** A row handed to [apply(..., axis=1)]: the labels with their values. *)
Definition Series := list (string * cell).

Fixpoint lookup_label (row : Series) (k : string) : option cell :=
  match row with
  | [] => None
  | (k', v) :: row => if decide (k' = k) then Some v else lookup_label row k
  end.

(** [row.get(k, d)] *)
Definition get (row : Series) (k : string) (d : cell) : cell :=
  default d (lookup_label row k).

(** ** mock/weather_generator.py *)

Module WeatherMockGenerator.

(** The float [0.1], exactly: 3602879701896397 / 2^55. *)
Definition float_0_1 : Q := 3602879701896397 # 36028797018963968.

Definition generate_label (row : Series) : result string :=
  let rh := get row "relative_humidity_2m (%)" CNone in
  let cc_low := get row "cloud_cover_low (%)" CNone in
  let cc_total := get row "cloud_cover (%)" CNone in
  let ws := get row "wind_speed_10m (km/h)" CNone in
  let precip := get row "precipitation (mm)" CNone in
  let is_day := get row "is_day ()" (CNum (Fin 1)) in
  (* Fog *)
  fog <- (if truthy rh && truthy cc_low && not_none ws
         then and_then (cell_gt rh 90)
                (and_then (cell_gt cc_low 80) (cell_lt ws 2))
         else Ok false) ;;
  if fog then Ok "Fog" else
  (* Stormy *)
  stormy <- (if truthy ws && not_none precip
            then and_then (cell_gt ws 12) (cell_gt precip 2)
            else Ok false) ;;
  if stormy then Ok "Stormy" else
  (* Sandstorms *)
  sand <- (if truthy ws && not_none precip && not_none rh
          then and_then (cell_gt ws 10)
                 (and_then (cell_lt precip float_0_1) (cell_lt rh 40))
          else Ok false) ;;
  if sand then Ok "Sandstorms" else
  (* Windy *)
  windy <- (if truthy ws && not_none precip
           then and_then (and_then (cell_ge ws 6) (cell_le ws 12))
                  (cell_lt precip 1)
           else Ok false) ;;
  if windy then Ok "Windy" else
  (* Cloudy *)
  cloudy <- (if truthy cc_total && not_none precip
            then and_then (cell_gt cc_total 70) (cell_lt precip 1)
            else Ok false) ;;
  if cloudy then Ok "Cloudy" else
  (* Sunny *)
  sunny <- (if not_none cc_total && not_none is_day
           then and_then (cell_lt cc_total 30) (Ok (cell_eq is_day 1))
           else Ok false) ;;
  if sunny then Ok "Sunny" else
  Ok "Cloudy".

End WeatherMockGenerator.


(** ** Tables *)

(** A row of a table: its index label and its cells, one per column. *)
Definition row : Type := Z * list cell.

Record DataFrame := mkDF {
  columns : list string;
  rows : list row
}.

(** [pd.DataFrame()] *)
Definition empty_frame : DataFrame := mkDF [] [].

(** [df.empty]: no rows, or no columns. *)
Definition empty (df : DataFrame) : bool :=
  match rows df, columns df with
  | [], _ | _, [] => true
  | _, _ => false
  end.

(** Position of the first column labelled [c]. *)
Definition col_index (c : string) (cols : list string) : option nat :=
  fst <$> list_find (λ x, x = c) cols.

(** [df[c]] raises [KeyError] when no column is labelled [c]. *)
Definition col_pos (df : DataFrame) (c : string) : result nat :=
  match col_index c (columns df) with
  | Some i => Ok i
  | None => Raise (KeyError c)
  end.

Definition cell_at (i : nat) (cells : list cell) : cell :=
  default CNone (cells !! i).

Definition column (df : DataFrame) (c : string) : result (list cell) :=
  i <- col_pos df c ;;
  Ok ((λ r : row, cell_at i r.2) <$> rows df).

(** [df[c] = values]: an existing column is overwritten in place, a new one
    is appended on the right. *)
Definition set_column (df : DataFrame) (c : string) (values : list cell)
    : DataFrame :=
  match col_index c (columns df) with
  | Some i =>
      mkDF (columns df)
           (zip_with (λ (r : row) v, (r.1, <[i := v]> r.2)) (rows df) values)
  | None =>
      mkDF (columns df ++ [c])
           (zip_with (λ (r : row) v, (r.1, r.2 ++ [v])) (rows df) values)
  end.

(** The row as [apply(..., axis=1)] passes it to the function. *)
Definition row_series (cols : list string) (r : row) : Series :=
  zip cols r.2.

(** A fresh [RangeIndex]: rows are numbered 0, 1, 2, ... *)
Definition range_index (cells : list (list cell)) : list row :=
  imap (λ i c, (Z.of_nat i, c)) cells.

Fixpoint mapM {A B} (f : A → result B) (l : list A) : result (list B) :=
  match l with
  | [] => Ok []
  | x :: l => y <- f x ;; ys <- mapM f l ;; Ok (y :: ys)
  end.

(** ** mock/traffic_generator.py *)

Module TrafficMockGenerator.

(** [datetime.time]: hour, minute, second, microsecond. *)
Record time := mk_time {
  hour : Z;
  minute : Z;
  second : Z;
  microsecond : Z
}.

(** Python compares two naive times as the tuples
    (hour, minute, second, microsecond). *)
Definition time_cmp (a b : time) : comparison :=
  match hour a ?= hour b with
  | Eq =>
      match minute a ?= minute b with
      | Eq =>
          match second a ?= second b with
          | Eq => microsecond a ?= microsecond b
          | c => c
          end
      | c => c
      end
  | c => c
  end.

Definition time_le (a b : time) : bool :=
  match time_cmp a b with Gt => false | _ => true end.
Definition time_ge (a b : time) : bool :=
  match time_cmp a b with Lt => false | _ => true end.

(** [Timestamp.time()]: the time of day of a (naive) timestamp, its
    nanoseconds below the microsecond dropped. *)
Definition Timestamp_time (ns : Z) : time :=
  let tod := ns mod 86400000000000 in
  {| hour := tod / 3600000000000;
     minute := tod / 60000000000 mod 60;
     second := tod / 1000000000 mod 60;
     microsecond := tod mod 1000000000 / 1000 |}.

Section map_traffic.
(** [datetime.strptime(s, "%m-%d %H:%M:%S").time()], [None] when
    [strptime] raises. *)
Variable strptime_time : string → option time.

Definition _map_traffic (time_val : cell) : string :=
  match
    match time_val with
    | CStr s => strptime_time s
    | CTime ns => Some (Timestamp_time ns)
    | _ => None
    end
  with
  | None => "Medium"
  | Some t =>
      if time_le (mk_time 7 0 0 0) t && time_le t (mk_time 9 0 0 0)
      then "High"
      else if time_le (mk_time 17 0 0 0) t && time_le t (mk_time 19 0 0 0)
      then "Jam"
      else if time_ge t (mk_time 22 0 0 0) || time_le t (mk_time 5 0 0 0)
      then "Low"
      else "Medium"
  end.

Definition generate (df : DataFrame) : result DataFrame :=
  delivery_time <- column df "delivery_time" ;;
  Ok (set_column df "Traffic_Label"
        (CStr <$> (_map_traffic <$> delivery_time))).
End map_traffic.

(** A reading of the pattern ["%m-%d %H:%M:%S"] for the zero-padded
    spelling [MM-DD HH:MM:SS]; it is used to run the classifier on
    strings, the statements below hold for every parser. *)
Definition digit (a : ascii) : option Z :=
  let n := Z.of_N (Ascii.N_of_ascii a) in
  if decide (48 ≤ n ≤ 57) then Some (n - 48) else None.

Definition two_digits (a b : ascii) : option Z :=
  x ← digit a; y ← digit b; Some (10 * x + y).

Definition days_in_month_1900 (m : Z) : Z :=
  if decide (m = 2) then 28
  else if decide (m = 4 ∨ m = 6 ∨ m = 9 ∨ m = 11) then 30 else 31.

Definition strptime_padded (s : string) : option time :=
  match list_ascii_of_string s with
  | [m1; m2; "-"%char; d1; d2; " "%char;
     h1; h2; ":"%char; n1; n2; ":"%char; s1; s2] =>
      mo ← two_digits m1 m2; d ← two_digits d1 d2;
      h ← two_digits h1 h2; mi ← two_digits n1 n2; se ← two_digits s1 s2;
      if decide (1 ≤ mo ≤ 12 ∧ 1 ≤ d ≤ days_in_month_1900 mo ∧
                 h ≤ 23 ∧ mi ≤ 59 ∧ se ≤ 59)
      then Some (mk_time h mi se 0) else None
  | _ => None
  end.

End TrafficMockGenerator.

(** ** data_ingest.py *)

(** *** Column-name normalisation: [str.strip().str.lower()]

    On ASCII: the blank characters are 9-13 and 28-32, the letters A-Z are
    lowered.  Other bytes are left as they are. *)
Definition py_isspace (a : ascii) : bool :=
  let n := Ascii.N_of_ascii a in
  ((9 <=? n) && (n <=? 13) || (28 <=? n) && (n <=? 32))%N.

Fixpoint lstrip (s : string) : string :=
  match s with
  | String a s' => if py_isspace a then lstrip s' else s
  | EmptyString => EmptyString
  end.

Definition strip (s : string) : string :=
  String.rev (lstrip (String.rev (lstrip s))).

Definition lower_ascii (a : ascii) : ascii :=
  let n := Ascii.N_of_ascii a in
  if ((65 <=? n) && (n <=? 90))%N then Ascii.ascii_of_N (n + 32) else a.

Fixpoint lower (s : string) : string :=
  match s with
  | String a s' => String (lower_ascii a) (lower s')
  | EmptyString => EmptyString
  end.

Definition normalize (c : string) : string := lower (strip c).

(** *** Files *)

(** The content of a CSV file as [pd.read_csv] sees it: the header and the
    records. *)
Record csv := mk_csv {
  header : list string;
  records : list (list cell)
}.

(** A record shorter than the header is padded with NaN.  (A longer one is
    cut here; pandas does not read such a file.) *)
Definition read_csv (f : csv) : DataFrame :=
  mkDF (header f)
    (range_index (resize (length (header f)) (CNum NaN) <$> records f)).

(** *** Sorting, null removal and the backward as-of merge *)

(** [df.dropna(subset=[c])] *)
Definition dropna (df : DataFrame) (c : string) : result DataFrame :=
  i <- col_pos df c ;;
  Ok (mkDF (columns df)
        (filter (λ r : row, isna (cell_at i r.2) = false) (rows df))).

(** The sort key of a row on a timestamp column; nulls sort last. *)
Definition sort_key (i : nat) (r : row) : option Z :=
  match cell_at i r.2 with CTime t => Some t | _ => None end.

Definition key_le (a b : option Z) : Prop :=
  match a, b with
  | Some x, Some y => x ≤ y
  | _, None => True
  | None, Some _ => False
  end.

#[global] Instance key_le_dec a b : Decision (key_le a b).
Proof. destruct a, b; simpl; apply _. Defined.

Definition row_le (i : nat) (r1 r2 : row) : Prop :=
  key_le (sort_key i r1) (sort_key i r2).

#[global] Instance row_le_dec i r1 r2 : Decision (row_le i r1 r2).
Proof. unfold row_le. apply _. Defined.

#[global] Instance key_le_total : Total key_le.
Proof. intros [x|] [y|]; simpl; auto. lia. Qed.

#[global] Instance row_le_total (i : nat) : Total (row_le i).
Proof. intros r1 r2. apply (total key_le). Qed.

(** [df.sort_values(c)], ascending, nulls last.  Rows with equal keys keep
    some order; no statement below depends on which. *)
Definition sort_values (df : DataFrame) (c : string) : result DataFrame :=
  i <- col_pos df c ;;
  Ok (mkDF (columns df) (merge_sort (row_le i) (rows df))).

(** The merge keys of a table: [merge_asof] refuses a null key, and a key
    column that is not one of timestamps. *)
Definition keys (i : nat) (rs : list row) : result (list (Z * row)) :=
  mapM (λ r : row,
          match cell_at i r.2 with
          | CTime t => Ok (t, r)
          | c => if isna c
                 then Raise (ValueError "Merge keys contain null values")
                 else Raise MergeError
          end) rs.

(** The scan of the right table for one left key [k]: it moves past every
    right row whose key is at most [k] and remembers the last one passed. *)
Fixpoint advance (k : Z) (last : option row) (right : list (Z * row))
    : option row * list (Z * row) :=
  match right with
  | [] => (last, [])
  | (kr, r) :: right' =>
      if decide (kr ≤ k) then advance k (Some r) right' else (last, right)
  end.

(** The two-pointer scan of [direction="backward"]: the right position is
    kept from one left row to the next. *)
Fixpoint asof_backward (left : list (Z * row)) (last : option row)
    (right : list (Z * row)) : list (row * option row) :=
  match left with
  | [] => []
  | (k, l) :: left' =>
      let '(last', right') := advance k last right in
      (l, last') :: asof_backward left' last' right'
  end.

(** Labels present on both sides get the suffixes [_x] and [_y]. *)
Definition suffixed (other : list string) (sfx : string) (c : string)
    : string :=
  if decide (c ∈ other) then c +:+ sfx else c.

(** [Index.duplicated()]: every occurrence after the first. *)
Fixpoint duplicated (seen l : list string) : list bool :=
  match l with
  | [] => []
  | x :: l => bool_decide (x ∈ seen) :: duplicated (x :: seen) l
  end.

(** A duplicate among the renamed labels that was not one before. *)
Definition suffix_dups (orig renamed : list string) : bool :=
  existsb (λ p : bool * bool, p.1 && negb p.2)
    (zip (duplicated [] renamed) (duplicated [] orig)).

(** The cells a left row gets when no right row matches: NaT under the
    right key, NaN elsewhere. *)
Definition null_cells (right_on : string) (right_cols : list string)
    : list cell :=
  (λ c, if decide (c = right_on) then CNaT else CNum NaN) <$> right_cols.

Definition merged_cells (right_on : string) (right_cols : list string)
    (m : row * option row) : list cell :=
  m.1.2 ++ match m.2 with
           | Some w => w.2
           | None => null_cells right_on right_cols
           end.

(** [pd.merge_asof(left, right, left_on=..., right_on=...,
    direction="backward")] *)
Definition merge_asof (left right : DataFrame) (left_on right_on : string)
    : result DataFrame :=
  li <- col_pos left left_on ;;
  ri <- col_pos right right_on ;;
  lk <- keys li (rows left) ;;
  rk <- keys ri (rows right) ;;
  if decide (Sorted Z.le lk.*1) then
    if decide (Sorted Z.le rk.*1) then
      let lcols := suffixed (columns right) "_x" <$> columns left in
      let rcols := suffixed (columns left) "_y" <$> columns right in
      if suffix_dups (columns left) lcols || suffix_dups (columns right) rcols
      then Raise MergeError
      else Ok (mkDF (lcols ++ rcols)
                 (range_index (merged_cells right_on (columns right) <$>
                                 asof_backward lk None rk)))
    else Raise (ValueError "right keys must be sorted")
  else Raise (ValueError "left keys must be sorted").

(** [df.rename(columns={old: new})] *)
Definition rename (df : DataFrame) (old new : string) : DataFrame :=
  mkDF ((λ c, if decide (c = old) then new else c) <$> columns df) (rows df).

(** *** DataIngest *)

Record DataIngest := mk_ingest {
  delivery_df : DataFrame;
  weather_df : DataFrame;
  weather_time_col : string
}.

Definition time_candidates : list string :=
  ["time_weather"; "timestamp"; "datetime"; "time"; "weather_time"].

Section ingest.
(** What [pd.to_datetime] reads from a cell that is neither null nor
    already a timestamp; [None] when the value does not parse. *)
Variable parse_datetime : cell → option Z.
Variable strptime_time : string → option TrafficMockGenerator.time.

(** [pd.to_datetime(..., errors="coerce")] on one cell. *)
Definition to_datetime (c : cell) : cell :=
  match c with
  | CTime t => CTime t
  | CNone | CNaT | CNum NaN => CNaT
  | _ => match parse_datetime c with
         | Some t => CTime t
         | None => CNaT
         end
  end.

(** [df[c] = pd.to_datetime(df[c], errors="coerce")] *)
Definition convert_column (df : DataFrame) (c : string) : result DataFrame :=
  values <- column df c ;;
  Ok (set_column df c (to_datetime <$> values)).

Definition load_data (fs : gmap string csv)
    (delivery_file weather_file : string) : result DataIngest :=
  match fs !! delivery_file with
  | None =>
      Raise (FileNotFoundError ("❌ Delivery file not found: " +:+ delivery_file))
  | Some dfile =>
  match fs !! weather_file with
  | None =>
      Raise (FileNotFoundError ("❌ Weather file not found: " +:+ weather_file))
  | Some wfile =>
      let delivery := read_csv dfile in
      let weather := read_csv wfile in
      let delivery := mkDF (normalize <$> columns delivery) (rows delivery) in
      let weather := mkDF (normalize <$> columns weather) (rows weather) in
      delivery <- (if decide ("accept_time" ∈ columns delivery)
                   then convert_column delivery "accept_time"
                   else Raise (KeyError
                                 "❌ Missing 'accept_time' in delivery data.")) ;;
      delivery <- (if decide ("delivery_time" ∈ columns delivery)
                   then convert_column delivery "delivery_time"
                   else Ok delivery) ;;
      match list_find (λ c, c ∈ columns weather) time_candidates with
      | None => Raise (KeyError "❌ No timestamp column found in weather file.")
      | Some (_, weather_time_col) =>
          weather <- convert_column weather weather_time_col ;;
          Ok (mk_ingest delivery weather weather_time_col)
      end
  end
  end.

(** The table [merged] of [enrich_with_weather], before the label is
    attached. *)
Definition merged_weather (self : DataIngest) : result DataFrame :=
  delivery_clean <- dropna (delivery_df self) "accept_time" ;;
  weather_clean <- dropna (weather_df self) (weather_time_col self) ;;
  delivery_clean <- sort_values delivery_clean "accept_time" ;;
  weather_clean <- sort_values weather_clean (weather_time_col self) ;;
  merged <- merge_asof delivery_clean weather_clean
              "accept_time" (weather_time_col self) ;;
  let merged :=
    if decide (weather_time_col self = "time_weather") then merged
    else rename merged (weather_time_col self) "time_weather" in
  _ <- col_pos merged "time_weather" ;;
  Ok merged.

Definition enrich_with_weather (self : DataIngest) : result DataIngest :=
  merged <- merged_weather self ;;
  labels <- mapM (λ r, WeatherMockGenerator.generate_label
                         (row_series (columns merged) r)) (rows merged) ;;
  Ok (mk_ingest (set_column merged "Weather_Label" (CStr <$> labels))
        (weather_df self) (weather_time_col self)).

Definition enrich_with_traffic_and_vehicles (self : DataIngest)
    : result DataIngest :=
  df <- TrafficMockGenerator.generate strptime_time (delivery_df self) ;;
  Ok (mk_ingest df (weather_df self) (weather_time_col self)).

End ingest.

(** ** data_transformation.py *)

Record DataAligner := mk_aligner {
  enriched_df : DataFrame;
  amazon_df : DataFrame
}.

(** The columns of [df1_reshaped], in the order the dictionary lists them,
    [ETA_target] attached last. *)
Definition delivery_columns : list string :=
  ["order_id"; "Date"; "pickup_time"; "delivery_time";
   "pickup_lat"; "pickup_lng"; "drop_lat"; "drop_lng";
   "weather"; "traffic"; "ETA_target"].

(** The columns of [df2_reshaped], likewise. *)
Definition amazon_columns : list string :=
  ["order_id"; "Date"; "pickup_time"; "delivery_time";
   "pickup_lat"; "pickup_lng"; "drop_lat"; "drop_lng";
   "traffic"; "weather"; "ETA_target"].

(** [series.dt.date] *)
Definition dt_date (c : cell) : cell :=
  match c with
  | CTime t => CDate (t / 86400000000000)
  | _ => CNaT
  end.

(** [a.fillna(b)], cell by cell. *)
Definition fillna (a b : cell) : cell := if isna a then b else a.

(** [(delivery - pickup).dt.total_seconds() / 60]: null when either
    timestamp is.  The quotient is exact here; the code rounds it to a
    float ([eta_minutes_float] below has the roundings). *)
Definition eta_minutes (delivery pickup : cell) : cell :=
  match delivery, pickup with
  | CTime d, CTime p =>
      CNum (Fin (((d - p) # 1) / (1000000000 # 1) / (60 # 1)))
  | _, _ => CNum NaN
  end.

(** [df.get(c, None)], read at one row. *)
Definition get_column_cell (cols : list string) (c : string)
    (cells : list cell) : cell :=
  match col_index c cols with
  | Some i => cell_at i cells
  | None => CNone
  end.

(** [pd.to_timedelta(x, unit="m")] on one cell, in nanoseconds; [None] is
    NaT.  Whole minutes are exact; a fraction of a nanosecond is cut, and an
    infinite value is taken to give NaT.  (pandas rounds the fraction, and
    raises on an infinite value and past 64 bits: see [exact_duration] and
    [duration_in_range] below.) *)
Definition to_timedelta_minutes (c : cell) : result (option Z) :=
  match c with
  | CNum (Fin q) => Ok (Some (Z.quot (Qnum q * 60000000000) (Z.pos (Qden q))))
  | CNum _ | CNone | CNaT => Ok None
  | CStr _ =>
      Raise (ValueError "unit must not be specified if the input contains a str")
  | CTime _ | CDate _ => Raise TypeError
  end.

(** [timestamp + timedelta] *)
Definition add_timedelta (t : cell) (d : option Z) : cell :=
  match t, d with
  | CTime p, Some n => CTime (p + n)
  | _, _ => CNaT
  end.

(** [reindex]: the cells of a row laid out under another list of labels,
    NaN where the row has no such label. *)
Definition reindex_cells (from to : list string) (cells : list cell)
    : list cell :=
  (λ c, match col_index c from with
        | Some i => cell_at i cells
        | None => CNum NaN
        end) <$> to.

(** [pd.concat([df1, df2], ignore_index=True)] *)
Definition concat_ignore_index (df1 df2 : DataFrame) : DataFrame :=
  let cols := columns df1 ++
              filter (λ c, c ∉ columns df1) (columns df2) in
  mkDF cols
    (range_index
       (((λ r : row, reindex_cells (columns df1) cols r.2) <$> rows df1) ++
        ((λ r : row, reindex_cells (columns df2) cols r.2) <$> rows df2))).

Section aligner.
Variable parse_datetime : cell → option Z.
(** Python's [str(x)] of a number, a timestamp or a date. *)
Variable py_str : cell → string.

(** [series.astype(str)] on one cell. *)
Definition astype_str (c : cell) : string :=
  match c with
  | CStr s => s
  | CNone => "None"
  | CNum NaN => "nan"
  | CNaT => "NaT"
  | _ => py_str c
  end.

(** [date.astype(str) + " " + time.fillna("00:00:00")]: adding a cell
    that is not a string to a string is a [TypeError]. *)
Definition combine_date_time (date time : cell) : result cell :=
  match fillna time (CStr "00:00:00") with
  | CStr t => Ok (CStr (astype_str date +:+ " " +:+ t))
  | _ => Raise TypeError
  end.

Definition transform_delivery_dataset (self : DataAligner)
    : result DataFrame :=
  let df1 := enriched_df self in
  if empty df1 then Ok empty_frame else
  df1 <- convert_column parse_datetime df1 "accept_time" ;;
  df1 <- convert_column parse_datetime df1 "delivery_time" ;;
  accept_time <- col_pos df1 "accept_time" ;;
  order_id <- col_pos df1 "order_id" ;;
  delivery_time <- col_pos df1 "delivery_time" ;;
  accept_gps_lat <- col_pos df1 "accept_gps_lat" ;;
  lat <- col_pos df1 "lat" ;;
  accept_gps_lng <- col_pos df1 "accept_gps_lng" ;;
  lng <- col_pos df1 "lng" ;;
  delivery_gps_lat <- col_pos df1 "delivery_gps_lat" ;;
  delivery_gps_lng <- col_pos df1 "delivery_gps_lng" ;;
  Ok (mkDF delivery_columns
        ((λ r : row,
            let pickup := cell_at accept_time r.2 in
            let delivery := cell_at delivery_time r.2 in
            (r.1,
             [cell_at order_id r.2;
              dt_date pickup;
              pickup;
              delivery;
              fillna (cell_at accept_gps_lat r.2) (cell_at lat r.2);
              fillna (cell_at accept_gps_lng r.2) (cell_at lng r.2);
              cell_at delivery_gps_lat r.2;
              cell_at delivery_gps_lng r.2;
              get_column_cell (columns df1) "Weather_Label" r.2;
              get_column_cell (columns df1) "Traffic_Label" r.2;
              eta_minutes delivery pickup])) <$> rows df1)).

Definition transform_amazon_dataset (self : DataAligner)
    : result DataFrame :=
  let df2 := amazon_df self in
  if empty df2 then Ok empty_frame else
  order_date <- col_pos df2 "Order_Date" ;;
  order_time <- col_pos df2 "Order_Time" ;;
  combined <- mapM (λ r : row, combine_date_time (cell_at order_date r.2)
                                 (cell_at order_time r.2)) (rows df2) ;;
  let pickup_datetime := to_datetime parse_datetime <$> combined in
  duration <- col_pos df2 "Delivery_Time" ;;
  deltas <- mapM (λ r : row, to_timedelta_minutes (cell_at duration r.2))
              (rows df2) ;;
  let delivery_datetime := zip_with add_timedelta pickup_datetime deltas in
  order_id <- col_pos df2 "Order_ID" ;;
  store_lat <- col_pos df2 "Store_Latitude" ;;
  store_lng <- col_pos df2 "Store_Longitude" ;;
  drop_lat <- col_pos df2 "Drop_Latitude" ;;
  drop_lng <- col_pos df2 "Drop_Longitude" ;;
  traffic <- col_pos df2 "Traffic" ;;
  Ok (mkDF amazon_columns
        (zip_with (λ (r : row) (t : cell * cell),
            let '(pickup, delivery) := t in
            (r.1,
             [cell_at order_id r.2;
              cell_at order_date r.2;
              pickup;
              delivery;
              cell_at store_lat r.2;
              cell_at store_lng r.2;
              cell_at drop_lat r.2;
              cell_at drop_lng r.2;
              cell_at traffic r.2;
              CNone;
              eta_minutes delivery pickup]))
           (rows df2) (zip pickup_datetime delivery_datetime))).

Definition align (self : DataAligner) : result DataFrame :=
  df1 <- transform_delivery_dataset self ;;
  df2 <- transform_amazon_dataset self ;;
  if empty df1 && empty df2 then Ok empty_frame
  else if empty df1 then Ok df2
  else if empty df2 then Ok df1
  else Ok (concat_ignore_index df1 df2).

End aligner.

(** ** The specification's reading of the two classifiers *)

Module WeatherSpec.

(** The six measurements of a record, each possibly missing. *)
Record readings := mk_readings {
  relative_humidity : option number;
  cloud_cover_low : option number;
  cloud_cover_total : option number;
  wind_speed : option number;
  precipitation : option number;
  is_day : option number
}.

Inductive rule := Fog | Stormy | Sandstorm | Windy | Cloudy | Sunny | Default.

(** A rule applies when all its operands are present and its condition
    holds; a missing operand makes it not applicable. *)
Definition fog (r : readings) : bool :=
  match relative_humidity r, cloud_cover_low r, wind_speed r with
  | Some rh, Some cc, Some ws =>
      num_lt (Fin 90) rh && num_lt (Fin 80) cc && num_lt ws (Fin 2)
  | _, _, _ => false
  end.

Definition stormy (r : readings) : bool :=
  match wind_speed r, precipitation r with
  | Some ws, Some p => num_lt (Fin 12) ws && num_lt (Fin 2) p
  | _, _ => false
  end.

Definition sandstorm (r : readings) : bool :=
  match wind_speed r, precipitation r, relative_humidity r with
  | Some ws, Some p, Some rh =>
      num_lt (Fin 10) ws && num_lt p (Fin WeatherMockGenerator.float_0_1)
      && num_lt rh (Fin 40)
  | _, _, _ => false
  end.

Definition windy (r : readings) : bool :=
  match wind_speed r, precipitation r with
  | Some ws, Some p =>
      num_le (Fin 6) ws && num_le ws (Fin 12) && num_lt p (Fin 1)
  | _, _ => false
  end.

Definition cloudy (r : readings) : bool :=
  match cloud_cover_total r, precipitation r with
  | Some cc, Some p => num_lt (Fin 70) cc && num_lt p (Fin 1)
  | _, _ => false
  end.

Definition sunny (r : readings) : bool :=
  match cloud_cover_total r, is_day r with
  | Some cc, Some d => num_lt cc (Fin 30) && num_eq d (Fin 1)
  | _, _ => false
  end.

(** Priority order, first match wins. *)
Definition first_rule (r : readings) : rule :=
  if fog r then Fog
  else if stormy r then Stormy
  else if sandstorm r then Sandstorm
  else if windy r then Windy
  else if cloudy r then Cloudy
  else if sunny r then Sunny
  else Default.

(** The labels as the specification spells them. *)
Definition spec_label (ru : rule) : string :=
  match ru with
  | Fog => "Fog"
  | Stormy => "Stormy"
  | Sandstorm => "Sandstorm"
  | Windy => "Windy"
  | Cloudy | Default => "Cloudy"
  | Sunny => "Sunny"
  end.

(** The labels as the code spells them. *)
Definition code_label (ru : rule) : string :=
  match ru with
  | Sandstorm => "Sandstorms"
  | _ => spec_label ru
  end.

Definition spec_labels : list string :=
  ["Fog"; "Stormy"; "Sandstorm"; "Windy"; "Cloudy"; "Sunny"].

Definition code_labels : list string :=
  ["Fog"; "Stormy"; "Sandstorms"; "Windy"; "Cloudy"; "Sunny"].

Definition num_of (c : cell) : option number :=
  match c with CNum x => Some x | _ => None end.

(** A measurement of a row: missing when the row has no such label or
    holds None there. *)
Definition reading (row : Series) (k : string) : option number :=
  match lookup_label row k with
  | Some (CNum x) => Some x
  | _ => None
  end.

Definition readings_of (row : Series) : readings :=
  {| relative_humidity := reading row "relative_humidity_2m (%)";
     cloud_cover_low := reading row "cloud_cover_low (%)";
     cloud_cover_total := reading row "cloud_cover (%)";
     wind_speed := reading row "wind_speed_10m (km/h)";
     precipitation := reading row "precipitation (mm)";
     is_day := reading row "is_day ()" |}.

(** The same, with the day indicator read as 1 when the row has no such
    label at all. *)
Definition readings_default_day (row : Series) : readings :=
  {| relative_humidity := reading row "relative_humidity_2m (%)";
     cloud_cover_low := reading row "cloud_cover_low (%)";
     cloud_cover_total := reading row "cloud_cover (%)";
     wind_speed := reading row "wind_speed_10m (km/h)";
     precipitation := reading row "precipitation (mm)";
     is_day := match lookup_label row "is_day ()" with
               | None => Some (Fin 1)
               | Some _ => reading row "is_day ()"
               end |}.

Definition measurement_labels : list string :=
  ["relative_humidity_2m (%)"; "cloud_cover_low (%)"; "cloud_cover (%)";
   "wind_speed_10m (km/h)"; "precipitation (mm)"; "is_day ()"].

(** The measurement fields of a row are numbers or None wherever they are
    present. *)
Definition numeric_cell (c : cell) : Prop :=
  match c with CNone | CNum _ => True | _ => False end.

Definition numeric_fields (row : Series) : Prop :=
  ∀ k c, k ∈ measurement_labels → lookup_label row k = Some c →
         numeric_cell c.

End WeatherSpec.

Module TrafficSpec.
Import TrafficMockGenerator.

(** Microseconds since midnight. *)
Definition micros (t : time) : Z :=
  ((hour t * 60 + minute t) * 60 + second t) * 1000000 + microsecond t.

Definition valid_time (t : time) : Prop :=
  0 ≤ hour t ≤ 23 ∧ 0 ≤ minute t ≤ 59 ∧ 0 ≤ second t ≤ 59 ∧
  0 ≤ microsecond t ≤ 999999.

Definition oclock (h : Z) : Z := h * 3600000000.

(** The buckets of the specification over the time of day. *)
Definition bucket (us : Z) : string :=
  if decide (oclock 7 ≤ us ≤ oclock 9) then "High"
  else if decide (oclock 17 ≤ us ≤ oclock 19) then "Jam"
  else if decide (oclock 22 ≤ us ∨ us ≤ oclock 5) then "Low"
  else "Medium".

Definition labels : list string := ["Low"; "Medium"; "High"; "Jam"].

End TrafficSpec.

(** ** A reader of ISO timestamps

    [pd.to_datetime] on the spelling [YYYY-MM-DD HH:MM:SS]; every other
    value is rejected.  It stands for the parser where a statement is run
    on concrete tables; the general statements hold for every parser. *)
Module Iso.
Import TrafficMockGenerator.

Definition four_digits (a b c d : ascii) : option Z :=
  x ← two_digits a b; y ← two_digits c d; Some (100 * x + y).

Definition leap (y : Z) : bool :=
  bool_decide (y mod 4 = 0 ∧ (y mod 100 ≠ 0 ∨ y mod 400 = 0)).

Definition days_in_month (y m : Z) : Z :=
  if decide (m = 2) then (if leap y then 29 else 28)
  else if decide (m = 4 ∨ m = 6 ∨ m = 9 ∨ m = 11) then 30 else 31.

(** Days from 1970-01-01 to the given civil date. *)
Definition days_from_civil (y m d : Z) : Z :=
  let y := if decide (m ≤ 2) then y - 1 else y in
  let era := y / 400 in
  let yoe := y - era * 400 in
  let doy := (153 * (if decide (m ≤ 2) then m + 9 else m - 3) + 2) / 5
             + d - 1 in
  let doe := yoe * 365 + yoe / 4 - yoe / 100 + doy in
  era * 146097 + doe - 719468.

Definition parse_string (s : string) : option Z :=
  match list_ascii_of_string s with
  | [y1; y2; y3; y4; "-"%char; m1; m2; "-"%char; d1; d2; " "%char;
     h1; h2; ":"%char; n1; n2; ":"%char; s1; s2] =>
      y ← four_digits y1 y2 y3 y4;
      mo ← two_digits m1 m2; d ← two_digits d1 d2;
      h ← two_digits h1 h2; mi ← two_digits n1 n2; se ← two_digits s1 s2;
      if decide (1 ≤ mo ≤ 12 ∧ 1 ≤ d ≤ days_in_month y mo ∧
                 h ≤ 23 ∧ mi ≤ 59 ∧ se ≤ 59)
      then Some ((days_from_civil y mo d * 86400
                  + h * 3600 + mi * 60 + se) * 1000000000)
      else None
  | _ => None
  end.

Definition parse_datetime (c : cell) : option Z :=
  match c with
  | CStr s => parse_string s
  | _ => None
  end.

(** [str(x)] of a cell that is not a string.  The sample tables hold
    strings in their date column, where [astype(str)] changes nothing, so
    this is never reached on them. *)
Definition py_str (c : cell) : string := EmptyString.

End Iso.

(** ** Sample records and tables *)

Definition sandstorm_row : Series :=
  [("relative_humidity_2m (%)", CNum (Fin 30));
   ("wind_speed_10m (km/h)", CNum (Fin 11));
   ("precipitation (mm)", CNum (Fin 0))].

Definition clear_sky_row : Series := [("cloud_cover (%)", CNum (Fin 10))].


(** A delivery file of three orders: one accepted at 08:30, one whose
    acceptance time does not parse, one accepted before any weather
    observation.  The header is spelled loosely, as files are. *)
Definition sample_delivery : csv :=
  mk_csv
    ["order_id"; " Accept_Time"; "delivery_time";
     "accept_gps_lat"; "accept_gps_lng"; "lat"; "lng";
     "delivery_gps_lat"; "delivery_gps_lng"]
    [[CNum (Fin 1); CStr "2025-01-01 08:30:00"; CStr "2025-01-01 08:45:00";
      CNum (Fin (3012 # 100)); CNum (Fin (12047 # 100));
      CNum (Fin 30); CNum (Fin 120);
      CNum (Fin (3015 # 100)); CNum (Fin (12050 # 100))];
     [CNum (Fin 2); CStr "yesterday"; CStr "2025-01-01 18:00:00";
      CNum NaN; CNum NaN; CNum (Fin 30); CNum (Fin 120);
      CNum (Fin (3015 # 100)); CNum (Fin (12050 # 100))];
     [CNum (Fin 3); CStr "2025-01-01 00:10:00"; CStr "2025-01-01 00:40:00";
      CNum NaN; CNum (Fin (12047 # 100)); CNum (Fin 30); CNum (Fin 120);
      CNum (Fin (3015 # 100)); CNum (Fin (12050 # 100))]].

(** The same file without its delivery_time column. *)
Definition sample_delivery_no_delivery_time : csv :=
  mk_csv
    ["order_id"; " Accept_Time"]
    [[CNum (Fin 1); CStr "2025-01-01 08:30:00"];
     [CNum (Fin 2); CStr "yesterday"]].

(** A weather file: observations at 08:00 and 09:00 and one whose
    timestamp does not parse. *)
Definition sample_weather : csv :=
  mk_csv
    ["time"; "relative_humidity_2m (%)"; "cloud_cover_low (%)";
     "cloud_cover (%)"; "wind_speed_10m (km/h)"; "precipitation (mm)";
     "is_day ()"]
    [[CStr "2025-01-01 09:00:00"; CNum (Fin 50); CNum (Fin 10);
      CNum (Fin 20); CNum (Fin 8); CNum (Fin 0); CNum (Fin 1)];
     [CStr "2025-01-01 08:00:00"; CNum (Fin 95); CNum (Fin 85);
      CNum (Fin 90); CNum (Fin 1); CNum (Fin 0); CNum (Fin 1)];
     [CStr "unknown"; CNum (Fin 10); CNum (Fin 10);
      CNum (Fin 10); CNum (Fin 10); CNum (Fin 10); CNum (Fin 1)]].

Definition sample_files : gmap string csv :=
  {[ "delivery.csv" := sample_delivery;
     "delivery_short.csv" := sample_delivery_no_delivery_time;
     "weather.csv" := sample_weather ]}.

(** The value of a computation that is known to succeed. *)
Definition value {A} (d : A) (m : result A) : A :=
  match m with Ok a => a | Raise _ => d end.

Definition no_ingest : DataIngest := mk_ingest empty_frame empty_frame EmptyString.

Definition sample_ingest : DataIngest :=
  value no_ingest
    (load_data Iso.parse_datetime sample_files "delivery.csv" "weather.csv").

Definition sample_with_weather : DataIngest :=
  value no_ingest (enrich_with_weather sample_ingest).

Definition sample_enriched : DataIngest :=
  value no_ingest
    (enrich_with_traffic_and_vehicles TrafficMockGenerator.strptime_padded
       sample_with_weather).

Definition short_ingest : DataIngest :=
  value no_ingest
    (load_data Iso.parse_datetime sample_files
       "delivery_short.csv" "weather.csv").

Definition short_with_weather : DataIngest :=
  value no_ingest (enrich_with_weather short_ingest).

(** An external-provider file: the order of the specification's scenario,
    an order without an order time, and an order dated 30 February. *)
Definition sample_amazon : DataFrame :=
  mkDF
    ["Order_ID"; "Store_Latitude"; "Store_Longitude"; "Drop_Latitude";
     "Drop_Longitude"; "Order_Date"; "Order_Time"; "Traffic"; "Delivery_Time"]
    [(0, [CStr "A1"; CNum (Fin 22); CNum (Fin 88); CNum (Fin (221 # 10));
          CNum (Fin (881 # 10)); CStr "2025-02-01"; CStr "10:00:00";
          CStr "High "; CNum (Fin 45)]);
     (1, [CStr "A2"; CNum (Fin 22); CNum (Fin 88); CNum (Fin (221 # 10));
          CNum (Fin (881 # 10)); CStr "2025-02-01"; CNum NaN;
          CStr "Low "; CNum (Fin 30)]);
     (2, [CStr "A3"; CNum (Fin 22); CNum (Fin 88); CNum (Fin (221 # 10));
          CNum (Fin (881 # 10)); CStr "2025-02-30"; CStr "10:00:00";
          CStr "Jam "; CNum (Fin 45)])].

Definition sample_aligner : DataAligner :=
  mk_aligner (delivery_df sample_enriched) sample_amazon.

(** Only the external provider has rows. *)
Definition external_only : DataAligner :=
  mk_aligner empty_frame sample_amazon.

(** ** Auxiliary notions used in the statements *)

(** Every row has one cell per column. *)
Definition well_formed (df : DataFrame) : Prop :=
  Forall (λ r : row, length r.2 = length (columns df)) (rows df).

(** A row with its cell at position [i] converted to a timestamp. *)
Definition converted (parse_datetime : cell → option Z) (i : nat) (r : row)
    : row :=
  (r.1, <[i := to_datetime parse_datetime (cell_at i r.2)]> r.2).

(** A table with its column [c], if it has one, converted. *)
Definition convert_at (parse_datetime : cell → option Z) (c : string)
    (df : DataFrame) : DataFrame :=
  match col_index c (columns df) with
  | Some i => mkDF (columns df) (converted parse_datetime i <$> rows df)
  | None => df
  end.

(** A file read, its column labels normalised. *)
Definition normalized (f : csv) : DataFrame :=
  mkDF (normalize <$> header f) (rows (read_csv f)).

(** A cell of a converted column: a timestamp or NaT. *)
Definition time_or_NaT (c : cell) : Prop :=
  match c with CTime _ | CNaT => True | _ => False end.

(** The right rows in key order. *)
Definition key_sorted (l : list (Z * row)) : Prop :=
  StronglySorted (λ p q : Z * row, p.1 ≤ q.1) l.

(** [w] is what a backward as-of match of the key [k] against the keyed
    rows [right] has to be: a row with the greatest key at most [k], or
    nothing when every key is greater. *)
Definition asof_match (right : list (Z * row)) (k : Z) (w : option row)
    : Prop :=
  match w with
  | Some wr =>
      ∃ kw, (kw, wr) ∈ right ∧ kw ≤ k ∧ ∀ p, p ∈ right → p.1 ≤ k → p.1 ≤ kw
  | None => ∀ p, p ∈ right → k < p.1
  end.

(** The columns [transform_delivery_dataset] reads with [df[...]]. *)
Definition required_columns : list string :=
  ["order_id"; "accept_time"; "delivery_time";
   "accept_gps_lat"; "accept_gps_lng"; "lat"; "lng";
   "delivery_gps_lat"; "delivery_gps_lng"].

(** The reshaped local table, each cell named by the column it is read
    from (None for a column the table does not have). *)
Definition reshaped_delivery (parse_datetime : cell → option Z)
    (df : DataFrame) : DataFrame :=
  let df1 := convert_at parse_datetime "delivery_time"
               (convert_at parse_datetime "accept_time" df) in
  mkDF delivery_columns
    ((λ r : row,
        let cell c := get_column_cell (columns df) c r.2 in
        (r.1,
         [cell "order_id";
          dt_date (cell "accept_time");
          cell "accept_time";
          cell "delivery_time";
          fillna (cell "accept_gps_lat") (cell "lat");
          fillna (cell "accept_gps_lng") (cell "lng");
          cell "delivery_gps_lat";
          cell "delivery_gps_lng";
          cell "Weather_Label";
          cell "Traffic_Label";
          eta_minutes (cell "delivery_time") (cell "accept_time")]))
     <$> rows df1).

(** What [transform_amazon_dataset] makes of one row [r]: the output row
    [o], with the order time [t] read for it and the duration [delta]. *)
Definition amazon_row (parse_datetime : cell → option Z)
    (py_str : cell → string) (cols : list string) (r o : row) : Prop :=
  let cell c := get_column_cell cols c r.2 in
  ∃ (t : string) (delta : option Z),
    fillna (cell "Order_Time") (CStr "00:00:00") = CStr t ∧
    to_timedelta_minutes (cell "Delivery_Time") = Ok delta ∧
    let pickup :=
      to_datetime parse_datetime
        (CStr (astype_str py_str (cell "Order_Date") +:+ " " +:+ t)) in
    let delivery := add_timedelta pickup delta in
    o = (r.1,
         [cell "Order_ID"; cell "Order_Date"; pickup; delivery;
          cell "Store_Latitude"; cell "Store_Longitude";
          cell "Drop_Latitude"; cell "Drop_Longitude";
          cell "Traffic"; CNone; eta_minutes delivery pickup]).

(** The cells of column [c], where the table has one, are timestamps or
    NaT. *)
Definition time_column (df : DataFrame) (c : string) : Prop :=
  ∀ i, col_index c (columns df) = Some i →
       Forall (λ r : row, time_or_NaT (cell_at i r.2)) (rows df).

(** The cells of the measurement columns, where the table has them, are
    numbers or None. *)
Definition numeric_measurements (df : DataFrame) : Prop :=
  ∀ k i, k ∈ WeatherSpec.measurement_labels →
         col_index k (columns df) = Some i →
         Forall (λ r : row, WeatherSpec.numeric_cell (cell_at i r.2)) (rows df).

(** What ingestion establishes of the state it returns. *)
Definition ingested (self : DataIngest) : Prop :=
  well_formed (delivery_df self) ∧ well_formed (weather_df self) ∧
  "accept_time" ∈ columns (delivery_df self) ∧
  weather_time_col self ∈ columns (weather_df self) ∧
  weather_time_col self ∈ time_candidates ∧
  time_column (delivery_df self) "accept_time" ∧
  time_column (weather_df self) (weather_time_col self).

(** ** nexus_drive_etl_pipeline_DAG.py *)

Definition DEBUG_MODE : bool := true.
Definition MAX_ROWS : nat := 500.
Definition CITIES : list string := ["jl"; "yt"; "hz"; "cq"; "sh"].

(** [pd.read_csv(path, nrows=n)]: the first [n] records only. *)
Definition read_csv_nrows (nrows : option nat) (f : csv) : DataFrame :=
  read_csv (mk_csv (header f)
              (match nrows with
               | Some n => take n (records f)
               | None => records f
               end)).

(** The column labels of [pd.concat]: those of the first table, then the
    new ones of each further table, in the order they come. *)
Definition union_columns (dfs : list DataFrame) : list string :=
  foldl (λ cols df, cols ++ filter (λ c, c ∉ cols) (columns df)) [] dfs.

(** [pd.concat(dfs, ignore_index=True)] of tables whose labels are
    unique. *)
Definition concat_all_ignore_index (dfs : list DataFrame)
    : result DataFrame :=
  match dfs with
  | [] => Raise (ValueError "No objects to concatenate")
  | _ =>
      let cols := union_columns dfs in
      Ok (mkDF cols
            (range_index
               (dfs ≫= λ df,
                  (λ r : row, reindex_cells (columns df) cols r.2) <$>
                    rows df)))
  end.

(** The table [combine_enriched_datasets] writes, from the enriched file
    of each city as it was downloaded. *)
Definition combine_enriched_datasets (enriched : string → csv)
    : result DataFrame :=
  concat_all_ignore_index
    ((λ city, read_csv_nrows (if DEBUG_MODE then Some MAX_ROWS else None)
                (enriched city)) <$> CITIES).

Section dag.
Variable parse_datetime : cell → option Z.
Variable strptime_time : string → option TrafficMockGenerator.time.

(** The city, the two timestamp columns read again and the target of
    [enrich_city_data], on the enriched table. *)
Definition add_city_and_eta (enriched_df : DataFrame) (city : string)
    : result DataFrame :=
  let enriched_df :=
    set_column enriched_df "city"
      (replicate (length (rows enriched_df)) (CStr city)) in
  enriched_df <- convert_column parse_datetime enriched_df "accept_time" ;;
  enriched_df <- convert_column parse_datetime enriched_df "delivery_time" ;;
  delivery_time <- column enriched_df "delivery_time" ;;
  accept_time <- column enriched_df "accept_time" ;;
  Ok (set_column enriched_df "ETA_target"
        (zip_with eta_minutes delivery_time accept_time)).

(** The table [enrich_city_data] saves for a city, from the two files as
    they were downloaded. *)
Definition enrich_city_data (fs : gmap string csv)
    (delivery_path weather_path city : string) : result DataFrame :=
  loader <- load_data parse_datetime fs delivery_path weather_path ;;
  loader <- enrich_with_weather loader ;;
  loader <- enrich_with_traffic_and_vehicles strptime_time loader ;;
  add_city_and_eta (delivery_df loader) city.

End dag.

(** ** Further sample records *)

(** A record without wind speed and cloud cover, its humidity a string. *)
Definition humidity_only_row : Series :=
  [("relative_humidity_2m (%)", CStr "wet");
   ("precipitation (mm)", CNum (Fin 3))].

(** The clear-sky record with an order number beside it. *)
Definition clear_sky_order_row : Series :=
  [("order_id", CNum (Fin 7)); ("cloud_cover (%)", CNum (Fin 10))].

(** The sample files with their headers spelled in capitals and with
    blanks around them. *)
Definition sample_files_respelled : gmap string csv :=
  {[ "delivery.csv" :=
       mk_csv ["Order_ID"; "accept_time  "; " DELIVERY_TIME";
               "Accept_GPS_Lat"; "Accept_GPS_Lng"; "LAT"; "LNG";
               "Delivery_GPS_Lat"; "Delivery_GPS_Lng"]
         (records sample_delivery);
     "weather.csv" :=
       mk_csv [" Time"; "Relative_Humidity_2m (%)"; "Cloud_Cover_Low (%)";
               "Cloud_Cover (%)"; "Wind_Speed_10m (km/h)";
               "Precipitation (mm)"; "Is_Day ()"]
         (records sample_weather) ]}.

(** ** Further notions used in the statements *)

(** The observations matched to two rows, the first row above the second
    in the table: once a row has an observation every row below has one,
    and a later one or the same. *)
Definition matched_le (i : nat) (a b : option row) : Prop :=
  match a, b with
  | None, _ => True
  | Some _, None => False
  | Some w, Some w' => key_le (sort_key i w) (sort_key i w')
  end.

(** [df.rename(columns={wcol: "time_weather"})] on the labels. *)
Definition renamed_time (wcol : string) (cols : list string) : list string :=
  (λ c, if decide (c = wcol) then "time_weather" else c) <$> cols.

(** The columns [transform_amazon_dataset] reads with [df2[...]]. *)
Definition amazon_required : list string :=
  ["Order_Date"; "Order_Time"; "Delivery_Time"; "Order_ID";
   "Store_Latitude"; "Store_Longitude"; "Drop_Latitude"; "Drop_Longitude";
   "Traffic"].

(** An order time that can be added to the date: a string, or a null that
    [fillna] replaces. *)
Definition order_time_ok (c : cell) : Prop :=
  isna c = true ∨ ∃ t, c = CStr t.

(** A duration [pd.to_timedelta(..., unit="m")] accepts: a number or a
    null. *)
Definition duration_ok (c : cell) : Prop :=
  match c with
  | CNum _ | CNone | CNaT => True
  | CStr _ | CTime _ | CDate _ => False
  end.

(** The rows of a table that count: none when the table is empty. *)
Definition row_count (df : DataFrame) : nat :=
  if empty df then 0%nat else length (rows df).

(** The first [MAX_ROWS] records of a file as [read_csv] lays them out:
    each padded to the header with NaN. *)
Definition capped_records (f : csv) : list (list cell) :=
  resize (length (header f)) (CNum NaN) <$> take MAX_ROWS (records f).

(** Every city's enriched file is the sample delivery file. *)
Definition sample_enriched_files (city : string) : csv := sample_delivery.

(** The table of the sample files once [enrich_city_data] has finished, and
    its reshaping. *)
Definition sample_city_frame : DataFrame :=
  value empty_frame
    (add_city_and_eta Iso.parse_datetime (delivery_df sample_enriched) "hz").

Definition sample_reshaped : DataFrame :=
  value empty_frame
    (transform_delivery_dataset Iso.parse_datetime
       (mk_aligner sample_city_frame sample_amazon)).

(** The first and the last character of a string. *)
Definition first_char (s : string) : option ascii :=
  match s with
  | String a _ => Some a
  | EmptyString => None
  end.

Fixpoint last_char (s : string) : option ascii :=
  match s with
  | String a s' =>
      match last_char s' with
      | None => Some a
      | x => x
      end
  | EmptyString => None
  end.

(** ** Where the embedding is exact

    The statements about files and durations below are made where the
    tables of this development are what pandas computes; outside, pandas
    renames or shifts columns, rounds, or raises, and no statement is
    made. *)

(** A string of ASCII characters: [strip] and [lower] above are Python's
    on such strings. *)
Definition ascii_only (s : string) : Prop :=
  Forall (λ a, (Ascii.N_of_ascii a < 128)%N) (list_ascii_of_string s).

#[global] Instance ascii_only_dec s : Decision (ascii_only s).
Proof. unfold ascii_only. apply _. Defined.

(** A file [pd.read_csv] reads as it stands: it has a header, of labels
    that are not empty and not repeated (pandas renames those), and no
    record has more fields than the header (pandas then takes the first
    field for the index). *)
Definition readable (f : csv) : Prop :=
  header f ≠ [] ∧ NoDup (header f) ∧ (EmptyString ∉ header f) ∧
  Forall (λ fields : list cell, (length fields ≤ length (header f))%nat)
    (records f).

#[global] Instance readable_dec f : Decision (readable f).
Proof. unfold readable. apply _. Defined.

(** A readable file whose labels are ASCII and still distinct once
    normalised: [df[c]] is then a column, never a sub-table. *)
Definition loadable (f : csv) : Prop :=
  readable f ∧ Forall ascii_only (header f) ∧
  NoDup (normalize <$> header f).

#[global] Instance loadable_dec f : Decision (loadable f).
Proof. unfold loadable. apply _. Defined.

(** [load_data] with a parser for each of the three columns it converts.
    [pd.to_datetime] settles on one format for a column from the cells of
    that column, so two columns may read the same string differently;
    [load_data p] is [load_data_with p p p]. *)
Definition load_data_with
    (parse_accept parse_delivery parse_weather : cell → option Z)
    (fs : gmap string csv) (delivery_file weather_file : string)
    : result DataIngest :=
  match fs !! delivery_file with
  | None =>
      Raise (FileNotFoundError ("❌ Delivery file not found: " +:+ delivery_file))
  | Some dfile =>
  match fs !! weather_file with
  | None =>
      Raise (FileNotFoundError ("❌ Weather file not found: " +:+ weather_file))
  | Some wfile =>
      let delivery := read_csv dfile in
      let weather := read_csv wfile in
      let delivery := mkDF (normalize <$> columns delivery) (rows delivery) in
      let weather := mkDF (normalize <$> columns weather) (rows weather) in
      delivery <- (if decide ("accept_time" ∈ columns delivery)
                   then convert_column parse_accept delivery "accept_time"
                   else Raise (KeyError
                                 "❌ Missing 'accept_time' in delivery data.")) ;;
      delivery <- (if decide ("delivery_time" ∈ columns delivery)
                   then convert_column parse_delivery delivery "delivery_time"
                   else Ok delivery) ;;
      match list_find (λ c, c ∈ columns weather) time_candidates with
      | None => Raise (KeyError "❌ No timestamp column found in weather file.")
      | Some (_, weather_time_col) =>
          weather <- convert_column parse_weather weather weather_time_col ;;
          Ok (mk_ingest delivery weather weather_time_col)
      end
  end
  end.

(** Nanoseconds that leave room for a sum in 64 bits. *)
Definition in_range (z : Z) : Prop := - 2 ^ 62 < z < 2 ^ 62.

#[global] Instance in_range_dec z : Decision (in_range z).
Proof. unfold in_range. apply _. Defined.

(** The nanoseconds of [q] minutes as the model reads them, and the
    durations [pd.to_timedelta(..., unit="m")] reads without rounding: a
    whole number of minutes, which it only multiplies.  (Of another
    duration pandas rounds the fraction, first to ten decimals.) *)
Definition duration_ns (q : Q) : Z :=
  Z.quot (Qnum q * 60000000000) (Z.pos (Qden q)).



(** A duration cell that does not overflow: not an infinite float, and
    in range when it is a number. *)
Definition duration_in_range (c : cell) : Prop :=
  match c with
  | CNum (Fin q) => in_range (duration_ns q)
  | CNum PosInf | CNum NegInf => False
  | _ => True
  end.

(** The reader of ISO timestamps, kept to the timestamps in range. *)
Definition parse_in_range (c : cell) : option Z :=
  t ← Iso.parse_datetime c; if decide (in_range t) then Some t else None.

(** *** The target as a float

    [(delivery - pickup).dt.total_seconds() / 60] in float64: the
    nanoseconds (an int64) become a float, which is divided by 1e9, and
    the seconds are divided by 60; each of the three results is rounded to
    the nearest float, ties to even. *)

(** The integer nearest to [n / d], for [0 < d]; ties to even. *)
Definition round_half_even (n d : Z) : Z :=
  let q := n / d in
  let r := n mod d in
  if decide (2 * r < d) then q
  else if decide (d < 2 * r) then q + 1
  else if Z.even q then q else q + 1.

(** [n / d], for [0 < n] and [0 < d], rounded to 53 significant bits:
    the exponent [e] is set so that [2^52 <= (n / d) / 2^e < 2^53], and
    the quotient is rounded to an integer there. *)
Definition round_pos (n d : Z) : Q :=
  let e := Z.log2 n - Z.log2 d - 53 in
  let N := if decide (0 ≤ e) then n else n * 2 ^ (- e) in
  let D := if decide (0 ≤ e) then d * 2 ^ e else d in
  if decide (N < D * 2 ^ 53)
  then (inject_Z (round_half_even N D) * 2 ^ e)%Q
  else (inject_Z (round_half_even N (2 * D)) * 2 ^ (e + 1))%Q.

(** The float64 nearest to [x], where the exponent is in range (it is
    for every quotient computed here). *)
Definition float64_round (x : Q) : Q :=
  match Qnum x with
  | 0 => 0%Q
  | Z.pos n => round_pos (Z.pos n) (Z.pos (Qden x))
  | Z.neg n => (- round_pos (Z.pos n) (Z.pos (Qden x)))%Q
  end.

(** [timedelta.total_seconds()] *)
Definition total_seconds (ns : Z) : Q :=
  float64_round (float64_round (inject_Z ns) / (1000000000 # 1)).

(** [eta_minutes] with the roundings of the code. *)
Definition eta_minutes_float (delivery pickup : cell) : cell :=
  match delivery, pickup with
  | CTime d, CTime p =>
      CNum (Fin (float64_round (total_seconds (d - p) / (60 # 1))))
  | _, _ => CNum NaN
  end.

(** A table has a timestamp in column [c]. *)
Definition has_timestamp (df : DataFrame) (c : string) : Prop :=
  ∃ i r t, col_index c (columns df) = Some i ∧ r ∈ rows df ∧
           cell_at i r.2 = CTime t.

(** A weather file that happens to have a delivery_time column. *)
Definition sample_weather_with_delivery_time : csv :=
  mk_csv
    ["time"; "delivery_time"]
    [[CStr "2025-01-01 08:00:00"; CStr "01-01 17:30:00"]].

Definition sample_files_weather_delivery_time : gmap string csv :=
  {[ "delivery_short.csv" := sample_delivery_no_delivery_time;
     "weather.csv" := sample_weather_with_delivery_time ]}.

(** * Properties *)

(** ** Rational comparisons *)

Lemma Qeqb_true (x y : Q) : Qeqb x y = true ↔ (x == y)%Q.
Proof.
  unfold Qeqb. rewrite Qeq_alt. destruct (x ?= y)%Q; split; congruence.
Qed.

Lemma Qltb_true (x y : Q) : Qltb x y = true ↔ (x < y)%Q.
Proof.
  unfold Qltb. rewrite Qlt_alt. destruct (x ?= y)%Q; split; congruence.
Qed.

Lemma Qleb_true (x y : Q) : Qleb x y = true ↔ (x <= y)%Q.
Proof.
  unfold Qleb. rewrite Qle_alt. destruct (x ?= y)%Q; split; congruence.
Qed.

Lemma Qltb_zero (k q : Q) : (0 <= k)%Q → Qeqb q 0 = true → Qltb k q = false.
Proof.
  intros Hk Hq. apply Qeqb_true in Hq.
  destruct (Qltb k q) eqn:E; [|done].
  apply Qltb_true in E. rewrite Hq in E.
  exfalso. apply (Qlt_irrefl 0). eapply Qle_lt_trans; eauto.
Qed.

Lemma Qleb_zero (k q : Q) : (0 < k)%Q → Qeqb q 0 = true → Qleb k q = false.
Proof.
  intros Hk Hq. apply Qeqb_true in Hq.
  destruct (Qleb k q) eqn:E; [|done].
  apply Qleb_true in E. rewrite Hq in E.
  exfalso. apply (Qlt_irrefl 0). eapply Qlt_le_trans; eauto.
Qed.
Example label_fog :
  WeatherMockGenerator.generate_label
    [("relative_humidity_2m (%)", CNum (Fin 95));
     ("cloud_cover_low (%)", CNum (Fin 85));
     ("wind_speed_10m (km/h)", CNum (Fin 1))] = Ok "Fog".
Proof. reflexivity. Qed.

Example label_sandstorms :
  WeatherMockGenerator.generate_label
    [("relative_humidity_2m (%)", CNum (Fin 30));
     ("wind_speed_10m (km/h)", CNum (Fin 11));
     ("precipitation (mm)", CNum (Fin 0))] = Ok "Sandstorms".
Proof. reflexivity. Qed.

Example label_string_cell_raises :
  WeatherMockGenerator.generate_label
    [("relative_humidity_2m (%)", CStr "high");
     ("cloud_cover_low (%)", CNum (Fin 85));
     ("wind_speed_10m (km/h)", CNum (Fin 1))] = Raise TypeError.
Proof. reflexivity. Qed.

Example iso_2025_02_01 :
  Iso.parse_string "2025-02-01 10:00:00" = Some 1738404000000000000.
Proof. reflexivity. Qed.

Example iso_bad_day : Iso.parse_string "2025-02-30 10:00:00" = None.
Proof. reflexivity. Qed.

(** ** The weather classifier *)

Section weather.
Import WeatherMockGenerator WeatherSpec.

Lemma and_then_Ok (a b : bool) : and_then (Ok a) (Ok b) = Ok (a && b).
Proof. by destruct a. Qed.

Lemma reading_get row k : num_of (get row k CNone) = reading row k.
Proof. unfold get, reading. by destruct (lookup_label row k) as [[]|]. Qed.

Lemma numeric_get row k d :
  numeric_fields row → k ∈ measurement_labels → numeric_cell d →
  numeric_cell (get row k d).
Proof.
  intros Hrow Hk Hd. unfold get.
  destruct (lookup_label row k) as [c|] eqn:E; simpl; eauto.
Qed.

(** A zero is skipped by the truth test of a guard, and fails the
    comparison the guard protects. *)
Ltac zero_cases :=
  repeat match goal with
  | |- context [Qeqb ?q 0] =>
      let E := fresh "E" in
      destruct (Qeqb q 0) eqn:E; simpl;
      [ try (rewrite (Qltb_zero _ q) by (done || by apply Qeqb_true in E));
        try (rewrite (Qleb_zero _ q) by (done || by apply Qeqb_true in E))
      | ]
  end.

Ltac numeric_cases :=
  repeat match goal with
  | H : numeric_cell ?c |- _ =>
      destruct c as [|[?| | |]| | | |]; simpl in H; try done; clear H
  end;
  simpl; zero_cases; rewrite ?and_then_Ok, ?andb_false_r; simpl; try done;
  repeat match goal with
  | |- context [Qltb ?a ?b] => destruct (Qltb a b); simpl; try done
  | |- context [Qleb ?a ?b] => destruct (Qleb a b); simpl; try done
  | |- context [Qeqb ?a ?b] => destruct (Qeqb a b); simpl; try done
  end.

Section rules.
Context (rh cc_low cc_total ws precip day : cell) (r : readings).
Hypothesis (Hrh : numeric_cell rh) (Hcc_low : numeric_cell cc_low)
  (Hcc_total : numeric_cell cc_total) (Hws : numeric_cell ws)
  (Hprecip : numeric_cell precip) (Hday : numeric_cell day).
Hypothesis (Erh : relative_humidity r = num_of rh)
  (Ecc_low : cloud_cover_low r = num_of cc_low)
  (Ecc_total : cloud_cover_total r = num_of cc_total)
  (Ews : wind_speed r = num_of ws)
  (Eprecip : precipitation r = num_of precip)
  (Eday : is_day r = num_of day).

Lemma fog_block :
  (if truthy rh && truthy cc_low && not_none ws
   then and_then (cell_gt rh 90)
          (and_then (cell_gt cc_low 80) (cell_lt ws 2))
   else Ok false) = Ok (fog r).
Proof using Hrh Hcc_low Hws Erh Ecc_low Ews.
  unfold fog. rewrite Erh, Ecc_low, Ews. clear - Hrh Hcc_low Hws.
  numeric_cases.
Qed.

Lemma stormy_block :
  (if truthy ws && not_none precip
   then and_then (cell_gt ws 12) (cell_gt precip 2)
   else Ok false) = Ok (stormy r).
Proof using Hws Hprecip Ews Eprecip.
  unfold stormy. rewrite Ews, Eprecip. clear - Hws Hprecip.
  numeric_cases.
Qed.

Lemma sandstorm_block :
  (if truthy ws && not_none precip && not_none rh
   then and_then (cell_gt ws 10)
          (and_then (cell_lt precip float_0_1) (cell_lt rh 40))
   else Ok false) = Ok (sandstorm r).
Proof using Hws Hprecip Hrh Ews Eprecip Erh.
  unfold sandstorm. rewrite Ews, Eprecip, Erh. clear - Hws Hprecip Hrh.
  numeric_cases.
Qed.

Lemma windy_block :
  (if truthy ws && not_none precip
   then and_then (and_then (cell_ge ws 6) (cell_le ws 12))
          (cell_lt precip 1)
   else Ok false) = Ok (windy r).
Proof using Hws Hprecip Ews Eprecip.
  unfold windy. rewrite Ews, Eprecip. clear - Hws Hprecip.
  numeric_cases.
Qed.

Lemma cloudy_block :
  (if truthy cc_total && not_none precip
   then and_then (cell_gt cc_total 70) (cell_lt precip 1)
   else Ok false) = Ok (cloudy r).
Proof using Hcc_total Hprecip Ecc_total Eprecip.
  unfold cloudy. rewrite Ecc_total, Eprecip. clear - Hcc_total Hprecip.
  numeric_cases.
Qed.

Lemma sunny_block :
  (if not_none cc_total && not_none day
   then and_then (cell_lt cc_total 30) (Ok (cell_eq day 1))
   else Ok false) = Ok (sunny r).
Proof using Hcc_total Hday Ecc_total Eday.
  unfold sunny. rewrite Ecc_total, Eday. clear - Hcc_total Hday.
  numeric_cases.
Qed.
End rules.

(** The code computes the first applicable rule of the specification, on
    the readings with the day indicator defaulted. *)
Lemma generate_label_refines (row : Series) :
  numeric_fields row →
  generate_label row = Ok (code_label (first_rule (readings_default_day row))).
Proof.
  intros Hrow. unfold generate_label.
  set (r := readings_default_day row).
  assert (∀ k, k ∈ measurement_labels → numeric_cell (get row k CNone)) as Hn
    by (intros; by apply numeric_get).
  assert (numeric_cell (get row "is_day ()" (CNum (Fin 1)))) as Hd
    by (apply numeric_get; [done|set_solver|done]).
  assert (is_day r = num_of (get row "is_day ()" (CNum (Fin 1)))) as Ed.
  { unfold r, readings_default_day, get, reading; simpl.
    by destruct (lookup_label row "is_day ()") as [[]|]. }
  rewrite (fog_block _ _ _ r), (stormy_block _ _ r),
    (sandstorm_block _ _ _ r), (windy_block _ _ r), (cloudy_block _ _ r),
    (sunny_block _ _ r);
    try (apply Hn; set_solver); try done;
    try (unfold r; simpl; by rewrite reading_get).
  unfold first_rule; simpl.
  by destruct (fog r), (stormy r), (sandstorm r), (windy r), (cloudy r),
    (sunny r).
Qed.

Lemma code_label_in (ru : rule) : code_label ru ∈ code_labels.
Proof. destruct ru; unfold code_labels; simpl; set_solver. Qed.

Lemma stormy_not_fog (r : readings) : stormy r = true → fog r = false.
Proof.
  unfold stormy, fog.
  destruct (relative_humidity r), (cloud_cover_low r),
    (wind_speed r) as [[ws| | |]|], (precipitation r); simpl; try done.
  - intros [H _]%andb_prop. apply Qltb_true in H.
    destruct (Qltb ws 2) eqn:E; [|by rewrite andb_false_r].
    apply Qltb_true in E. exfalso.
    apply (Qlt_irrefl ws), (Qlt_trans _ 2); [done|].
    by apply (Qlt_trans _ 12).
  - by rewrite andb_false_r.
Qed.

Ltac numeric_row :=
  let Hk := fresh in
  intros ? ? Hk; unfold measurement_labels in Hk;
  repeat (apply elem_of_cons in Hk as [->|Hk]);
  try (by apply elem_of_nil in Hk);
  simpl; intros [= <-] || intros [=]; done.

Lemma sandstorm_row_numeric : numeric_fields sandstorm_row.
Proof. numeric_row. Qed.

Lemma clear_sky_row_numeric : numeric_fields clear_sky_row.
Proof. numeric_row. Qed.
End weather.

(** C2, as stated: on every record whose measurement fields are numbers or
    absent, the classifier returns a label of the set
    {Fog, Stormy, Sandstorm, Windy, Cloudy, Sunny}.  This fails: the third
    rule's label is spelled "Sandstorms". *)
Lemma C2_sandstorms_not_in_spec_labels :
  ¬ (∀ row, WeatherSpec.numeric_fields row →
       ∃ l, WeatherMockGenerator.generate_label row = Ok l ∧
            l ∈ WeatherSpec.spec_labels).
Proof.
  intros H. destruct (H sandstorm_row sandstorm_row_numeric) as (l & Hl & Hin).
  vm_compute in Hl. injection Hl as <-.
  unfold WeatherSpec.spec_labels in Hin.
  repeat (apply elem_of_cons in Hin as [Hin|Hin]; [discriminate Hin|]).
  by apply elem_of_nil in Hin.
Qed.

(** C2, amended: the weather label classifier is total.  On every record,
    whatever measurement fields are present or absent (each a number or
    None), it returns without raising exactly one label, and that label is
    one of Fog, Stormy, Sandstorms, Windy, Cloudy, Sunny. *)
Theorem generate_label_total (row : Series) :
  WeatherSpec.numeric_fields row →
  ∃ l, WeatherMockGenerator.generate_label row = Ok l ∧
       l ∈ WeatherSpec.code_labels.
Proof.
  intros Hrow. eexists. split; [by apply generate_label_refines|].
  apply code_label_in.
Qed.

Lemma generate_label_total_witness :
  WeatherSpec.numeric_fields sandstorm_row ∧
  ∃ l, WeatherMockGenerator.generate_label sandstorm_row = Ok l ∧
       l ∈ WeatherSpec.code_labels.
Proof.
  split; [apply sandstorm_row_numeric|].
  apply (generate_label_total sandstorm_row), sandstorm_row_numeric.
Defined.

(** C3, as stated: every rule with a missing operand is skipped, so a
    record with only a total cloud cover of 10 and no day indicator would
    fall through to the default Cloudy.  The code labels it Sunny: a
    missing day indicator is read as 1. *)
Lemma C3_missing_day_indicator_is_day :
  WeatherMockGenerator.generate_label clear_sky_row = Ok "Sunny" ∧
  WeatherSpec.spec_label
    (WeatherSpec.first_rule (WeatherSpec.readings_of clear_sky_row)) = "Cloudy" ∧
  WeatherMockGenerator.generate_label clear_sky_row ≠
    Ok (WeatherSpec.spec_label
          (WeatherSpec.first_rule (WeatherSpec.readings_of clear_sky_row))).
Proof. split; [|split]; [reflexivity..|discriminate]. Qed.

(** C3, amended: on every record the classifier returns the label of the
    first rule, in the order Fog, Stormy, Sandstorms, Windy, Cloudy, Sunny
    with the stated thresholds, whose operands are all present and whose
    condition holds, and Cloudy when there is none; a missing measurement
    skips the rule, except that a day indicator absent from the record
    counts as 1.  A record with humidity 90, low cloud cover 80 and wind
    speed 2 is not Fog, and a record meeting the Stormy condition is Stormy
    whatever later rule it also meets. *)
Theorem generate_label_priority (row : Series) :
  WeatherSpec.numeric_fields row →
  WeatherMockGenerator.generate_label row =
    Ok (WeatherSpec.code_label
          (WeatherSpec.first_rule (WeatherSpec.readings_default_day row))) ∧
  (∀ rh cc ws,
     WeatherSpec.reading row "relative_humidity_2m (%)" = Some (Fin rh) →
     WeatherSpec.reading row "cloud_cover_low (%)" = Some (Fin cc) →
     WeatherSpec.reading row "wind_speed_10m (km/h)" = Some (Fin ws) →
     (rh == 90)%Q → (cc == 80)%Q → (ws == 2)%Q →
     WeatherMockGenerator.generate_label row ≠ Ok "Fog") ∧
  (WeatherSpec.stormy (WeatherSpec.readings_default_day row) = true →
   WeatherMockGenerator.generate_label row = Ok "Stormy").
Proof.
  intros Hrow. pose proof (generate_label_refines row Hrow) as Heq.
  split; [done|]. split.
  - intros rh cc ws Hrh Hcc Hws Erh Ecc Ews. rewrite Heq.
    unfold WeatherSpec.first_rule.
    destruct (WeatherSpec.fog _) eqn:Hfog.
    + exfalso. unfold WeatherSpec.fog in Hfog. simpl in Hfog.
      rewrite Hrh, Hcc, Hws in Hfog. simpl in Hfog.
      apply andb_prop in Hfog as [[H _]%andb_prop _].
      apply Qltb_true in H. rewrite Erh in H. by apply Qlt_irrefl in H.
    + by repeat case_match.
  - intros Hst. rewrite Heq. unfold WeatherSpec.first_rule.
    by rewrite (stormy_not_fog _ Hst), Hst.
Qed.

Lemma generate_label_priority_witness :
  WeatherSpec.numeric_fields clear_sky_row ∧
  WeatherMockGenerator.generate_label clear_sky_row =
    Ok (WeatherSpec.code_label
          (WeatherSpec.first_rule
             (WeatherSpec.readings_default_day clear_sky_row))).
Proof.
  split; [apply clear_sky_row_numeric|].
  apply (generate_label_priority clear_sky_row), clear_sky_row_numeric.
Defined.

(** ** The traffic classifier *)

Section traffic.
Import TrafficMockGenerator TrafficSpec.

(** Comparing two valid times field by field is comparing their
    microseconds since midnight. *)
Lemma time_cmp_micros (a b : time) :
  valid_time a → valid_time b → time_cmp a b = (micros a ?= micros b).
Proof.
  destruct a as [h1 m1 s1 u1], b as [h2 m2 s2 u2].
  unfold valid_time, time_cmp, micros; simpl. intros Ha Hb.
  symmetry.
  destruct (Z.compare_spec h1 h2);
    [destruct (Z.compare_spec m1 m2);
      [destruct (Z.compare_spec s1 s2);
        [destruct (Z.compare_spec u1 u2)|..]|..]|..];
    first [apply Z.compare_eq_iff | apply Z.compare_lt_iff
          | apply Z.compare_gt_iff]; lia.
Qed.

Lemma time_le_micros (a b : time) :
  valid_time a → valid_time b →
  time_le a b = bool_decide (micros a ≤ micros b).
Proof.
  intros Ha Hb. unfold time_le. rewrite time_cmp_micros by done.
  destruct (Z.compare_spec (micros a) (micros b));
    by rewrite ?bool_decide_eq_true_2, ?bool_decide_eq_false_2 by lia.
Qed.

Lemma time_ge_micros (a b : time) :
  valid_time a → valid_time b →
  time_ge a b = bool_decide (micros b ≤ micros a).
Proof.
  intros Ha Hb. unfold time_ge. rewrite time_cmp_micros by done.
  destruct (Z.compare_spec (micros a) (micros b));
    by rewrite ?bool_decide_eq_true_2, ?bool_decide_eq_false_2 by lia.
Qed.

Lemma valid_oclock (h : Z) : 0 ≤ h ≤ 23 → valid_time (mk_time h 0 0 0).
Proof. unfold valid_time; simpl; lia. Qed.

Lemma Timestamp_time_valid (ns : Z) : valid_time (Timestamp_time ns).
Proof.
  unfold valid_time, Timestamp_time; simpl.
  pose proof (Z.mod_pos_bound ns 86400000000000 eq_refl) as Htod.
  set (tod := ns mod 86400000000000) in *. clearbody tod.
  Z.div_mod_to_equations. lia.
Qed.

Lemma Timestamp_time_micros (ns : Z) :
  micros (Timestamp_time ns) = ns mod 86400000000000 / 1000.
Proof.
  unfold micros, Timestamp_time; simpl.
  set (tod := ns mod 86400000000000). clearbody tod.
  Z.div_mod_to_equations. lia.
Qed.

(** The chain of comparisons of [_map_traffic] on a valid time. *)
Lemma classify_time (strptime_time : string → option time) (t : time) :
  valid_time t →
  (if time_le (mk_time 7 0 0 0) t && time_le t (mk_time 9 0 0 0)
   then "High"
   else if time_le (mk_time 17 0 0 0) t && time_le t (mk_time 19 0 0 0)
   then "Jam"
   else if time_ge t (mk_time 22 0 0 0) || time_le t (mk_time 5 0 0 0)
   then "Low"
   else "Medium") = bucket (micros t).
Proof.
  intros Ht.
  rewrite !time_le_micros, time_ge_micros by (done || by apply valid_oclock).
  generalize (micros t) as u. clear. intros u.
  unfold bucket, oclock, micros; simpl.
  repeat case_bool_decide; simpl; repeat case_decide; try done; lia.
Qed.
End traffic.

(** C4: the traffic classifier is total and returns one of Low, Medium,
    High, Jam.  A time of day from 07:00:00 to 09:00:00, both ends included,
    gives High; otherwise one from 17:00:00 to 19:00:00 gives Jam; otherwise
    one at or after 22:00:00 or at or before 05:00:00 gives Low; otherwise
    Medium.  A value that is neither a timestamp nor a string in the
    expected pattern gives Medium. *)
Theorem map_traffic_buckets
    (strptime_time : string → option TrafficMockGenerator.time) :
  (∀ v, TrafficMockGenerator._map_traffic strptime_time v ∈ TrafficSpec.labels) ∧
  (∀ ns, TrafficMockGenerator._map_traffic strptime_time (CTime ns) =
         TrafficSpec.bucket (ns mod 86400000000000 / 1000)) ∧
  (∀ s t, strptime_time s = Some t → TrafficSpec.valid_time t →
          TrafficMockGenerator._map_traffic strptime_time (CStr s) =
          TrafficSpec.bucket (TrafficSpec.micros t)) ∧
  (∀ s, strptime_time s = None →
        TrafficMockGenerator._map_traffic strptime_time (CStr s) = "Medium") ∧
  (∀ v, (∀ s, v ≠ CStr s) → (∀ ns, v ≠ CTime ns) →
        TrafficMockGenerator._map_traffic strptime_time v = "Medium").
Proof.
  repeat split.
  - intros v. unfold TrafficMockGenerator._map_traffic, TrafficSpec.labels.
    repeat case_match; set_solver.
  - intros ns. unfold TrafficMockGenerator._map_traffic.
    rewrite (classify_time strptime_time) by apply Timestamp_time_valid.
    by rewrite Timestamp_time_micros.
  - intros s t Hs Ht. unfold TrafficMockGenerator._map_traffic. rewrite Hs.
    by apply classify_time.
  - intros s Hs. unfold TrafficMockGenerator._map_traffic. by rewrite Hs.
  - intros v Hstr Htime. destruct v; try done.
    + by destruct (Hstr s).
    + by destruct (Htime ns).
Qed.

Example traffic_0900_high :
  TrafficMockGenerator._map_traffic TrafficMockGenerator.strptime_padded
    (CStr "01-01 09:00:00") = "High".
Proof. reflexivity. Qed.

Example traffic_190001_medium :
  TrafficMockGenerator._map_traffic TrafficMockGenerator.strptime_padded
    (CStr "01-01 19:00:01") = "Medium".
Proof. reflexivity. Qed.

Example traffic_timestamp_0830_high :
  TrafficMockGenerator._map_traffic TrafficMockGenerator.strptime_padded
    (CTime 1735720200000000000) = "High".
Proof. reflexivity. Qed.

Example traffic_malformed_medium :
  TrafficMockGenerator._map_traffic TrafficMockGenerator.strptime_padded
    (CStr "half past eight") = "Medium" ∧
  TrafficMockGenerator._map_traffic TrafficMockGenerator.strptime_padded
    CNaT = "Medium".
Proof. split; reflexivity. Qed.

(** ** Tables: columns, cells and rows *)

Lemma col_index_Some (c : string) (cols : list string) (i : nat) :
  col_index c cols = Some i ↔
  cols !! i = Some c ∧ ∀ j, (j < i)%nat → cols !! j ≠ Some c.
Proof.
  unfold col_index. split.
  - destruct (list_find _ cols) as [[i' x]|] eqn:E; simpl; [|done].
    intros [= ->]. apply list_find_Some in E as (Hi & -> & Hlt).
    split; [done|]. intros j Hj Hc. by eapply Hlt.
  - intros [Hi Hlt].
    assert (list_find (λ x, x = c) cols = Some (i, c)) as ->; [|done].
    apply list_find_Some. split_and!; [done..|].
    intros j y Hy Hj ->. by eapply Hlt.
Qed.

Lemma col_index_None (c : string) (cols : list string) :
  col_index c cols = None ↔ c ∉ cols.
Proof.
  unfold col_index. rewrite fmap_None, list_find_None, Forall_forall.
  split; [intros H Hc; by eapply H|intros H x Hx ->; done].
Qed.

Lemma col_index_lt (c : string) (cols : list string) (i : nat) :
  col_index c cols = Some i → (i < length cols)%nat.
Proof. intros [H _]%col_index_Some. by eapply lookup_lt_Some. Qed.

Lemma col_index_elem (c : string) (cols : list string) :
  c ∈ cols → ∃ i, col_index c cols = Some i.
Proof.
  intros Hc. destruct (col_index c cols) eqn:E; [eauto|].
  by apply col_index_None in E.
Qed.

Lemma col_index_elem_inv (c : string) (cols : list string) (i : nat) :
  col_index c cols = Some i → c ∈ cols.
Proof. intros [H _]%col_index_Some. by eapply list_elem_of_lookup_2. Qed.

Lemma col_index_inj (c c' : string) (cols : list string) (i : nat) :
  col_index c cols = Some i → col_index c' cols = Some i → c = c'.
Proof. intros [H _]%col_index_Some [H' _]%col_index_Some. congruence. Qed.

Lemma col_pos_Ok (df : DataFrame) (c : string) (i : nat) :
  col_pos df c = Ok i ↔ col_index c (columns df) = Some i.
Proof.
  unfold col_pos. destruct (col_index c (columns df)); split; congruence.
Qed.

Lemma col_pos_elem (df : DataFrame) (c : string) :
  c ∈ columns df → ∃ i, col_pos df c = Ok i.
Proof.
  intros [i Hi]%col_index_elem. exists i. by apply col_pos_Ok.
Qed.

Lemma col_pos_Raise (df : DataFrame) (c : string) (e : exn) :
  col_pos df c = Raise e ↔ (c ∉ columns df) ∧ e = KeyError c.
Proof.
  unfold col_pos. destruct (col_index c (columns df)) eqn:E.
  - split; [done|]. intros [H _]. by apply col_index_elem_inv in E.
  - apply col_index_None in E. split; [intros [= <-]|intros [_ ->]]; done.
Qed.

Lemma cell_at_insert (i : nat) (v : cell) (cells : list cell) :
  (i < length cells)%nat → cell_at i (<[i := v]> cells) = v.
Proof. intros Hi. unfold cell_at. by rewrite list_lookup_insert_eq. Qed.

Lemma cell_at_insert_ne (i j : nat) (v : cell) (cells : list cell) :
  i ≠ j → cell_at j (<[i := v]> cells) = cell_at j cells.
Proof. intros Hi. unfold cell_at. by rewrite list_lookup_insert_ne. Qed.

(** [df[c] = f(df[c])] on an existing column rewrites that cell of every
    row. *)
Lemma set_column_map (df : DataFrame) (c : string) (i : nat)
    (f : cell → cell) :
  col_index c (columns df) = Some i →
  set_column df c (f <$> ((λ r : row, cell_at i r.2) <$> rows df)) =
  mkDF (columns df)
    ((λ r : row, (r.1, <[i := f (cell_at i r.2)]> r.2)) <$> rows df).
Proof.
  intros Hi. unfold set_column. rewrite Hi. f_equal.
  rewrite <-list_fmap_compose, zip_with_fmap_r, zip_with_diag. done.
Qed.

Lemma range_index_length (cells : list (list cell)) :
  length (range_index cells) = length cells.
Proof. unfold range_index. by rewrite length_imap. Qed.

Lemma range_index_cells (cells : list (list cell)) :
  (range_index cells).*2 = cells.
Proof.
  unfold range_index. rewrite fmap_imap.
  rewrite (imap_ext _ (const id)) by done.
  by rewrite imap_const, list_fmap_id.
Qed.

Lemma range_index_labels (cells : list (list cell)) :
  (range_index cells).*1 = Z.of_nat <$> seq 0 (length cells).
Proof.
  unfold range_index. rewrite fmap_imap.
  rewrite (imap_ext _ (λ i _, Z.of_nat i)) by done.
  by rewrite imap_seq_0.
Qed.

Lemma mapM_Ok {A B} (f : A → result B) (l : list A) (l' : list B) :
  mapM f l = Ok l' ↔ Forall2 (λ x y, f x = Ok y) l l'.
Proof.
  revert l'. induction l as [|x l IH]; intros l'; simpl.
  - split; [intros [= <-]; constructor|by inversion 1].
  - destruct (f x) as [y|e] eqn:Hx; simpl.
    + destruct (mapM f l) as [ys|e] eqn:Hl; simpl.
      * split.
        -- intros [= <-]. constructor; [done|]. by apply IH.
        -- inversion 1 as [|???? Hy Hys]; subst.
           apply IH in Hys. rewrite Hx in Hy. congruence.
      * split; [done|]. inversion 1 as [|???? Hy Hys]; subst.
        apply IH in Hys. congruence.
    + split; [done|]. inversion 1; congruence.
Qed.

Lemma mapM_total {A B} (f : A → result B) (l : list A) :
  Forall (λ x, ∃ y, f x = Ok y) l → ∃ l', mapM f l = Ok l'.
Proof.
  induction 1 as [|x l [y Hy] _ [l' IH]]; simpl; [by eexists|].
  rewrite Hy, IH. simpl. by eexists.
Qed.

(** ** Ingestion *)

Section load.
Context (parse_datetime : cell → option Z).

Lemma to_datetime_cases (c : cell) :
  (∃ t, to_datetime parse_datetime c = CTime t) ∨
  to_datetime parse_datetime c = CNaT.
Proof.
  destruct c as [|[]| | | |]; simpl; eauto;
    destruct (parse_datetime _); eauto.
Qed.

Lemma convert_column_Ok (df : DataFrame) (c : string) (i : nat) :
  col_index c (columns df) = Some i →
  convert_column parse_datetime df c =
  Ok (mkDF (columns df) (converted parse_datetime i <$> rows df)).
Proof.
  intros Hi. unfold convert_column, column.
  apply col_pos_Ok in Hi as Hpos. rewrite Hpos. simpl.
  by rewrite set_column_map.
Qed.

Lemma convert_column_Raise (df : DataFrame) (c : string) :
  c ∉ columns df → convert_column parse_datetime df c = Raise (KeyError c).
Proof.
  intros Hc. unfold convert_column, column.
  by rewrite (proj2 (col_pos_Raise df c (KeyError c))).
Qed.

Lemma converted_cell (i : nat) (r : row) :
  (i < length r.2)%nat →
  cell_at i (converted parse_datetime i r).2 = to_datetime parse_datetime (cell_at i r.2).
Proof. intros Hi. unfold converted; simpl. by apply cell_at_insert. Qed.

Lemma converted_cell_ne (i j : nat) (r : row) :
  i ≠ j → cell_at j (converted parse_datetime i r).2 = cell_at j r.2.
Proof. intros Hi. unfold converted; simpl. by apply cell_at_insert_ne. Qed.

Lemma converted_length (i : nat) (r : row) :
  length (converted parse_datetime i r).2 = length r.2.
Proof. unfold converted; simpl. by rewrite length_insert. Qed.

Lemma convert_column_at (df : DataFrame) (c : string) :
  c ∈ columns df →
  convert_column parse_datetime df c = Ok (convert_at parse_datetime c df).
Proof.
  intros [i Hi]%col_index_elem. unfold convert_at. rewrite Hi.
  by apply convert_column_Ok.
Qed.

Lemma convert_at_columns (df : DataFrame) (c : string) :
  columns (convert_at parse_datetime c df) = columns df.
Proof. unfold convert_at. by destruct (col_index _ _). Qed.

Lemma convert_at_absent (df : DataFrame) (c : string) :
  c ∉ columns df → convert_at parse_datetime c df = df.
Proof. intros H%col_index_None. unfold convert_at. by rewrite H. Qed.

(** Ingestion once both files are found. *)
Lemma load_data_found (fs : gmap string csv) (dfile wfile : string)
    (d w : csv) :
  fs !! dfile = Some d → fs !! wfile = Some w →
  load_data parse_datetime fs dfile wfile =
  if decide ("accept_time" ∈ normalize <$> header d) then
    match list_find (λ c, c ∈ normalize <$> header w) time_candidates with
    | None => Raise (KeyError "❌ No timestamp column found in weather file.")
    | Some (_, c) =>
        Ok (mk_ingest
              (convert_at parse_datetime "delivery_time"
                 (convert_at parse_datetime "accept_time" (normalized d)))
              (convert_at parse_datetime c (normalized w)) c)
    end
  else Raise (KeyError "❌ Missing 'accept_time' in delivery data.").
Proof.
  intros Hd Hw. unfold load_data. rewrite Hd, Hw.
  change (mkDF (normalize <$> columns (read_csv d)) (rows (read_csv d)))
    with (normalized d).
  change (mkDF (normalize <$> columns (read_csv w)) (rows (read_csv w)))
    with (normalized w).
  change (columns (normalized d)) with (normalize <$> header d).
  change (columns (normalized w)) with (normalize <$> header w).
  case_decide as Ha; [|done].
  rewrite convert_column_at by done.
  cbn [bind].
  assert ((if decide ("delivery_time" ∈
               columns (convert_at parse_datetime "accept_time" (normalized d)))
           then convert_column parse_datetime
                  (convert_at parse_datetime "accept_time" (normalized d))
                  "delivery_time"
           else Ok (convert_at parse_datetime "accept_time" (normalized d))) =
          Ok (convert_at parse_datetime "delivery_time"
                (convert_at parse_datetime "accept_time" (normalized d))))
    as ->.
  { destruct (decide _) as [Hdt|Hdt]; [by apply convert_column_at|].
    by rewrite (convert_at_absent _ "delivery_time"). }
  cbn [bind].
  destruct (list_find _ time_candidates) as [[n c]|] eqn:Hc; [|done].
  apply list_find_Some in Hc as (_ & Hc & _).
  by rewrite convert_column_at.
Qed.

Lemma load_data_no_delivery (fs : gmap string csv) (dfile wfile : string) :
  fs !! dfile = None →
  load_data parse_datetime fs dfile wfile =
  Raise (FileNotFoundError ("❌ Delivery file not found: " +:+ dfile)).
Proof. intros Hd. unfold load_data. by rewrite Hd. Qed.

Lemma load_data_no_weather (fs : gmap string csv) (dfile wfile : string)
    (d : csv) :
  fs !! dfile = Some d → fs !! wfile = None →
  load_data parse_datetime fs dfile wfile =
  Raise (FileNotFoundError ("❌ Weather file not found: " +:+ wfile)).
Proof. intros Hd Hw. unfold load_data. by rewrite Hd, Hw. Qed.

Lemma well_formed_normalized (f : csv) : well_formed (normalized f).
Proof.
  unfold well_formed, normalized, read_csv; simpl.
  apply Forall_forall. intros r Hr.
  assert (r.2 ∈ (range_index
    (resize (length (header f)) (CNum NaN) <$> records f)).*2) as Hr2
    by (apply list_elem_of_fmap; eauto).
  rewrite range_index_cells in Hr2.
  apply list_elem_of_fmap in Hr2 as (cells & -> & _).
  by rewrite length_resize, length_fmap.
Qed.

Lemma well_formed_convert_at (df : DataFrame) (c : string) :
  well_formed df → well_formed (convert_at parse_datetime c df).
Proof.
  unfold well_formed, convert_at. intros Hwf.
  destruct (col_index c (columns df)); [|done]. simpl.
  apply Forall_fmap. eapply Forall_impl; [done|].
  intros r Hr; simpl. by rewrite length_insert.
Qed.

Lemma column_Ok (df : DataFrame) (c : string) (values : list cell) :
  column df c = Ok values ↔
  ∃ i, col_index c (columns df) = Some i ∧
       values = (λ r : row, cell_at i r.2) <$> rows df.
Proof.
  unfold column. destruct (col_pos df c) as [i|e] eqn:E; simpl.
  - apply col_pos_Ok in E. split.
    + intros [= <-]. eauto.
    + intros (i' & Hi' & ->). assert (i' = i) as -> by congruence. done.
  - split; [done|]. intros (i & Hi & _).
    apply col_pos_Ok in Hi. congruence.
Qed.

Lemma column_convert_at (df : DataFrame) (c : string) (values : list cell) :
  well_formed df → column df c = Ok values →
  column (convert_at parse_datetime c df) c =
  Ok (to_datetime parse_datetime <$> values).
Proof.
  intros Hwf (i & Hi & ->)%column_Ok. apply column_Ok.
  exists i. rewrite convert_at_columns. split; [done|].
  unfold convert_at. rewrite Hi. simpl.
  rewrite <-!list_fmap_compose. apply Forall_fmap_ext_1.
  eapply Forall_impl; [apply Hwf|]. intros r Hr; simpl.
  symmetry. apply cell_at_insert. rewrite Hr. by eapply col_index_lt.
Qed.

Lemma column_convert_at_ne (df : DataFrame) (c c' : string) :
  c ≠ c' → column (convert_at parse_datetime c' df) c = column df c.
Proof.
  intros Hne. unfold column, col_pos. rewrite convert_at_columns.
  destruct (col_index c (columns df)) as [i|] eqn:Hi; [|done]. simpl.
  unfold convert_at.
  destruct (col_index c' (columns df)) as [j|] eqn:Hj; [|done]. simpl.
  f_equal. rewrite <-list_fmap_compose. apply list_fmap_ext.
  intros _ r _; simpl. apply cell_at_insert_ne.
  intros ->. apply Hne. by eapply col_index_inj.
Qed.
End load.

(** *** A parser for each column *)


Lemma load_data_with_found
    (parse_accept parse_delivery parse_weather : cell → option Z)
    (fs : gmap string csv) (dfile wfile : string) (d w : csv) :
  fs !! dfile = Some d → fs !! wfile = Some w →
  load_data_with parse_accept parse_delivery parse_weather fs dfile wfile =
  if decide ("accept_time" ∈ normalize <$> header d) then
    match list_find (λ c, c ∈ normalize <$> header w) time_candidates with
    | None => Raise (KeyError "❌ No timestamp column found in weather file.")
    | Some (_, c) =>
        Ok (mk_ingest
              (convert_at parse_delivery "delivery_time"
                 (convert_at parse_accept "accept_time" (normalized d)))
              (convert_at parse_weather c (normalized w)) c)
    end
  else Raise (KeyError "❌ Missing 'accept_time' in delivery data.").
Proof.
  intros Hd Hw. unfold load_data_with. rewrite Hd, Hw.
  change (mkDF (normalize <$> columns (read_csv d)) (rows (read_csv d)))
    with (normalized d).
  change (mkDF (normalize <$> columns (read_csv w)) (rows (read_csv w)))
    with (normalized w).
  change (columns (normalized d)) with (normalize <$> header d).
  change (columns (normalized w)) with (normalize <$> header w).
  case_decide as Ha; [|done].
  rewrite convert_column_at by done.
  cbn [bind].
  assert ((if decide ("delivery_time" ∈
               columns (convert_at parse_accept "accept_time" (normalized d)))
           then convert_column parse_delivery
                  (convert_at parse_accept "accept_time" (normalized d))
                  "delivery_time"
           else Ok (convert_at parse_accept "accept_time" (normalized d))) =
          Ok (convert_at parse_delivery "delivery_time"
                (convert_at parse_accept "accept_time" (normalized d))))
    as ->.
  { destruct (decide _) as [Hdt|Hdt]; [by apply convert_column_at|].
    by rewrite (convert_at_absent _ _ "delivery_time"). }
  cbn [bind].
  destruct (list_find _ time_candidates) as [[n c]|] eqn:Hc; [|done].
  apply list_find_Some in Hc as (_ & Hc & _).
  by rewrite convert_column_at.
Qed.





(** ** The backward as-of scan *)

Lemma advance_spec (k : Z) (prev : option row) (right : list (Z * row)) :
  ∃ passed,
    right = passed ++ (advance k prev right).2 ∧
    Forall (λ p : Z * row, p.1 ≤ k) passed ∧
    (advance k prev right).1 =
      match last passed with Some p => Some p.2 | None => prev end ∧
    (∀ p rest, (advance k prev right).2 = p :: rest → k < p.1).
Proof.
  revert prev. induction right as [|[kr r] right IH]; intros prev; simpl.
  - exists []. by split_and!.
  - case_decide as Hk.
    + destruct (IH (Some r)) as (passed & Hright & Hle & Hlast & Hhead).
      exists ((kr, r) :: passed). split_and!.
      * simpl. by f_equal.
      * by constructor.
      * rewrite Hlast. destruct passed as [|q passed]; [done|].
        rewrite last_cons_cons.
        destruct (last (q :: passed)) eqn:Hq; [done|].
        by apply last_None in Hq.
      * done.
    + exists []. split_and!; [done..|].
      intros p rest [= <- <-]; simpl. lia.
Qed.

Lemma key_sorted_above (k : Z) (consumed remaining : list (Z * row)) :
  key_sorted (consumed ++ remaining) →
  (∀ p rest, remaining = p :: rest → k < p.1) →
  ∀ p, p ∈ remaining → k < p.1.
Proof.
  intros Hsorted Hhead p Hp.
  apply StronglySorted_app in Hsorted as (_ & _ & Hrem).
  destruct remaining as [|q rest]; [by apply elem_of_nil in Hp|].
  specialize (Hhead q rest eq_refl).
  apply elem_of_cons in Hp as [->|Hp]; [done|].
  apply StronglySorted_cons in Hrem as [Hq _].
  eapply Forall_forall in Hq; [|done]. lia.
Qed.

Lemma asof_backward_spec (left consumed remaining : list (Z * row)) :
  StronglySorted Z.le left.*1 →
  key_sorted (consumed ++ remaining) →
  (∀ k, k ∈ left.*1 → Forall (λ p : Z * row, p.1 ≤ k) consumed) →
  Forall2 (λ (kl : Z * row) (m : row * option row),
             m.1 = kl.2 ∧ asof_match (consumed ++ remaining) kl.1 m.2)
    left (asof_backward left (snd <$> last consumed) remaining).
Proof.
  revert consumed remaining.
  induction left as [|[k l] left IH]; intros consumed remaining Hleft Hright Hc;
    simpl; [constructor|].
  destruct (advance_spec k (snd <$> last consumed) remaining)
    as (passed & Hrem & Hpassed & Hlast & Hhead).
  destruct (advance k (snd <$> last consumed) remaining)
    as [prev' remaining'] eqn:Hadv. simpl in *.
  assert (consumed ++ remaining = (consumed ++ passed) ++ remaining') as HR
    by (by rewrite Hrem, (assoc_L (++))).
  assert (Forall (λ p : Z * row, p.1 ≤ k) (consumed ++ passed)) as Hck.
  { apply Forall_app. split; [|done]. apply Hc. set_solver. }
  assert (prev' = snd <$> last (consumed ++ passed)) as ->.
  { rewrite Hlast, last_app. by destruct (last passed). }
  apply StronglySorted_cons in Hleft as [Hk Hleft].
  rewrite HR in *.
  constructor; [split; [done|]|].
  - simpl. destruct (last (consumed ++ passed)) as [[kw wr]|] eqn:Hl; simpl.
    + apply last_Some in Hl as [c0 Hc0]. exists kw. split_and!.
      * rewrite Hc0. set_solver.
      * rewrite Hc0 in Hck. apply Forall_app in Hck as [_ Hck].
        by inversion_clear Hck.
      * intros p Hp Hpk. apply elem_of_app in Hp as [Hp|Hp].
        -- rewrite Hc0 in Hp. apply elem_of_app in Hp as [Hp|Hp].
           ++ rewrite Hc0, <-(assoc_L (++)) in Hright.
              apply StronglySorted_app in Hright as (Hlt & _ & _).
              apply (Hlt p (kw, wr)); set_solver.
           ++ apply list_elem_of_singleton in Hp as ->. simpl. lia.
        -- pose proof (key_sorted_above k _ _ Hright Hhead p Hp). lia.
    + apply last_None in Hl. rewrite Hl in *. simpl.
      by apply (key_sorted_above k []).
  - apply IH; [done..|]. intros k' Hk'.
    eapply Forall_forall in Hk; [|done].
    eapply Forall_impl; [apply Hck|]. intros p Hp; simpl in *. lia.
Qed.

Lemma key_sorted_fst (l : list (Z * row)) :
  StronglySorted Z.le l.*1 → key_sorted l.
Proof.
  unfold key_sorted. induction l as [|p l IH]; simpl; [constructor|].
  intros [Hp Hl]%StronglySorted_cons. constructor; [by apply IH|].
  rewrite Forall_fmap in Hp. eapply Forall_impl; [apply Hp|]. by intros [].
Qed.

(** On sorted inputs every left row is matched as of its key. *)
Lemma asof_backward_sorted (left right : list (Z * row)) :
  Sorted Z.le left.*1 → Sorted Z.le right.*1 →
  Forall2 (λ (kl : Z * row) (m : row * option row),
             m.1 = kl.2 ∧ asof_match right kl.1 m.2)
    left (asof_backward left None right).
Proof.
  intros Hleft Hright.
  apply (asof_backward_spec left [] right).
  - by apply Sorted_StronglySorted; [apply _|].
  - simpl. by apply key_sorted_fst, Sorted_StronglySorted; [apply _|].
  - intros. constructor.
Qed.

(** ** Weather enrichment *)

Lemma bind_Ok {A B} (m : result A) (f : A → result B) (b : B) :
  (x <- m ;; f x) = Ok b ↔ ∃ a, m = Ok a ∧ f a = Ok b.
Proof.
  destruct m as [a|e]; simpl; split; eauto.
  - by intros (a' & [= <-] & Hf).
  - done.
  - by intros (a' & [=] & _).
Qed.

Lemma keys_Ok (i : nat) (rs : list row) (ks : list (Z * row)) :
  keys i rs = Ok ks →
  ks.*2 = rs ∧ Forall (λ kr : Z * row, cell_at i kr.2.2 = CTime kr.1) ks.
Proof.
  unfold keys. intros H%mapM_Ok.
  induction H as [|r [k r'] rs ks Hr _ [IH1 IH2]]; simpl; [done|].
  destruct (cell_at i r.2) as [|[]| | | |] eqn:E; try done.
  injection Hr as <- <-. split; [by f_equal|]. by constructor.
Qed.

Lemma col_pos_columns (df df' : DataFrame) (c : string) :
  columns df = columns df' → col_pos df c = col_pos df' c.
Proof. unfold col_pos. by intros ->. Qed.


(** The keyed rows of a table after [dropna] and [sort_values] are the
    rows with a timestamp in the key column. *)
Lemma keyed_rows (i : nat) (rs : list row) (ks : list (Z * row)) :
  keys i (merge_sort (row_le i)
            (filter (λ r : row, isna (cell_at i r.2) = false) rs)) = Ok ks →
  (ks.*2 ≡ₚ filter (λ r : row, isna (cell_at i r.2) = false) rs) ∧
  (∀ k r, (k, r) ∈ ks ↔ r ∈ rs ∧ cell_at i r.2 = CTime k).
Proof.
  intros [Hrows Hcells]%keys_Ok.
  assert (ks.*2 ≡ₚ filter (λ r : row, isna (cell_at i r.2) = false) rs)
    as Hperm by (rewrite Hrows; apply merge_sort_Permutation).
  split; [done|]. intros k r. split.
  - intros Hin. split.
    + assert (r ∈ ks.*2) as Hr by (apply list_elem_of_fmap; by exists (k, r)).
      rewrite Hperm in Hr. by apply list_elem_of_filter in Hr as [_ Hr].
    + eapply Forall_forall in Hcells; [|done]. done.
  - intros [Hr Hk].
    assert (r ∈ ks.*2) as Hin.
    { rewrite Hperm. apply list_elem_of_filter. by rewrite Hk. }
    apply list_elem_of_fmap in Hin as ([k' r'] & -> & Hin).
    eapply Forall_forall in Hcells as Hk'; [|done]. simpl in *.
    by assert (k' = k) as -> by congruence.
Qed.

Lemma asof_backward_rows (left right : list (Z * row))
    (ms : list (row * option row)) :
  Forall2 (λ (kl : Z * row) (m : row * option row),
             m.1 = kl.2 ∧ asof_match right kl.1 m.2) left ms →
  ms.*1 = left.*2 ∧
  Forall (λ m : row * option row,
            ∃ k, (k, m.1) ∈ left ∧ asof_match right k m.2) ms.
Proof.
  induction 1 as [|[k l] [l' w] left ms [Hl Hm] _ [IH1 IH2]]; simpl in *;
    [done|]. subst l'. split; [by f_equal|].
  constructor.
  - exists k. split; [left|done].
  - eapply Forall_impl; [apply IH2|].
    intros m (k' & Hin & Hk'). exists k'. split; [by right|done].
Qed.

(** The table [merged] of [enrich_with_weather], opened up. *)
Lemma merged_weather_Ok (self : DataIngest) (merged : DataFrame) :
  merged_weather self = Ok merged →
  ∃ li ri lk rk,
    col_index "accept_time" (columns (delivery_df self)) = Some li ∧
    col_index (weather_time_col self) (columns (weather_df self)) = Some ri ∧
    keys li (merge_sort (row_le li)
               (filter (λ r : row, isna (cell_at li r.2) = false)
                  (rows (delivery_df self)))) = Ok lk ∧
    keys ri (merge_sort (row_le ri)
               (filter (λ r : row, isna (cell_at ri r.2) = false)
                  (rows (weather_df self)))) = Ok rk ∧
    Sorted Z.le lk.*1 ∧ Sorted Z.le rk.*1 ∧
    rows merged =
      range_index (merged_cells (weather_time_col self)
                     (columns (weather_df self)) <$> asof_backward lk None rk).
Proof.
  unfold merged_weather. intros H.
  apply bind_Ok in H as (dc & Hdc & H).
  apply bind_Ok in H as (wc & Hwc & H).
  apply bind_Ok in H as (ds & Hds & H).
  apply bind_Ok in H as (ws & Hws & H).
  apply bind_Ok in H as (mg & Hmg & H).
  apply bind_Ok in H as (tw & Htw & [= <-]).
  unfold dropna in Hdc, Hwc.
  apply bind_Ok in Hdc as (li & Hli & [= <-]).
  apply bind_Ok in Hwc as (ri & Hri & [= <-]).
  unfold sort_values in Hds, Hws. simpl in Hds, Hws.
  apply bind_Ok in Hds as (li' & Hli' & [= <-]).
  apply bind_Ok in Hws as (ri' & Hri' & [= <-]).
  unfold merge_asof in Hmg.
  apply bind_Ok in Hmg as (li'' & Hli'' & Hmg).
  apply bind_Ok in Hmg as (ri'' & Hri'' & Hmg).
  apply bind_Ok in Hmg as (lk & Hlk & Hmg).
  apply bind_Ok in Hmg as (rk & Hrk & Hmg).
  simpl in *.
  rewrite (col_pos_columns _ (delivery_df self)) in Hli' by done.
  rewrite (col_pos_columns _ (delivery_df self)) in Hli'' by done.
  rewrite (col_pos_columns _ (weather_df self)) in Hri' by done.
  rewrite (col_pos_columns _ (weather_df self)) in Hri'' by done.
  assert (li' = li) as -> by congruence.
  assert (li'' = li) as -> by congruence.
  assert (ri' = ri) as -> by congruence.
  assert (ri'' = ri) as -> by congruence.
  apply col_pos_Ok in Hli, Hri.
  destruct (decide (Sorted Z.le lk.*1)); [|done].
  destruct (decide (Sorted Z.le rk.*1)); [|done].
  destruct (suffix_dups _ _ || suffix_dups _ _); [done|].
  injection Hmg as <-.
  exists li, ri, lk, rk. split_and!; try done.
  by case_decide.
Qed.




(** The scenario of the specification: the order accepted at 08:30 gets the
    08:00 observation (humidity 95, low cloud 85, wind 1) and the label Fog,
    and High traffic for its delivery at 08:45; the order accepted before
    every observation gets null weather cells; the order whose acceptance
    time does not parse is dropped. *)
Example enrichment_scenario :
  (rows (delivery_df sample_enriched)).*2 =
  [ [CNum (Fin 3); CTime 1735690200000000000; CTime 1735692000000000000;
     CNum NaN; CNum (Fin (12047 # 100)); CNum (Fin 30); CNum (Fin 120);
     CNum (Fin (3015 # 100)); CNum (Fin (12050 # 100));
     CNaT; CNum NaN; CNum NaN; CNum NaN; CNum NaN; CNum NaN; CNum NaN;
     CStr "Cloudy"; CStr "Low"];
    [CNum (Fin 1); CTime 1735720200000000000; CTime 1735721100000000000;
     CNum (Fin (3012 # 100)); CNum (Fin (12047 # 100));
     CNum (Fin 30); CNum (Fin 120);
     CNum (Fin (3015 # 100)); CNum (Fin (12050 # 100));
     CTime 1735718400000000000; CNum (Fin 95); CNum (Fin 85); CNum (Fin 90);
     CNum (Fin 1); CNum (Fin 0); CNum (Fin 1);
     CStr "Fog"; CStr "High"] ].
Proof. vm_compute. reflexivity. Qed.

(** ** Rounding to float64 *)









(** The float [0.1] of the weather rules is the rounding of one tenth, and
    a tie goes to the even neighbour. *)
Example float64_round_samples :
  Qred (float64_round (1 # 10)) = WeatherMockGenerator.float_0_1 ∧
  Qred (float64_round (9007199254740993 # 1)) = (9007199254740992 # 1)%Q ∧
  Qred (float64_round (- (9007199254740995 # 1))) =
    (- (9007199254740996 # 1))%Q.
Proof. vm_compute. by repeat split. Qed.


(** ** Alignment *)

Section align.
Context (parse_datetime : cell → option Z) (py_str : cell → string).

Lemma get_column_cell_at (cols : list string) (c : string) (i : nat)
    (cells : list cell) :
  col_index c cols = Some i → cell_at i cells = get_column_cell cols c cells.
Proof. intros Hi. unfold get_column_cell. by rewrite Hi. Qed.

Lemma convert_column_cases (df : DataFrame) (c : string) :
  (c ∈ columns df ∧
   convert_column parse_datetime df c = Ok (convert_at parse_datetime c df)) ∨
  ((c ∉ columns df) ∧
   convert_column parse_datetime df c = Raise (KeyError c)).
Proof.
  destruct (decide (c ∈ columns df)) as [Hc|Hc]; [left|right]; split;
    auto using convert_column_at, convert_column_Raise.
Qed.

Lemma col_pos_cases (df : DataFrame) (c : string) :
  (∃ i, col_index c (columns df) = Some i ∧ col_pos df c = Ok i) ∨
  ((c ∉ columns df) ∧ col_pos df c = Raise (KeyError c)).
Proof.
  unfold col_pos. destruct (col_index c (columns df)) as [i|] eqn:E.
  - left. eauto.
  - right. by apply col_index_None in E.
Qed.

Lemma col_pos_Ok_elem (df : DataFrame) (c : string) (i : nat) :
  col_pos df c = Ok i → c ∈ columns df.
Proof. intros H%col_pos_Ok. by eapply col_index_elem_inv. Qed.

Lemma convert_column_Ok_inv (df df' : DataFrame) (c : string) :
  convert_column parse_datetime df c = Ok df' →
  c ∈ columns df ∧ df' = convert_at parse_datetime c df.
Proof.
  destruct (convert_column_cases df c) as [[Hc ->]|[Hc ->]]; [|done].
  by intros [= <-].
Qed.

(** With every column it reads present, the local transform is the
    reshaped table. *)
Lemma transform_delivery_present (self : DataAligner) :
  empty (enriched_df self) = false →
  (∀ c, c ∈ required_columns → c ∈ columns (enriched_df self)) →
  transform_delivery_dataset parse_datetime self =
  Ok (reshaped_delivery parse_datetime (enriched_df self)).
Proof.
  intros Hne Hall. unfold transform_delivery_dataset. rewrite Hne.
  set (df := enriched_df self) in *.
  rewrite convert_column_at by (apply Hall; set_solver). cbn [bind].
  rewrite convert_column_at
    by (rewrite convert_at_columns; apply Hall; set_solver).
  cbn [bind].
  unfold reshaped_delivery.
  set (df1 := convert_at parse_datetime "delivery_time"
                (convert_at parse_datetime "accept_time" df)).
  assert (columns df1 = columns df) as Hcols
    by (unfold df1; by rewrite !convert_at_columns).
  repeat match goal with
  | |- context [col_pos df1 ?c] =>
      let i := fresh "i" in let Hi := fresh "Hi" in let Hp := fresh "Hp" in
      destruct (col_pos_cases df1 c) as [(i & Hi & Hp)|[Hp _]];
      [rewrite Hp; cbn [bind]; rewrite Hcols in Hi
      |exfalso; apply Hp; rewrite Hcols; apply Hall; set_solver]
  end.
  do 2 f_equal. apply list_fmap_ext. intros _ r _; simpl.
  rewrite Hcols.
  by repeat match goal with
  | H : col_index ?c (columns df) = Some ?i |- _ =>
      rewrite !(get_column_cell_at _ _ _ _ H); clear H
  end.
Qed.

(** Whatever the local transform raises is the [KeyError] of a column it
    reads. *)
Lemma transform_delivery_Raise (self : DataAligner) (e : exn) :
  transform_delivery_dataset parse_datetime self = Raise e →
  empty (enriched_df self) = false ∧
  ∃ c, c ∈ required_columns ∧ (c ∉ columns (enriched_df self)) ∧
       e = KeyError c.
Proof.
  unfold transform_delivery_dataset.
  destruct (empty (enriched_df self)) eqn:Hne; [done|].
  set (df := enriched_df self) in *. intros H. split; [done|]. revert H.
  destruct (convert_column_cases df "accept_time") as [[Hin ->]|[Hnin ->]];
    cbn [bind];
    [|intros [= <-]; exists "accept_time"; split_and!; [set_solver|done..]].
  destruct (convert_column_cases (convert_at parse_datetime "accept_time" df)
              "delivery_time") as [[Hin' ->]|[Hnin ->]]; cbn [bind];
    [|intros [= <-]; exists "delivery_time";
      rewrite convert_at_columns in Hnin;
      split_and!; [set_solver|done..]].
  set (df1 := convert_at parse_datetime "delivery_time"
                (convert_at parse_datetime "accept_time" df)).
  assert (columns df1 = columns df) as Hcols
    by (unfold df1; by rewrite !convert_at_columns).
  repeat match goal with
  | |- context [col_pos df1 ?c] =>
      let i := fresh "i" in let Hi := fresh "Hi" in let Hp := fresh "Hp" in
      destruct (col_pos_cases df1 c) as [(i & Hi & ->)|[Hp ->]];
      cbn [bind];
      [|intros [= <-]; exists c; rewrite Hcols in Hp;
        split_and!; [set_solver|done..]]
  end.
  done.
Qed.

Lemma transform_delivery_Ok_inv (self : DataAligner) (out : DataFrame) :
  empty (enriched_df self) = false →
  transform_delivery_dataset parse_datetime self = Ok out →
  ∀ c, c ∈ required_columns → c ∈ columns (enriched_df self).
Proof.
  intros Hne Hout c Hc.
  destruct (decide (c ∈ columns (enriched_df self))) as [|Hnin]; [done|].
  exfalso. revert Hout.
  unfold transform_delivery_dataset. rewrite Hne.
  set (df := enriched_df self) in *. intros H.
  apply bind_Ok in H as (df1 & [Ha ->]%convert_column_Ok_inv & H).
  apply bind_Ok in H as (df2 & [Hd ->]%convert_column_Ok_inv & H).
  rewrite convert_at_columns in Hd.
  set (df1 := convert_at parse_datetime "delivery_time"
                (convert_at parse_datetime "accept_time" df)) in *.
  assert (columns df1 = columns df) as Hcols
    by (unfold df1; by rewrite !convert_at_columns).
  repeat (let i := fresh "i" in let Hi := fresh "Hi" in
          apply bind_Ok in H as (i & Hi%col_pos_Ok_elem & H);
          rewrite Hcols in Hi).
  unfold required_columns in Hc.
  repeat (apply elem_of_cons in Hc as [->|Hc]; [done|]).
  by apply elem_of_nil in Hc.
Qed.
End align.

Lemma column_mkDF (cols : list string) (rs : list row) (c : string)
    (i : nat) :
  col_index c cols = Some i →
  column (mkDF cols rs) c = Ok ((λ r : row, cell_at i r.2) <$> rs).
Proof. intros Hi. apply column_Ok. by exists i. Qed.

Lemma fmap_const_replicate {A B} (b : B) (l : list A) :
  (λ _, b) <$> l = replicate (length l) b.
Proof. induction l; simpl; by f_equal. Qed.

(** C10: on a non-empty table whose column labels are unique,
    [transform_delivery_dataset] succeeds exactly when the columns
    order_id, accept_time, delivery_time, accept_gps_lat, accept_gps_lng,
    lat, lng, delivery_gps_lat and delivery_gps_lng are all present, and otherwise raises the [KeyError]
    of an absent one; the label columns may be missing, and then the
    weather, respectively traffic, column of the result is None
    throughout. *)
Theorem transform_delivery_requires (parse_datetime : cell → option Z)
    (self : DataAligner) :
  empty (enriched_df self) = false →
  NoDup (columns (enriched_df self)) →
  ((∃ out, transform_delivery_dataset parse_datetime self = Ok out) ↔
   (∀ c, c ∈ required_columns → c ∈ columns (enriched_df self))) ∧
  (∀ e, transform_delivery_dataset parse_datetime self = Raise e →
        ∃ c, c ∈ required_columns ∧ (c ∉ columns (enriched_df self)) ∧
             e = KeyError c) ∧
  (∀ out, transform_delivery_dataset parse_datetime self = Ok out →
     ("Weather_Label" ∉ columns (enriched_df self) →
      column out "weather" = Ok (replicate (length (rows out)) CNone)) ∧
     ("Traffic_Label" ∉ columns (enriched_df self) →
      column out "traffic" = Ok (replicate (length (rows out)) CNone))).
Proof.
  intros Hne _. split_and!.
  - split.
    + intros [out Hout]. by eapply transform_delivery_Ok_inv.
    + intros Hall. eexists. by apply transform_delivery_present.
  - intros e He. by apply transform_delivery_Raise in He as [_ He].
  - intros out Hout.
    rewrite transform_delivery_present in Hout
      by eauto using transform_delivery_Ok_inv.
    injection Hout as <-.
    split; intros Hc%col_index_None; unfold reshaped_delivery;
      [rewrite (column_mkDF _ _ "weather" 8) by done
      |rewrite (column_mkDF _ _ "traffic" 9) by done];
      f_equal; cbn [rows];
      rewrite <-list_fmap_compose, length_fmap, <-fmap_const_replicate;
      apply list_fmap_ext; intros _ r _; cbn;
      unfold get_column_cell; by rewrite Hc.
Qed.

Lemma transform_delivery_requires_witness :
  empty (enriched_df sample_aligner) = false ∧
  ((∃ out, transform_delivery_dataset Iso.parse_datetime sample_aligner = Ok out)
   ↔ (∀ c, c ∈ required_columns → c ∈ columns (enriched_df sample_aligner))).
Proof.
  split; [reflexivity|].
  apply (transform_delivery_requires Iso.parse_datetime sample_aligner).
  - reflexivity.
  - compute_done.
Defined.

Section amazon.
Context (parse_datetime : cell → option Z) (py_str : cell → string).

Lemma combine_date_time_Ok (date time : cell) (c : cell) :
  combine_date_time py_str date time = Ok c →
  ∃ t, fillna time (CStr "00:00:00") = CStr t ∧
       c = CStr (astype_str py_str date +:+ " " +:+ t).
Proof.
  unfold combine_date_time.
  destruct (fillna time (CStr "00:00:00")); try done.
  intros [= <-]. eauto.
Qed.

(** The external transform, row by row. *)
Lemma transform_amazon_Ok_inv (self : DataAligner) (out : DataFrame) :
  empty (amazon_df self) = false →
  transform_amazon_dataset parse_datetime py_str self = Ok out →
  columns out = amazon_columns ∧
  Forall2 (amazon_row parse_datetime py_str (columns (amazon_df self)))
    (rows (amazon_df self)) (rows out).
Proof.
  intros Hne. unfold transform_amazon_dataset. rewrite Hne.
  set (df := amazon_df self). intros H.
  apply bind_Ok in H as (order_date & Hdate%col_pos_Ok & H).
  apply bind_Ok in H as (order_time & Htime%col_pos_Ok & H).
  apply bind_Ok in H as (combined & Hcombined%mapM_Ok & H).
  apply bind_Ok in H as (duration & Hduration%col_pos_Ok & H).
  apply bind_Ok in H as (deltas & Hdeltas%mapM_Ok & H).
  apply bind_Ok in H as (order_id & Hid%col_pos_Ok & H).
  apply bind_Ok in H as (store_lat & Hslat%col_pos_Ok & H).
  apply bind_Ok in H as (store_lng & Hslng%col_pos_Ok & H).
  apply bind_Ok in H as (drop_lat & Hdlat%col_pos_Ok & H).
  apply bind_Ok in H as (drop_lng & Hdlng%col_pos_Ok & H).
  apply bind_Ok in H as (traffic & Htraffic%col_pos_Ok & [= <-]).
  split; [done|]. cbn [rows].
  revert deltas Hdeltas.
  induction Hcombined as [|r c rs cs Hc _ IH]; intros deltas Hdeltas;
    inversion Hdeltas as [|? d ? ds Hd Hds]; subst; simpl; constructor.
  - apply combine_date_time_Ok in Hc as (t & Ht & ->).
    unfold amazon_row.
    rewrite <-!(get_column_cell_at (columns df) _ _ _ Hdate),
      <-!(get_column_cell_at (columns df) _ _ _ Htime),
      <-!(get_column_cell_at (columns df) _ _ _ Hduration),
      <-!(get_column_cell_at (columns df) _ _ _ Hid),
      <-!(get_column_cell_at (columns df) _ _ _ Hslat),
      <-!(get_column_cell_at (columns df) _ _ _ Hslng),
      <-!(get_column_cell_at (columns df) _ _ _ Hdlat),
      <-!(get_column_cell_at (columns df) _ _ _ Hdlng),
      <-!(get_column_cell_at (columns df) _ _ _ Htraffic).
    by exists t, d.
  - by apply IH.
Qed.

Lemma transform_amazon_empty (self : DataAligner) :
  empty (amazon_df self) = true →
  transform_amazon_dataset parse_datetime py_str self = Ok empty_frame.
Proof. intros He. unfold transform_amazon_dataset. by rewrite He. Qed.

Lemma transform_delivery_empty (self : DataAligner) :
  empty (enriched_df self) = true →
  transform_delivery_dataset parse_datetime self = Ok empty_frame.
Proof. intros He. unfold transform_delivery_dataset. by rewrite He. Qed.

End amazon.







(** The order of the specification's scenario: 45 minutes after a pickup
    at 10:00 on 1 February 2025, the float of the code is 45 exactly. *)
Example eta_minutes_float_sample :
  Qred <$> (match eta_minutes_float
                    (CTime (1738404000000000000 + duration_ns 45))
                    (CTime 1738404000000000000) with
            | CNum (Fin f) => Some f
            | _ => None
            end) = Some 45%Q.
Proof. vm_compute. reflexivity. Qed.

(** The scenario of the specification: ordered on 2025-02-01 at 10:00:00
    with 45 minutes of delivery. *)
Example amazon_scenario :
  (rows <$> Some (value empty_frame
     (transform_amazon_dataset Iso.parse_datetime Iso.py_str external_only)))
  ≫= head =
  Some (0, [CStr "A1"; CStr "2025-02-01";
            CTime 1738404000000000000; CTime 1738406700000000000;
            CNum (Fin 22); CNum (Fin 88);
            CNum (Fin (221 # 10)); CNum (Fin (881 # 10));
            CStr "High "; CNone;
            CNum (Fin (2700000000000 # 60000000000))]) ∧
  (2700000000000 # 60000000000 == 45)%Q.
Proof. split; vm_compute; reflexivity. Qed.

Section concat.
Context (parse_datetime : cell → option Z) (py_str : cell → string).

Lemma empty_false (df : DataFrame) :
  empty df = false ↔ rows df ≠ [] ∧ columns df ≠ [].
Proof.
  unfold empty. destruct (rows df), (columns df); split;
    first [done | by intros [??]].
Qed.

Lemma convert_at_rows_length (df : DataFrame) (c : string) :
  length (rows (convert_at parse_datetime c df)) = length (rows df).
Proof.
  unfold convert_at. destruct (col_index _ _); [|done].
  simpl. by rewrite length_fmap.
Qed.

Lemma reshaped_delivery_length (df : DataFrame) :
  length (rows (reshaped_delivery parse_datetime df)) = length (rows df).
Proof.
  unfold reshaped_delivery; simpl.
  by rewrite length_fmap, !convert_at_rows_length.
Qed.

Lemma length_nonempty {A} (l : list A) : l ≠ [] ↔ length l ≠ 0%nat.
Proof. by destruct l. Qed.

(** The transformed local side is empty exactly when its input is. *)
Lemma transform_delivery_emptiness (self : DataAligner) (df1 : DataFrame) :
  transform_delivery_dataset parse_datetime self = Ok df1 →
  empty df1 = empty (enriched_df self).
Proof.
  intros H. destruct (empty (enriched_df self)) eqn:He.
  - rewrite transform_delivery_empty in H by done. by injection H as <-.
  - rewrite transform_delivery_present in H
      by eauto using transform_delivery_Ok_inv.
    injection H as <-. apply empty_false. split; [|done].
    apply length_nonempty. rewrite reshaped_delivery_length.
    apply length_nonempty. by apply empty_false in He as [? _].
Qed.

Lemma transform_amazon_emptiness (self : DataAligner) (df2 : DataFrame) :
  transform_amazon_dataset parse_datetime py_str self = Ok df2 →
  empty df2 = empty (amazon_df self).
Proof.
  intros H. destruct (empty (amazon_df self)) eqn:He.
  - rewrite transform_amazon_empty in H by done. by injection H as <-.
  - destruct (transform_amazon_Ok_inv _ _ _ _ He H) as [Hcols Hrows].
    apply empty_false. rewrite Hcols. split; [|done].
    apply length_nonempty. rewrite <-(Forall2_length _ _ _ Hrows).
    apply length_nonempty. by apply empty_false in He as [? _].
Qed.

Lemma reindex_delivery_same (a0 a1 a2 a3 a4 a5 a6 a7 a8 a9 a10 : cell) :
  reindex_cells delivery_columns delivery_columns
    [a0; a1; a2; a3; a4; a5; a6; a7; a8; a9; a10] =
  [a0; a1; a2; a3; a4; a5; a6; a7; a8; a9; a10].
Proof. reflexivity. Qed.

(** Laid out under the local side's labels, an external row keeps the
    cell of every label. *)
Lemma reindex_amazon_lookup (a0 a1 a2 a3 a4 a5 a6 a7 a8 a9 a10 : cell)
    (c : string) :
  c ∈ amazon_columns →
  get_column_cell delivery_columns c
    (reindex_cells amazon_columns delivery_columns
       [a0; a1; a2; a3; a4; a5; a6; a7; a8; a9; a10]) =
  get_column_cell amazon_columns c
    [a0; a1; a2; a3; a4; a5; a6; a7; a8; a9; a10].
Proof.
  unfold amazon_columns. intros Hc.
  repeat (apply elem_of_cons in Hc as [->|Hc]; [reflexivity|]).
  by apply elem_of_nil in Hc.
Qed.

Lemma concat_columns :
  delivery_columns ++ filter (λ c, c ∉ delivery_columns) amazon_columns =
  delivery_columns.
Proof. reflexivity. Qed.
End concat.

Section align_cases.
Context (parse_datetime : cell → option Z) (py_str : cell → string).

Lemma reshaped_delivery_cells (df : DataFrame) :
  (λ r : row, reindex_cells delivery_columns delivery_columns r.2) <$>
    rows (reshaped_delivery parse_datetime df) =
  (rows (reshaped_delivery parse_datetime df)).*2.
Proof.
  unfold reshaped_delivery; cbn [rows].
  rewrite <-!list_fmap_compose. apply list_fmap_ext. intros _ r _.
  apply reindex_delivery_same.
Qed.

Lemma amazon_row_cells (cols : list string) (r o : row) :
  amazon_row parse_datetime py_str cols r o →
  ∃ a0 a1 a2 a3 a4 a5 a6 a7 a8 a9 a10,
    o.2 = [a0; a1; a2; a3; a4; a5; a6; a7; a8; a9; a10].
Proof. intros (t & delta & _ & _ & ->). simpl. by do 11 eexists. Qed.

(** Both sides non-empty: the concatenation. *)
Lemma align_concat (self : DataAligner) (df1 df2 : DataFrame) :
  transform_delivery_dataset parse_datetime self = Ok df1 →
  transform_amazon_dataset parse_datetime py_str self = Ok df2 →
  empty df1 = false → empty df2 = false →
  ∃ out, align parse_datetime py_str self = Ok out ∧
    columns out = delivery_columns ∧
    (rows out).*1 =
      Z.of_nat <$> seq 0 (length (rows df1) + length (rows df2)) ∧
    (rows out).*2 =
      (rows df1).*2 ++
      (reindex_cells amazon_columns delivery_columns <$> (rows df2).*2) ∧
    Forall (λ cells, ∀ c, c ∈ amazon_columns →
              get_column_cell delivery_columns c
                (reindex_cells amazon_columns delivery_columns cells) =
              get_column_cell amazon_columns c cells) (rows df2).*2.
Proof.
  intros H1 H2 He1 He2. unfold align. rewrite H1, H2. cbn [bind].
  rewrite He1, He2. cbn [andb]. eexists. split; [done|].
  assert (empty (enriched_df self) = false) as Hd
    by (by rewrite <-(transform_delivery_emptiness _ _ _ H1)).
  assert (empty (amazon_df self) = false) as Ha
    by (by rewrite <-(transform_amazon_emptiness _ _ _ _ H2)).
  rewrite transform_delivery_present in H1
    by eauto using transform_delivery_Ok_inv.
  injection H1 as <-.
  destruct (transform_amazon_Ok_inv _ _ _ _ Ha H2) as [Hcols Hrows].
  unfold concat_ignore_index. rewrite Hcols.
  change (columns (reshaped_delivery parse_datetime (enriched_df self)))
    with delivery_columns.
  rewrite concat_columns. cbn [columns rows].
  rewrite range_index_cells, range_index_labels, length_app, !length_fmap.
  rewrite reshaped_delivery_cells, <-list_fmap_compose.
  split_and!; [done..|].
  apply Forall_fmap, Forall_forall. intros o Ho.
  apply list_elem_of_lookup in Ho as [i Ho].
  destruct (Forall2_lookup_r _ _ _ _ _ Hrows Ho) as (r & _ & Hr).
  apply amazon_row_cells in Hr
    as (a0 & a1 & a2 & a3 & a4 & a5 & a6 & a7 & a8 & a9 & a10 & Hcells).
  simpl. rewrite Hcells. intros c. apply reindex_amazon_lookup.
Qed.
End align_cases.

(** C6: on two empty inputs [align] returns the empty table, which has no
    rows; when exactly one transformed side is empty it returns the other
    side as it is; when both have rows it returns the local rows followed by
    the external-provider rows, each in its own order, every external row
    keeping the cell of every label, numbered 0, 1, 2, ... anew.  A
    transformed side is empty exactly when its input is. *)
Theorem align_cases (parse_datetime : cell → option Z)
    (py_str : cell → string) (self : DataAligner) :
  (empty (enriched_df self) = true → empty (amazon_df self) = true →
   align parse_datetime py_str self = Ok empty_frame ∧
   rows empty_frame = []) ∧
  (∀ df1 df2,
     transform_delivery_dataset parse_datetime self = Ok df1 →
     transform_amazon_dataset parse_datetime py_str self = Ok df2 →
     empty df1 = empty (enriched_df self) ∧
     empty df2 = empty (amazon_df self) ∧
     (empty df1 = true → empty df2 = false →
      align parse_datetime py_str self = Ok df2) ∧
     (empty df1 = false → empty df2 = true →
      align parse_datetime py_str self = Ok df1) ∧
     (empty df1 = false → empty df2 = false →
      ∃ out, align parse_datetime py_str self = Ok out ∧
        (rows out).*1 =
          Z.of_nat <$> seq 0 (length (rows df1) + length (rows df2)) ∧
        (rows out).*2 =
          (rows df1).*2 ++
          (reindex_cells amazon_columns delivery_columns <$> (rows df2).*2) ∧
        Forall (λ cells, ∀ c, c ∈ amazon_columns →
                  get_column_cell delivery_columns c
                    (reindex_cells amazon_columns delivery_columns cells) =
                  get_column_cell amazon_columns c cells) (rows df2).*2)).
Proof.
  split.
  - intros Hd Ha. split; [|done]. unfold align.
    rewrite transform_delivery_empty, transform_amazon_empty by done.
    done.
  - intros df1 df2 H1 H2. split_and!.
    + by eapply transform_delivery_emptiness.
    + by eapply transform_amazon_emptiness.
    + intros He1 He2. unfold align. rewrite H1, H2. cbn [bind].
      by rewrite He1, He2.
    + intros He1 He2. unfold align. rewrite H1, H2. cbn [bind].
      by rewrite He1, He2.
    + intros He1 He2.
      destruct (align_concat parse_datetime py_str self df1 df2 H1 H2 He1 He2)
        as (out & Hout & _ & Hix & Hcells & Hkeep).
      by exists out.
Qed.

Example align_sample_index :
  (rows (value empty_frame
           (align Iso.parse_datetime Iso.py_str sample_aligner))).*1 =
  [0; 1; 2; 3; 4].
Proof. vm_compute. reflexivity. Qed.

(** C9 (a defect of the code): a non-empty table of [align] has the eleven
    canonical columns in the canonical order when the local side has rows;
    when only the external-provider side has rows, [align] returns the
    external transform as it is, whose columns list traffic before
    weather. *)
Theorem align_external_only_column_order :
  (out <- align Iso.parse_datetime Iso.py_str external_only ;;
   Ok (columns out)) =
  Ok ["order_id"; "Date"; "pickup_time"; "delivery_time";
      "pickup_lat"; "pickup_lng"; "drop_lat"; "drop_lng";
      "traffic"; "weather"; "ETA_target"] ∧
  delivery_columns =
     ["order_id"; "Date"; "pickup_time"; "delivery_time";
      "pickup_lat"; "pickup_lng"; "drop_lat"; "drop_lng";
      "weather"; "traffic"; "ETA_target"] ∧
  (∀ parse_datetime py_str self out,
     align parse_datetime py_str self = Ok out → empty out = false →
     (empty (enriched_df self) = false → columns out = delivery_columns) ∧
     (empty (enriched_df self) = true → columns out = amazon_columns)).
Proof.
  split_and!; [vm_compute; reflexivity|reflexivity|].
  intros parse_datetime py_str self out Hout Hne.
  unfold align in Hout.
  apply bind_Ok in Hout as (df1 & H1 & Hout).
  apply bind_Ok in Hout as (df2 & H2 & Hout).
  pose proof (transform_delivery_emptiness _ _ _ H1) as He1.
  pose proof (transform_amazon_emptiness _ _ _ _ H2) as He2.
  split; intros Hd; rewrite Hd in He1; rewrite He1 in Hout.
  - rewrite transform_delivery_present in H1
      by eauto using transform_delivery_Ok_inv.
    injection H1 as <-. cbn [andb] in Hout.
    destruct (empty df2) eqn:E2.
    + by injection Hout as <-.
    + injection Hout as <-.
      destruct (transform_amazon_Ok_inv parse_datetime py_str self df2)
        as [Hcols _]; [by rewrite <-He2|done|].
      unfold concat_ignore_index. cbn [columns]. rewrite Hcols.
      change (columns (reshaped_delivery parse_datetime (enriched_df self)))
        with delivery_columns.
      apply concat_columns.
  - destruct (empty df2) eqn:E2; cbn [andb] in Hout.
    + injection Hout as <-. done.
    + injection Hout as <-.
      by destruct (transform_amazon_Ok_inv parse_datetime py_str self df2)
        as [Hcols _]; [by rewrite <-He2|done|].
Qed.

(** ** Enrichment completes *)

Lemma col_index_cons (k c : string) (cols : list string) :
  col_index k (c :: cols) =
  if decide (c = k) then Some 0%nat else S <$> col_index k cols.
Proof.
  unfold col_index; simpl. case_decide; [done|].
  by destruct (list_find _ cols) as [[]|].
Qed.

Lemma lookup_label_zip (cols : list string) (cells : list cell) (k : string) :
  lookup_label (zip cols cells) k = col_index k cols ≫= (cells !!.).
Proof.
  revert cells. induction cols as [|c cols IH]; intros cells; [done|].
  rewrite col_index_cons. destruct cells as [|v cells]; simpl.
  - case_decide; [done|]. by destruct (col_index k cols).
  - case_decide; [done|]. rewrite IH. by destruct (col_index k cols).
Qed.

Lemma col_index_app (k : string) (cols1 cols2 : list string) :
  col_index k (cols1 ++ cols2) =
  match col_index k cols1 with
  | Some i => Some i
  | None => (λ j, (length cols1 + j)%nat) <$> col_index k cols2
  end.
Proof.
  induction cols1 as [|c cols1 IH]; simpl.
  - by destruct (col_index k cols2).
  - rewrite !col_index_cons. case_decide; [done|]. rewrite IH.
    destruct (col_index k cols1); simpl; [done|].
    by destruct (col_index k cols2).
Qed.

Lemma col_index_rename (k old new : string) (cols : list string) :
  k ≠ old → k ≠ new →
  col_index k ((λ c, if decide (c = old) then new else c) <$> cols) =
  col_index k cols.
Proof.
  intros Hold Hnew. induction cols as [|c cols IH]; [done|].
  rewrite fmap_cons, !col_index_cons, IH.
  destruct (decide (c = old)) as [->|]; [|done].
  by rewrite !decide_False.
Qed.

Lemma suffixed_disjoint (other cols : list string) (sfx : string) :
  (∀ c, c ∈ cols → c ∉ other) → suffixed other sfx <$> cols = cols.
Proof.
  intros H. rewrite <-(list_fmap_id cols) at 2. apply list_fmap_ext.
  intros _ c Hc%list_elem_of_lookup_2. unfold suffixed.
  by rewrite decide_False by auto.
Qed.

Lemma suffix_dups_same (cols : list string) : suffix_dups cols cols = false.
Proof.
  unfold suffix_dups. generalize (duplicated [] cols) as l.
  induction l as [|[] l IH]; simpl; auto.
Qed.

Lemma keys_total (i : nat) (rs : list row) :
  Forall (λ r : row, ∃ t, cell_at i r.2 = CTime t) rs →
  ∃ ks, keys i rs = Ok ks.
Proof.
  intros H. apply mapM_total. eapply Forall_impl; [apply H|].
  intros r [t Ht]; simpl. rewrite Ht. eauto.
Qed.

Lemma keys_sorted (i : nat) (rs : list row) (ks : list (Z * row)) :
  keys i rs = Ok ks → Sorted (row_le i) rs → Sorted Z.le ks.*1.
Proof.
  intros [<- Hcells]%keys_Ok Hsorted.
  induction ks as [|[k r] ks IH]; simpl in *; [constructor|].
  apply Sorted_inv in Hsorted as [Hsorted Hhd].
  apply Forall_cons in Hcells as [Hk Hcells].
  constructor; [by apply IH|].
  destruct ks as [|[k' r'] ks]; simpl in *; constructor.
  apply HdRel_inv in Hhd. apply Forall_cons in Hcells as [Hk' _].
  unfold row_le, sort_key in Hhd. simpl in *. by rewrite Hk, Hk' in Hhd.
Qed.

(** After [dropna] and [sort_values] on a converted column the merge keys
    exist and are in order. *)
Lemma keys_of_time_column (i : nat) (rs : list row) :
  Forall (λ r : row, time_or_NaT (cell_at i r.2)) rs →
  ∃ ks, keys i (merge_sort (row_le i)
                  (filter (λ r : row, isna (cell_at i r.2) = false) rs))
        = Ok ks ∧ Sorted Z.le ks.*1.
Proof.
  intros Hrs.
  destruct (keys_total i (merge_sort (row_le i)
              (filter (λ r : row, isna (cell_at i r.2) = false) rs)))
    as [ks Hks].
  - rewrite merge_sort_Permutation.
    apply Forall_forall. intros r [Hna Hr]%list_elem_of_filter.
    eapply Forall_forall in Hrs; [|done].
    destruct (cell_at i r.2); try done. eauto.
  - exists ks. split; [done|]. eapply keys_sorted; [done|].
    apply Sorted_merge_sort, _.
Qed.

Lemma measurement_not_candidate (k c : string) :
  k ∈ WeatherSpec.measurement_labels → c ∈ time_candidates → k ≠ c.
Proof.
  unfold WeatherSpec.measurement_labels, time_candidates. intros Hk Hc ->.
  repeat (apply elem_of_cons in Hk as [->|Hk];
          [repeat (apply elem_of_cons in Hc as [Hc|Hc]; [discriminate Hc|]);
           by apply elem_of_nil in Hc|]).
  by apply elem_of_nil in Hk.
Qed.

(** The measurement fields of a merged row are those of its delivery row
    or of its weather row, or NaN. *)
Lemma merged_row_numeric (lcols rcols : list string) (wcol : string)
    (l wc : list cell) :
  wcol ∈ time_candidates →
  length l = length lcols →
  (∀ k i, k ∈ WeatherSpec.measurement_labels → col_index k lcols = Some i →
          WeatherSpec.numeric_cell (cell_at i l)) →
  (∀ k j c, k ∈ WeatherSpec.measurement_labels → col_index k rcols = Some j →
            wc !! j = Some c → WeatherSpec.numeric_cell c) →
  WeatherSpec.numeric_fields
    (zip ((λ c, if decide (c = wcol) then "time_weather" else c) <$>
            (lcols ++ rcols)) (l ++ wc)).
Proof.
  intros Hwcol Hlen Hl Hw k c Hk. rewrite lookup_label_zip.
  rewrite col_index_rename, col_index_app
    by (apply measurement_not_candidate; [done|done || by left]).
  destruct (col_index k lcols) as [i|] eqn:Hi; simpl.
  - intros Hc. pose proof (col_index_lt _ _ _ Hi) as Hlt.
    rewrite lookup_app_l in Hc by lia.
    specialize (Hl k i Hk Hi). unfold cell_at in Hl. by rewrite Hc in Hl.
  - destruct (col_index k rcols) as [j|] eqn:Hj; simpl; [|done].
    rewrite lookup_app_r, <-Hlen by lia.
    replace (length l + j - length l)%nat with j by lia. by apply (Hw k).
Qed.

Lemma rename_id (cols : list string) (c : string) :
  (λ x, if decide (x = c) then c else x) <$> cols = cols.
Proof.
  rewrite <-(list_fmap_id cols) at 2. apply list_fmap_ext.
  intros _ x _. by case_decide.
Qed.

Lemma null_cells_lookup (wcol k : string) (rcols : list string) (j : nat)
    (c : cell) :
  k ≠ wcol → col_index k rcols = Some j →
  null_cells wcol rcols !! j = Some c → c = CNum NaN.
Proof.
  intros Hk [Hj _]%col_index_Some. unfold null_cells.
  rewrite list_lookup_fmap, Hj. simpl. rewrite decide_False by done.
  by intros [= <-].
Qed.

Lemma Forall_range_index (P : row → Prop) (cells : list (list cell)) :
  (∀ i c, c ∈ cells → P (i, c)) → Forall P (range_index cells).
Proof.
  intros H. apply Forall_forall. intros r Hr. unfold range_index in Hr.
  apply elem_of_lookup_imap in Hr as (i & c & -> & Hc).
  apply H. by eapply list_elem_of_lookup_2.
Qed.

(** The merged table exists once the state is as ingestion leaves it and
    the two tables share no column label. *)
Lemma merged_weather_completes (self : DataIngest) :
  ingested self →
  (∀ c, c ∈ columns (delivery_df self) → c ∉ columns (weather_df self)) →
  ∃ ms,
    merged_weather self =
    Ok (mkDF ((λ c, if decide (c = weather_time_col self)
                    then "time_weather" else c) <$>
                (columns (delivery_df self) ++ columns (weather_df self)))
          (range_index (merged_cells (weather_time_col self)
                          (columns (weather_df self)) <$> ms))) ∧
    Forall (λ m : row * option row,
              m.1 ∈ rows (delivery_df self) ∧
              ∀ w, m.2 = Some w → w ∈ rows (weather_df self)) ms.
Proof.
  intros (Hwfl & Hwfr & Hacc & Hwcol & Hcand & Htl & Htr) Hdisj.
  destruct (col_index_elem _ _ Hacc) as [li Hli].
  destruct (col_index_elem _ _ Hwcol) as [ri Hri].
  destruct (keys_of_time_column li (rows (delivery_df self)) (Htl li Hli))
    as (lk & Hlk & Hsl).
  destruct (keys_of_time_column ri (rows (weather_df self)) (Htr ri Hri))
    as (rk & Hrk & Hsr).
  exists (asof_backward lk None rk). split.
  - unfold merged_weather, dropna, sort_values, merge_asof, col_pos.
    rewrite Hli, Hri. cbn [bind columns rows]. rewrite Hli, Hri.
    cbn [bind columns rows]. rewrite Hli, Hri. cbn [bind].
    rewrite Hlk, Hrk. cbn [bind].
    rewrite !decide_True by done.
    rewrite (suffixed_disjoint _ (columns (delivery_df self))) by done.
    rewrite (suffixed_disjoint _ (columns (weather_df self)))
      by (intros c Hc Hc'; by eapply Hdisj).
    rewrite !suffix_dups_same. cbn [orb bind].
    case_decide as Hw.
    + rewrite Hw in *. rewrite rename_id. cbn [columns].
      destruct (col_index_elem "time_weather"
                  (columns (delivery_df self) ++ columns (weather_df self)))
        as [i ->]; [apply elem_of_app; by right|]. done.
    + unfold rename. cbn [columns rows].
      destruct (col_index_elem "time_weather"
                  ((λ c, if decide (c = weather_time_col self)
                         then "time_weather" else c) <$>
                   (columns (delivery_df self) ++ columns (weather_df self))))
        as [i ->]; [|done].
      apply list_elem_of_fmap. exists (weather_time_col self).
      rewrite decide_True by done. split; [done|].
      apply elem_of_app. by right.
  - apply keyed_rows in Hlk as [_ Hlin], Hrk as [_ Hrin].
    destruct (asof_backward_rows _ _ _ (asof_backward_sorted lk rk Hsl Hsr))
      as [_ Hms].
    eapply Forall_impl; [apply Hms|].
    intros [l w] (k & Hl & Hw); simpl in *. split.
    + by apply Hlin in Hl as [? _].
    + intros w' ->. destruct Hw as (kw & Hin & _). by apply Hrin in Hin as [? _].
Qed.

(** Weather enrichment completes: on a state as ingestion leaves it, with
    no column label shared by the two tables and numbers (or None) in the
    measurement columns, nothing is raised. *)
Lemma enrich_with_weather_completes (self : DataIngest) :
  ingested self →
  (∀ c, c ∈ columns (delivery_df self) → c ∉ columns (weather_df self)) →
  numeric_measurements (delivery_df self) →
  numeric_measurements (weather_df self) →
  ∃ labels ms,
    enrich_with_weather self =
    Ok (mk_ingest
          (set_column
             (mkDF ((λ c, if decide (c = weather_time_col self)
                          then "time_weather" else c) <$>
                      (columns (delivery_df self) ++ columns (weather_df self)))
                (range_index (merged_cells (weather_time_col self)
                                (columns (weather_df self)) <$> ms)))
             "Weather_Label" (CStr <$> labels))
          (weather_df self) (weather_time_col self)).
Proof.
  intros Hing Hdisj Hnl Hnr.
  destruct (merged_weather_completes self Hing Hdisj) as (ms & Hmerged & Hms).
  destruct Hing as (Hwfl & Hwfr & Hacc & Hwcol & Hcand & Htl & Htr).
  unfold enrich_with_weather. rewrite Hmerged. cbn [bind columns rows].
  match goal with |- context [mapM ?f ?l] =>
    destruct (mapM_total f l) as [labels Hlabels] end.
  - apply Forall_range_index. intros i cells Hcells.
    apply list_elem_of_fmap in Hcells as ([l w] & -> & Hm).
    eapply Forall_forall in Hms as [Hl Hw]; [|done]. simpl in *.
    eexists. apply generate_label_refines.
    unfold row_series, merged_cells; simpl.
    apply merged_row_numeric; [done| | |].
    + eapply Forall_forall in Hwfl; [|done]. done.
    + intros k j Hk Hj. specialize (Hnl k j Hk Hj).
      eapply Forall_forall in Hnl; [|done]. done.
    + intros k j c Hk Hj Hc. destruct w as [w|].
      * specialize (Hnr k j Hk Hj).
        eapply Forall_forall in Hnr; [|by apply Hw].
        unfold cell_at in Hnr. by rewrite Hc in Hnr.
      * apply null_cells_lookup with (k := k) in Hc as ->; [done| |done].
        by apply measurement_not_candidate.
  - rewrite Hlabels. cbn [bind]. by exists labels, ms.
Qed.

Section ingested.
Context (parse_datetime : cell → option Z).

Lemma time_column_convert_at (df : DataFrame) (c : string) :
  well_formed df → time_column (convert_at parse_datetime c df) c.
Proof.
  intros Hwf i Hi. rewrite convert_at_columns in Hi.
  unfold convert_at. rewrite Hi. cbn [rows].
  apply Forall_fmap. eapply Forall_impl; [apply Hwf|].
  intros r Hr; simpl. rewrite cell_at_insert.
  - by destruct (to_datetime_cases parse_datetime (cell_at i r.2))
      as [[t ->]| ->].
  - rewrite Hr. by eapply col_index_lt.
Qed.

Lemma time_column_convert_at_ne (df : DataFrame) (c c' : string) :
  c ≠ c' → time_column df c → time_column (convert_at parse_datetime c' df) c.
Proof.
  intros Hne Hc i Hi. rewrite convert_at_columns in Hi.
  specialize (Hc i Hi). unfold convert_at.
  destruct (col_index c' (columns df)) as [j|] eqn:Hj; [|done].
  cbn [rows]. apply Forall_fmap. eapply Forall_impl; [apply Hc|].
  intros r Hr; simpl. rewrite cell_at_insert_ne; [done|].
  intros ->. apply Hne. by eapply col_index_inj.
Qed.

(** Ingestion leaves the state ready for the merge. *)
Lemma load_data_ingested (fs : gmap string csv) (dfile wfile : string)
    (self : DataIngest) :
  load_data parse_datetime fs dfile wfile = Ok self → ingested self.
Proof.
  destruct (fs !! dfile) as [d|] eqn:Hd;
    [|by rewrite load_data_no_delivery].
  destruct (fs !! wfile) as [w|] eqn:Hw;
    [|by rewrite (load_data_no_weather _ _ _ _ d)].
  rewrite (load_data_found _ _ _ _ d w) by done.
  case_decide as Ha; [|done].
  destruct (list_find _ time_candidates) as [[n c]|] eqn:Hc; [|done].
  intros [= <-]. apply list_find_Some in Hc as (Hn & Hc & _).
  unfold ingested; cbn [delivery_df weather_df weather_time_col].
  rewrite !convert_at_columns. split_and!.
  - apply well_formed_convert_at, well_formed_convert_at,
      well_formed_normalized.
  - apply well_formed_convert_at, well_formed_normalized.
  - done.
  - done.
  - by eapply list_elem_of_lookup_2.
  - apply time_column_convert_at_ne; [done|].
    apply time_column_convert_at, well_formed_normalized.
  - apply time_column_convert_at, well_formed_normalized.
Qed.

Lemma load_data_columns (fs : gmap string csv) (dfile wfile : string)
    (d w : csv) (self : DataIngest) :
  fs !! dfile = Some d → fs !! wfile = Some w →
  load_data parse_datetime fs dfile wfile = Ok self →
  columns (delivery_df self) = normalize <$> header d ∧
  columns (weather_df self) = normalize <$> header w.
Proof.
  intros Hd Hw. rewrite (load_data_found _ _ _ _ d w) by done.
  case_decide as Ha; [|done].
  destruct (list_find _ time_candidates) as [[n c]|] eqn:Hc; [|done].
  intros [= <-]. cbn [delivery_df weather_df].
  by rewrite !convert_at_columns.
Qed.
End ingested.

Lemma generate_Raise
    (strptime_time : string → option TrafficMockGenerator.time)
    (df : DataFrame) :
  "delivery_time" ∉ columns df →
  TrafficMockGenerator.generate strptime_time df =
  Raise (KeyError "delivery_time").
Proof.
  intros H. unfold TrafficMockGenerator.generate, column.
  by rewrite (proj2 (col_pos_Raise df "delivery_time" _) (conj H eq_refl)).
Qed.

Lemma generate_Ok
    (strptime_time : string → option TrafficMockGenerator.time)
    (df : DataFrame) :
  "delivery_time" ∈ columns df →
  ∃ out, TrafficMockGenerator.generate strptime_time df = Ok out.
Proof.
  intros [i Hi]%col_pos_elem. unfold TrafficMockGenerator.generate, column.
  rewrite Hi. cbn [bind]. eauto.
Qed.

Lemma set_column_columns (df : DataFrame) (c : string) (values : list cell)
    (k : string) :
  k ∈ columns (set_column df c values) → k ∈ columns df ∨ k = c.
Proof.
  unfold set_column. destruct (col_index c (columns df)); cbn [columns].
  - by left.
  - intros [Hk|Hk]%elem_of_app; [by left|right].
    by apply list_elem_of_singleton in Hk.
Qed.

(** C8, as stated: without a delivery_time column both enrichment steps
    complete.  On the sample files, ingestion and weather enrichment do,
    and traffic enrichment raises [KeyError]: it reads delivery_time. *)
Lemma C8_traffic_needs_delivery_time :
  ("delivery_time" ∉ normalize <$> header sample_delivery_no_delivery_time) ∧
  load_data Iso.parse_datetime sample_files "delivery_short.csv" "weather.csv"
    = Ok short_ingest ∧
  enrich_with_weather short_ingest = Ok short_with_weather ∧
  enrich_with_traffic_and_vehicles TrafficMockGenerator.strptime_padded
    short_with_weather = Raise (KeyError "delivery_time").
Proof.
  split_and!; [|vm_compute; reflexivity..].
  compute_done.
Qed.

(** * Further properties of the code *)

(** ** Writing and reading a column *)

Lemma set_column_rows_length (df : DataFrame) (c : string)
    (values : list cell) :
  length values = length (rows df) →
  length (rows (set_column df c values)) = length (rows df).
Proof.
  intros Hlen. unfold set_column.
  destruct (col_index c (columns df)); cbn [rows];
    rewrite length_zip_with; lia.
Qed.

Lemma zip_with_fst {A B} (f : row → A → B) (g : B → Z) (rs : list row)
    (values : list A) :
  (∀ r v, g (f r v) = r.1) → length values = length rs →
  g <$> zip_with f rs values = rs.*1.
Proof.
  intros Hg. revert values.
  induction rs as [|r rs IH]; intros [|v values] Hlen; simpl in *;
    try done. f_equal; [apply Hg|]. apply IH. lia.
Qed.

Lemma set_column_index (df : DataFrame) (c : string) (values : list cell) :
  length values = length (rows df) →
  (rows (set_column df c values)).*1 = (rows df).*1.
Proof.
  intros Hlen. unfold set_column.
  destruct (col_index c (columns df)); cbn [rows];
    by apply zip_with_fst.
Qed.

Lemma col_index_snoc_new (c : string) (cols : list string) :
  col_index c cols = None → col_index c (cols ++ [c]) = Some (length cols).
Proof.
  intros H. rewrite col_index_app, H, col_index_cons, decide_True by done.
  simpl. f_equal. lia.
Qed.

Lemma col_index_snoc_other (c c' : string) (cols : list string) :
  c' ≠ c → col_index c' (cols ++ [c]) = col_index c' cols.
Proof.
  intros H. rewrite col_index_app. destruct (col_index c' cols); [done|].
  by rewrite col_index_cons, decide_False.
Qed.

Lemma cell_at_snoc (cells : list cell) (v : cell) :
  cell_at (length cells) (cells ++ [v]) = v.
Proof.
  unfold cell_at. rewrite lookup_app_r, Nat.sub_diag by lia. done.
Qed.

Lemma cell_at_app_l (i : nat) (cells more : list cell) :
  (i < length cells)%nat → cell_at i (cells ++ more) = cell_at i cells.
Proof. intros Hi. unfold cell_at. by rewrite lookup_app_l. Qed.

(** What is written into a column is what is read back from it. *)
Lemma column_set_column (df : DataFrame) (c : string) (values : list cell) :
  well_formed df → length values = length (rows df) →
  column (set_column df c values) c = Ok values.
Proof.
  intros Hwf Hlen. apply column_Ok. unfold set_column.
  destruct (col_index c (columns df)) as [i|] eqn:Hi; cbn [columns rows].
  - exists i. split; [done|].
    pose proof (col_index_lt _ _ _ Hi) as Hlt.
    revert values Hlen. unfold well_formed in Hwf.
    induction Hwf as [|r rs Hr _ IH]; intros [|v values] Hlen; simpl in *;
      try done.
    f_equal; [|apply IH; lia].
    symmetry. apply cell_at_insert. by rewrite Hr.
  - exists (length (columns df)). split; [by apply col_index_snoc_new|].
    revert values Hlen. unfold well_formed in Hwf.
    induction Hwf as [|r rs Hr _ IH]; intros [|v values] Hlen; simpl in *;
      try done.
    f_equal; [|apply IH; lia].
    by rewrite <-Hr, cell_at_snoc.
Qed.

(** Writing a column leaves every other column as it was. *)
Lemma column_set_column_ne (df : DataFrame) (c c' : string)
    (values : list cell) :
  well_formed df → length values = length (rows df) → c' ≠ c →
  column (set_column df c values) c' = column df c'.
Proof.
  intros Hwf Hlen Hne. unfold column, col_pos, set_column.
  destruct (col_index c (columns df)) as [i|] eqn:Hi; cbn [columns rows].
  - destruct (col_index c' (columns df)) as [j|] eqn:Hj; [|done].
    cbn [bind]. f_equal.
    assert (i ≠ j) as Hij.
    { intros ->. apply Hne. by eapply col_index_inj. }
    revert values Hlen. clear Hwf.
    induction (rows df) as [|r rs IH]; intros [|v values] Hlen; simpl in *;
      try done.
    f_equal; [|apply IH; lia]. by apply cell_at_insert_ne.
  - rewrite col_index_snoc_other by done.
    destruct (col_index c' (columns df)) as [j|] eqn:Hj; [|done].
    cbn [bind]. f_equal.
    pose proof (col_index_lt _ _ _ Hj) as Hlt.
    revert values Hlen. unfold well_formed in Hwf.
    induction Hwf as [|r rs Hr _ IH]; intros [|v values] Hlen; simpl in *;
      try done.
    f_equal; [|apply IH; lia].
    apply cell_at_app_l. by rewrite Hr.
Qed.

Lemma well_formed_set_column (df : DataFrame) (c : string)
    (values : list cell) :
  well_formed df → well_formed (set_column df c values).
Proof.
  unfold well_formed, set_column. intros Hwf.
  destruct (col_index c (columns df)) as [i|]; cbn [columns rows].
  - revert values. induction Hwf as [|r rs Hr _ IH]; intros [|v values];
      simpl; constructor; [|apply IH].
    simpl. by rewrite length_insert.
  - revert values. induction Hwf as [|r rs Hr _ IH]; intros [|v values];
      simpl; constructor; [|apply IH].
    simpl. rewrite !length_app, Hr. done.
Qed.

Lemma column_length (df : DataFrame) (c : string) (values : list cell) :
  column df c = Ok values → length values = length (rows df).
Proof. intros (i & _ & ->)%column_Ok. by rewrite length_fmap. Qed.

(** ** The weather label *)

Lemma generate_label_ext (row row' : Series) :
  (∀ k, k ∈ WeatherSpec.measurement_labels →
        lookup_label row k = lookup_label row' k) →
  WeatherMockGenerator.generate_label row =
  WeatherMockGenerator.generate_label row'.
Proof.
  intros H. unfold WeatherMockGenerator.generate_label, get.
  rewrite !H by compute_done. done.
Qed.

(** X1. The label of a record depends on its six measurement fields only:
    two records (their labels unique) that agree on them get the same
    label, or raise the same exception, whatever else they hold. *)
Theorem generate_label_reads_six_fields (row row' : Series) :
  NoDup row.*1 → NoDup row'.*1 →
  (∀ k, k ∈ WeatherSpec.measurement_labels →
        lookup_label row k = lookup_label row' k) →
  WeatherMockGenerator.generate_label row =
  WeatherMockGenerator.generate_label row'.
Proof.
  intros _ _ H. unfold WeatherMockGenerator.generate_label, get.
  by rewrite !H by compute_done.
Qed.

Lemma generate_label_reads_six_fields_witness :
  WeatherMockGenerator.generate_label clear_sky_order_row =
  WeatherMockGenerator.generate_label clear_sky_row.
Proof.
  apply (generate_label_reads_six_fields clear_sky_order_row clear_sky_row);
    [compute_done|compute_done|].
  intros k Hk. unfold WeatherSpec.measurement_labels in Hk.
  repeat (apply elem_of_cons in Hk as [->|Hk]); try reflexivity.
  by apply elem_of_nil in Hk.
Defined.

(** X2. A record (its labels unique) with neither a wind speed nor a
    total cloud cover (the field absent or None) is labelled "Cloudy" and
    nothing is raised, whatever its other fields hold. *)
Theorem generate_label_no_wind_no_cloud (row : Series) :
  NoDup row.*1 →
  get row "wind_speed_10m (km/h)" CNone = CNone →
  get row "cloud_cover (%)" CNone = CNone →
  WeatherMockGenerator.generate_label row = Ok "Cloudy".
Proof.
  intros _ Hws Hcc. unfold WeatherMockGenerator.generate_label.
  rewrite Hws, Hcc. cbn. by rewrite andb_false_r.
Qed.

Lemma generate_label_no_wind_no_cloud_witness :
  WeatherMockGenerator.generate_label humidity_only_row = Ok "Cloudy".
Proof.
  apply (generate_label_no_wind_no_cloud humidity_only_row);
    [compute_done|reflexivity|reflexivity].
Defined.

(** A record whose measurements are all NaN or absent falls through every
    rule. *)
Lemma generate_label_null_row (row : Series) :
  (∀ k, k ∈ WeatherSpec.measurement_labels →
        lookup_label row k = None ∨ lookup_label row k = Some (CNum NaN)) →
  WeatherMockGenerator.generate_label row = Ok "Cloudy".
Proof.
  intros H. unfold WeatherMockGenerator.generate_label, get.
  destruct (H "relative_humidity_2m (%)") as [-> | ->]; [compute_done|..];
  destruct (H "cloud_cover_low (%)") as [-> | ->]; try compute_done;
  destruct (H "cloud_cover (%)") as [-> | ->]; try compute_done;
  destruct (H "wind_speed_10m (km/h)") as [-> | ->]; try compute_done;
  destruct (H "precipitation (mm)") as [-> | ->]; try compute_done;
  destruct (H "is_day ()") as [-> | ->]; try compute_done; reflexivity.
Qed.

(** ** The traffic label *)

(** X3. On a table whose column labels are unique, [generate] needs a
    delivery_time column and raises [KeyError] without one.  With one it
    adds the Traffic_Label column, whose cells are the traffic labels of
    the delivery_time cells row by row, and changes nothing else: the rows
    keep their index and every other column keeps its cells. *)
Theorem generate_adds_traffic_label
    (strptime_time : string → option TrafficMockGenerator.time)
    (df : DataFrame) :
  well_formed df → NoDup (columns df) →
  ("delivery_time" ∉ columns df →
   TrafficMockGenerator.generate strptime_time df =
   Raise (KeyError "delivery_time")) ∧
  ("delivery_time" ∈ columns df →
   ∃ out delivery_time,
     TrafficMockGenerator.generate strptime_time df = Ok out ∧
     column df "delivery_time" = Ok delivery_time ∧
     column out "Traffic_Label" =
       Ok ((λ v, CStr (TrafficMockGenerator._map_traffic strptime_time v))
             <$> delivery_time) ∧
     (rows out).*1 = (rows df).*1 ∧
     well_formed out ∧
     (∀ c, c ∈ columns out ↔ c ∈ columns df ∨ c = "Traffic_Label") ∧
     (∀ c, c ≠ "Traffic_Label" → column out c = column df c)).
Proof.
  intros Hwf _. split; [apply generate_Raise|].
  intros [i Hi]%col_index_elem.
  unfold TrafficMockGenerator.generate.
  pose proof (column_mkDF (columns df) (rows df) "delivery_time" i Hi) as Hc.
  destruct df as [cols rs]. cbn [columns rows] in *.
  rewrite Hc. cbn [bind].
  set (values := CStr <$> _).
  assert (length values = length rs) as Hlen.
  { unfold values. by rewrite !length_fmap. }
  eexists _, _. split; [done|]. split; [done|].
  split; [|split; [|split; [|split]]].
  - rewrite column_set_column by done. unfold values.
    by rewrite <-list_fmap_compose.
  - by apply set_column_index.
  - by apply well_formed_set_column.
  - intros c. split; [apply set_column_columns|].
    unfold set_column. cbn [columns].
    destruct (col_index "Traffic_Label" cols) as [j|] eqn:Hj; cbn [columns].
    + intros [?| ->]; [done|]. by eapply col_index_elem_inv.
    + rewrite elem_of_app, list_elem_of_singleton. tauto.
  - intros c Hne. by apply column_set_column_ne.
Qed.

Lemma generate_adds_traffic_label_witness :
  ∃ out,
    TrafficMockGenerator.generate TrafficMockGenerator.strptime_padded
      (delivery_df sample_with_weather) = Ok out ∧
    column out "Traffic_Label" = Ok [CStr "Low"; CStr "High"].
Proof.
  destruct (generate_adds_traffic_label TrafficMockGenerator.strptime_padded
              (delivery_df sample_with_weather)) as [_ H].
  - vm_compute. repeat constructor.
  - compute_done.
  - destruct H as (out & delivery_time & Hgen & Hdt & Hlabel & _).
    + compute_done.
    + exists out. split; [exact Hgen|].
      rewrite Hlabel. vm_compute in Hdt. injection Hdt as <-.
      vm_compute. reflexivity.
Defined.

(** ** Reading timestamps *)

Section timestamps.
Context (parse_datetime : cell → option Z).

Lemma to_datetime_time_or_NaT (c : cell) :
  time_or_NaT c → to_datetime parse_datetime c = c.
Proof. by destruct c. Qed.

Lemma to_datetime_idempotent (c : cell) :
  to_datetime parse_datetime (to_datetime parse_datetime c) =
  to_datetime parse_datetime c.
Proof.
  by destruct (to_datetime_cases parse_datetime c) as [[t ->] | ->].
Qed.

Lemma converted_time_or_NaT (i : nat) (r : row) :
  time_or_NaT (cell_at i r.2) → converted parse_datetime i r = r.
Proof.
  intros Ht. unfold converted. destruct r as [l cells]. simpl in *.
  f_equal. rewrite to_datetime_time_or_NaT by done.
  unfold cell_at in *. destruct (cells !! i) eqn:Hi; simpl in *.
  - by apply list_insert_id.
  - done.
Qed.

Lemma convert_at_time_column (df : DataFrame) (c : string) :
  time_column df c → convert_at parse_datetime c df = df.
Proof.
  intros Ht. unfold convert_at.
  destruct (col_index c (columns df)) as [i|] eqn:Hi; [|done].
  specialize (Ht i Hi). destruct df as [cols rs]. cbn [columns rows] in *.
  f_equal. induction Ht as [|r rs Hr _ IH]; [done|].
  rewrite fmap_cons, IH. f_equal. by apply converted_time_or_NaT.
Qed.

(** X4. Reading a column again with [pd.to_datetime] changes nothing once
    it holds timestamps: the conversion of a cell is idempotent, and on a
    table whose labels are unique converting a column whose cells are
    timestamps or NaT returns the table as it is. *)
Theorem convert_column_again (df : DataFrame) (c : string) :
  (∀ v, to_datetime parse_datetime (to_datetime parse_datetime v) =
        to_datetime parse_datetime v) ∧
  (NoDup (columns df) → c ∈ columns df → time_column df c →
   convert_column parse_datetime df c = Ok df) ∧
  (NoDup (columns df) → c ∈ columns df → well_formed df →
   ∃ df', convert_column parse_datetime df c = Ok df' ∧
          convert_column parse_datetime df' c = Ok df').
Proof.
  split; [apply to_datetime_idempotent|]. split.
  - intros _ Hc Ht. rewrite convert_column_at by done.
    by rewrite convert_at_time_column.
  - intros _ Hc Hwf. exists (convert_at parse_datetime c df).
    split; [by apply convert_column_at|].
    rewrite convert_column_at by by rewrite convert_at_columns.
    rewrite convert_at_time_column; [done|].
    by apply time_column_convert_at.
Qed.

Lemma convert_at_index (df : DataFrame) (c : string) :
  (rows (convert_at parse_datetime c df)).*1 = (rows df).*1.
Proof.
  unfold convert_at. destruct (col_index c (columns df)); [|done].
  cbn [rows]. rewrite <-list_fmap_compose. done.
Qed.

Lemma normalized_index (f : csv) :
  (rows (normalized f)).*1 = Z.of_nat <$> seq 0 (length (records f)).
Proof.
  unfold normalized, read_csv. cbn [rows].
  by rewrite range_index_labels, length_fmap.
Qed.

End timestamps.

(** X5. Loading files that [pd.read_csv] reads as they stand, with ASCII
    labels distinct once normalised, converts the timestamp columns and
    nothing else: the delivery_time column, when the file has one, is
    converted; every other column of either table holds the cells of the
    file; the rows are numbered from 0 in file order, none dropped. *)
Theorem load_data_converts_only_time_columns
    (parse_accept parse_delivery parse_weather : cell → option Z)
    (fs : gmap string csv) (dfile wfile : string) (d w : csv)
    (st : DataIngest) :
  fs !! dfile = Some d → fs !! wfile = Some w →
  loadable d → loadable w →
  load_data_with parse_accept parse_delivery parse_weather fs dfile wfile
    = Ok st →
  (rows (delivery_df st)).*1 = Z.of_nat <$> seq 0 (length (records d)) ∧
  (rows (weather_df st)).*1 = Z.of_nat <$> seq 0 (length (records w)) ∧
  (∀ raw, column (normalized d) "delivery_time" = Ok raw →
          column (delivery_df st) "delivery_time" =
          Ok (to_datetime parse_delivery <$> raw)) ∧
  (∀ c, c ≠ "accept_time" → c ≠ "delivery_time" →
        column (delivery_df st) c = column (normalized d) c) ∧
  (∀ c, c ≠ weather_time_col st →
        column (weather_df st) c = column (normalized w) c).
Proof.
  intros Hd Hw _ _ Hload.
  rewrite (load_data_with_found _ _ _ fs dfile wfile d w Hd Hw) in Hload.
  destruct (decide _) as [Hacc|]; [|done].
  destruct (list_find _ _) as [[n c]|]; [|done].
  injection Hload as <-. cbn [delivery_df weather_df weather_time_col].
  split_and!.
  - by rewrite !convert_at_index, normalized_index.
  - by rewrite convert_at_index, normalized_index.
  - intros raw Hraw. apply column_convert_at.
    + apply well_formed_convert_at, well_formed_normalized.
    + by rewrite column_convert_at_ne.
  - intros k Hk1 Hk2. by rewrite !column_convert_at_ne.
  - intros k Hk. by rewrite column_convert_at_ne.
Qed.

Lemma load_data_converts_only_time_columns_witness :
  (rows (delivery_df sample_ingest)).*1 = [0; 1; 2] ∧
  column (delivery_df sample_ingest) "order_id" =
    Ok [CNum (Fin 1); CNum (Fin 2); CNum (Fin 3)].
Proof.
  destruct (load_data_converts_only_time_columns Iso.parse_datetime
              Iso.parse_datetime Iso.parse_datetime sample_files
              "delivery.csv" "weather.csv" sample_delivery sample_weather
              sample_ingest) as (Hindex & _ & _ & Hother & _).
  - reflexivity.
  - reflexivity.
  - compute_done.
  - compute_done.
  - vm_compute. reflexivity.
  - split; [exact Hindex|].
    rewrite Hother by discriminate. vm_compute. reflexivity.
Defined.

(** X6. On files that [pd.read_csv] reads as they stand, with ASCII
    labels distinct once normalised, the spelling of a header matters only
    up to blanks around it and the case of its letters: two pairs of files with the
    same records and the same normalised headers load to the same state,
    or fail alike. *)
Theorem load_data_header_insensitive
    (parse_accept parse_delivery parse_weather : cell → option Z)
    (fs fs' : gmap string csv) (dfile wfile : string) (d w d' w' : csv) :
  fs !! dfile = Some d → fs !! wfile = Some w →
  fs' !! dfile = Some d' → fs' !! wfile = Some w' →
  loadable d → loadable w → loadable d' → loadable w' →
  normalize <$> header d = normalize <$> header d' →
  records d = records d' →
  normalize <$> header w = normalize <$> header w' →
  records w = records w' →
  load_data_with parse_accept parse_delivery parse_weather fs dfile wfile =
  load_data_with parse_accept parse_delivery parse_weather fs' dfile wfile.
Proof.
  intros Hd Hw Hd' Hw' _ _ _ _ Hhd Hrd Hhw Hrw.
  rewrite (load_data_with_found _ _ _ fs dfile wfile d w Hd Hw).
  rewrite (load_data_with_found _ _ _ fs' dfile wfile d' w' Hd' Hw').
  assert (∀ f f', normalize <$> header f = normalize <$> header f' →
                  records f = records f' → normalized f = normalized f')
    as Hnorm.
  { intros f f' Hh Hr. unfold normalized, read_csv. cbn [rows].
    rewrite Hh, Hr. do 3 f_equal.
    by rewrite <-(length_fmap normalize (header f)), Hh, length_fmap. }
  by rewrite Hhd, Hhw, (Hnorm d d'), (Hnorm w w').
Qed.

Lemma load_data_header_insensitive_witness :
  load_data_with Iso.parse_datetime Iso.parse_datetime Iso.parse_datetime
    sample_files "delivery.csv" "weather.csv" =
  load_data_with Iso.parse_datetime Iso.parse_datetime Iso.parse_datetime
    sample_files_respelled "delivery.csv" "weather.csv".
Proof.
  apply (load_data_header_insensitive Iso.parse_datetime Iso.parse_datetime
           Iso.parse_datetime sample_files
           sample_files_respelled "delivery.csv" "weather.csv"
           sample_delivery sample_weather
           (mk_csv ["Order_ID"; "accept_time  "; " DELIVERY_TIME";
                    "Accept_GPS_Lat"; "Accept_GPS_Lng"; "LAT"; "LNG";
                    "Delivery_GPS_Lat"; "Delivery_GPS_Lng"]
              (records sample_delivery))
           (mk_csv [" Time"; "Relative_Humidity_2m (%)";
                    "Cloud_Cover_Low (%)"; "Cloud_Cover (%)";
                    "Wind_Speed_10m (km/h)"; "Precipitation (mm)";
                    "Is_Day ()"]
              (records sample_weather)));
    try reflexivity; compute_done.
Defined.

(** ** The weather join *)

Lemma StronglySorted_Forall2 {A B} (P : A → B → Prop) (R : relation A)
    (R' : relation B) (l : list A) (l' : list B) :
  Forall2 P l l' →
  (∀ x y x' y', x ∈ l → y ∈ l → P x x' → P y y' → R x y → R' x' y') →
  StronglySorted R l → StronglySorted R' l'.
Proof.
  induction 1 as [|x x' l l' Hxx' HF IH]; intros HR HS; [constructor|].
  inversion HS as [|? ? HS' Hall]; subst. constructor.
  - apply IH; [|done]. intros a b a' b' Ha Hb. apply HR; by right.
  - apply Forall_forall. intros y' Hy'.
    apply list_elem_of_lookup_1 in Hy' as [i Hi].
    destruct (Forall2_lookup_r _ _ _ _ _ HF Hi) as (y & Hy & Hyy').
    apply list_elem_of_lookup_2 in Hy.
    eapply (HR x y); [by left|by right|done|done|].
    by eapply Forall_forall in Hall.
Qed.

(** X7. On tables whose labels are unique, the table weather enrichment
    leaves has one row for each delivery
    row with an acceptance time, numbered from 0, in ascending order of
    acceptance time; down the table the matched observations never go back
    in time, and once a row has one every later row has one.  The weather
    table and the name of its time column are left as they were. *)
Theorem enrich_with_weather_order (self self' : DataIngest) :
  NoDup (columns (delivery_df self)) → NoDup (columns (weather_df self)) →
  enrich_with_weather self = Ok self' →
  ∃ (li ri : nat) (ms : list (row * option row)) (merged : DataFrame)
    (labels : list string),
    col_index "accept_time" (columns (delivery_df self)) = Some li ∧
    col_index (weather_time_col self) (columns (weather_df self)) = Some ri ∧
    delivery_df self' = set_column merged "Weather_Label" (CStr <$> labels) ∧
    rows merged =
      range_index (merged_cells (weather_time_col self)
                     (columns (weather_df self)) <$> ms) ∧
    length labels = length ms ∧
    length ms =
      length (filter (λ r : row, isna (cell_at li r.2) = false)
                (rows (delivery_df self))) ∧
    (rows (delivery_df self')).*1 = Z.of_nat <$> seq 0 (length ms) ∧
    StronglySorted
      (λ m m' : row * option row,
         key_le (sort_key li m.1) (sort_key li m'.1)) ms ∧
    StronglySorted
      (λ m m' : row * option row, matched_le ri m.2 m'.2) ms ∧
    weather_df self' = weather_df self ∧
    weather_time_col self' = weather_time_col self.
Proof.
  unfold enrich_with_weather. intros _ _ (merged & Hmerged & H)%bind_Ok.
  apply bind_Ok in H as (labels & Hlabels & [= <-]).
  destruct (merged_weather_Ok _ _ Hmerged)
    as (li & ri & lk & rk & Hli & Hri & Hlk & Hrk & Hsl & Hsr & Hrows).
  pose proof (asof_backward_sorted lk rk Hsl Hsr) as Hms.
  set (ms := asof_backward lk None rk) in *.
  pose proof (Forall2_length _ _ _ Hms) as Hlen.
  apply mapM_Ok, Forall2_length in Hlabels.
  rewrite Hrows, range_index_length, length_fmap in Hlabels.
  destruct (keys_Ok _ _ _ Hlk) as [Hl2 Hlcell].
  destruct (keys_Ok _ _ _ Hrk) as [_ Hrcell].
  assert (key_sorted lk) as Hks.
  { apply key_sorted_fst, Sorted_StronglySorted; [|done].
    intros ???; lia. }
  exists li, ri, ms, merged, labels. cbn [delivery_df weather_df
    weather_time_col]. split_and!; try done.
  - rewrite <-Hlen, <-(length_fmap snd lk), Hl2.
    apply Permutation_length, merge_sort_Permutation.
  - rewrite set_column_index.
    + by rewrite Hrows, range_index_labels, length_fmap.
    + by rewrite length_fmap, Hrows, range_index_length, length_fmap.
  - eapply StronglySorted_Forall2; [exact Hms| |exact Hks].
    intros x y [l w] [l' w'] Hx Hy [-> _] [-> _] Hxy. simpl in *.
    eapply Forall_forall in Hx; [|exact Hlcell].
    eapply Forall_forall in Hy; [|exact Hlcell].
    unfold sort_key. simpl in Hx, Hy. by rewrite Hx, Hy.
  - eapply StronglySorted_Forall2; [exact Hms| |exact Hks].
    intros x y [l w] [l' w'] _ _ [_ Hw] [_ Hw'] Hxy. simpl in *.
    destruct w as [w|]; [|done]. destruct Hw as (kw & Hin & Hle & _).
    destruct w' as [w'|]; simpl in *.
    + destruct Hw' as (kw' & Hin' & _ & Hmax).
      specialize (Hmax _ Hin). simpl in Hmax.
      eapply Forall_forall in Hin; [|exact Hrcell].
      eapply Forall_forall in Hin'; [|exact Hrcell].
      unfold sort_key. simpl in Hin, Hin'. rewrite Hin, Hin'. simpl. lia.
    + specialize (Hw' _ Hin). simpl in Hw'. lia.
Qed.

Lemma enrich_with_weather_order_witness :
  weather_df sample_with_weather = weather_df sample_ingest ∧
  weather_time_col sample_with_weather = weather_time_col sample_ingest.
Proof.
  destruct (enrich_with_weather_order sample_ingest sample_with_weather)
    as (li & ri & ms & merged & labels & H).
  - compute_done.
  - compute_done.
  - vm_compute. reflexivity.
  - destruct H as (_ & _ & _ & _ & _ & _ & _ & _ & _ & Hw & Hc).
    split; [exact Hw|exact Hc].
Defined.

(** A measurement of a joined row is read from the weather cells when the
    delivery table has no column of that name. *)
Lemma merged_row_lookup (lcols rcols : list string) (wcol k : string)
    (l wc : list cell) :
  k ∈ WeatherSpec.measurement_labels → wcol ∈ time_candidates →
  k ∉ lcols → length l = length lcols →
  lookup_label (zip (renamed_time wcol (lcols ++ rcols)) (l ++ wc)) k =
  lookup_label (zip rcols wc) k.
Proof.
  intros Hk Hwcol Hl Hlen. rewrite !lookup_label_zip. unfold renamed_time.
  rewrite col_index_rename, col_index_app
    by (apply measurement_not_candidate; [done|done || by left]).
  apply col_index_None in Hl. rewrite Hl.
  destruct (col_index k rcols) as [j|]; simpl; [|done].
  rewrite lookup_app_r, <-Hlen by lia. f_equal. lia.
Qed.

Lemma null_row_label (wcol : string) (rcols : list string) :
  wcol ∈ time_candidates →
  WeatherMockGenerator.generate_label (zip rcols (null_cells wcol rcols)) =
  Ok "Cloudy".
Proof.
  intros Hwcol. apply generate_label_null_row. intros k Hk.
  rewrite lookup_label_zip.
  destruct (col_index k rcols) as [j|] eqn:Hj; simpl; [|by left].
  right. pose proof (col_index_lt _ _ _ Hj) as Hlt.
  destruct (null_cells wcol rcols !! j) as [c|] eqn:Hc.
  - f_equal. eapply null_cells_lookup; [|done..].
    by apply measurement_not_candidate.
  - apply lookup_ge_None in Hc. unfold null_cells in Hc.
    rewrite length_fmap in Hc. lia.
Qed.

(** X8. When the two tables have unique labels and share none, and the
    delivery table has none of the six measurement columns, the
    Weather_Label of a joined row is the label of the observation matched
    to it, computed from that observation alone, and "Cloudy" for a row
    without a match. *)
Theorem enrich_with_weather_labels (self self' : DataIngest) :
  ingested self →
  NoDup (columns (delivery_df self)) → NoDup (columns (weather_df self)) →
  (∀ c, c ∈ columns (delivery_df self) → c ∉ columns (weather_df self)) →
  (∀ k, k ∈ WeatherSpec.measurement_labels →
        k ∉ columns (delivery_df self)) →
  enrich_with_weather self = Ok self' →
  ∃ (ms : list (row * option row)) (labels : list string),
    delivery_df self' =
      set_column
        (mkDF (renamed_time (weather_time_col self)
                 (columns (delivery_df self) ++ columns (weather_df self)))
           (range_index (merged_cells (weather_time_col self)
                           (columns (weather_df self)) <$> ms)))
        "Weather_Label" (CStr <$> labels) ∧
    Forall2 (λ (m : row * option row) (label : string),
               m.1 ∈ rows (delivery_df self) ∧
               match m.2 with
               | Some w =>
                   w ∈ rows (weather_df self) ∧
                   WeatherMockGenerator.generate_label
                     (row_series (columns (weather_df self)) w) = Ok label
               | None => label = "Cloudy"
               end) ms labels ∧
    column (delivery_df self') "Weather_Label" = Ok (CStr <$> labels).
Proof.
  intros Hing _ _ Hdisj Hnone Hok.
  destruct (merged_weather_completes self Hing Hdisj) as (ms & Hmerged & Hms).
  destruct Hing as (Hwfl & Hwfr & Hacc & Hwcol & Hcand & Htl & Htr).
  unfold enrich_with_weather in Hok. rewrite Hmerged in Hok.
  cbn [bind columns rows] in Hok.
  apply bind_Ok in Hok as (labels & Hlabels & [= <-]).
  cbn [delivery_df]. fold (renamed_time (weather_time_col self)
    (columns (delivery_df self) ++ columns (weather_df self))) in *.
  apply mapM_Ok in Hlabels.
  pose proof (Forall2_length _ _ _ Hlabels) as Hlen.
  rewrite range_index_length, length_fmap in Hlen.
  exists ms, labels. split_and!; [done| |].
  - apply Forall2_same_length_lookup. split; [done|].
    intros i [l w] label Hm Hlabel.
    eapply Forall2_lookup_lr with (i := i) (y := label) in Hlabels;
      [|unfold range_index; rewrite list_lookup_imap, list_lookup_fmap, Hm;
        done|done].
    apply list_elem_of_lookup_2 in Hm.
    eapply Forall_forall in Hms as [Hl Hw]; [|done].
    simpl in *. split; [done|].
    unfold row_series, merged_cells in Hlabels. simpl in Hlabels.
    assert (length l.2 = length (columns (delivery_df self))) as Hll.
    { eapply Forall_forall in Hwfl; [|exact Hl]. done. }
    erewrite generate_label_ext in Hlabels;
      [|intros k Hk; apply merged_row_lookup; auto].
    destruct w as [w|].
    + split; [by apply Hw|done].
    + rewrite null_row_label in Hlabels by done. by injection Hlabels.
  - apply column_set_column.
    + unfold well_formed. cbn [columns rows]. apply Forall_range_index.
      intros i cells Hcells.
      apply list_elem_of_fmap in Hcells as ([l w] & -> & Hm).
      eapply Forall_forall in Hms as [Hl Hw]; [|done]. simpl in *.
      unfold merged_cells, renamed_time. simpl.
      rewrite length_fmap, !length_app. f_equal.
      * eapply Forall_forall in Hwfl; [|exact Hl]. done.
      * destruct w as [w|].
        -- eapply Forall_forall in Hwfr; [|by apply Hw]. done.
        -- unfold null_cells. by rewrite length_fmap.
    + cbn [rows]. by rewrite length_fmap, range_index_length, length_fmap.
Qed.

Lemma enrich_with_weather_labels_witness :
  column (delivery_df sample_with_weather) "Weather_Label" =
  Ok [CStr "Cloudy"; CStr "Fog"].
Proof.
  destruct (enrich_with_weather_labels sample_ingest sample_with_weather)
    as (ms & labels & Hdf & Hlabels & Hcol).
  - apply (load_data_ingested Iso.parse_datetime sample_files
             "delivery.csv" "weather.csv"). vm_compute. reflexivity.
  - compute_done.
  - compute_done.
  - intros c Hc. vm_compute in Hc.
    repeat (apply elem_of_cons in Hc as [->|Hc]); try compute_done.
    by apply elem_of_nil in Hc.
  - intros k Hk. unfold WeatherSpec.measurement_labels in Hk.
    repeat (apply elem_of_cons in Hk as [->|Hk]); try compute_done.
    by apply elem_of_nil in Hk.
  - vm_compute. reflexivity.
  - rewrite Hcol. f_equal.
    assert (column (delivery_df sample_with_weather) "Weather_Label" =
            Ok [CStr "Cloudy"; CStr "Fog"]) as H by (vm_compute; reflexivity).
    rewrite Hcol in H. by injection H.
Defined.

(** ** The reshaped tables *)

Section reshaped.
Context (parse_datetime : cell → option Z) (py_str : cell → string).

Lemma get_column_cell_converted (cols : list string) (c k : string)
    (i : nat) (r : row) :
  col_index k cols = Some i → length r.2 = length cols →
  get_column_cell cols c (converted parse_datetime i r).2 =
  if decide (c = k)
  then to_datetime parse_datetime (get_column_cell cols c r.2)
  else get_column_cell cols c r.2.
Proof.
  intros Hi Hlen. unfold get_column_cell.
  destruct (col_index c cols) as [j|] eqn:Hj.
  - case_decide as Hc.
    + subst c. assert (j = i) as -> by congruence.
      apply converted_cell. rewrite Hlen. by eapply col_index_lt.
    + apply converted_cell_ne. intros ->. apply Hc. by eapply col_index_inj.
  - case_decide as Hc; [|done]. congruence.
Qed.

(** The rows of the reshaped local table, each computed from its row of
    the enriched table. *)
Lemma transform_delivery_rows_fmap (self : DataAligner) (out : DataFrame) :
  well_formed (enriched_df self) →
  empty (enriched_df self) = false →
  transform_delivery_dataset parse_datetime self = Ok out →
  columns out = delivery_columns ∧
  rows out =
    (λ r : row,
       let field c := get_column_cell (columns (enriched_df self)) c r.2 in
       let pickup := to_datetime parse_datetime (field "accept_time") in
       let delivery := to_datetime parse_datetime (field "delivery_time") in
       (r.1,
        [field "order_id"; dt_date pickup; pickup; delivery;
         fillna (field "accept_gps_lat") (field "lat");
         fillna (field "accept_gps_lng") (field "lng");
         field "delivery_gps_lat"; field "delivery_gps_lng";
         field "Weather_Label"; field "Traffic_Label";
         eta_minutes delivery pickup])) <$> rows (enriched_df self).
Proof.
  intros Hwf Hne Hok.
  pose proof (transform_delivery_Ok_inv parse_datetime self out Hne Hok)
    as Hreq.
  rewrite transform_delivery_present in Hok by done.
  injection Hok as <-. split; [done|].
  destruct (col_index_elem "accept_time" (columns (enriched_df self)))
    as [i Hi]; [apply Hreq; compute_done|].
  destruct (col_index_elem "delivery_time" (columns (enriched_df self)))
    as [j Hj]; [apply Hreq; compute_done|].
  unfold reshaped_delivery. cbn [rows].
  unfold convert_at at 2. rewrite Hi.
  unfold convert_at. cbn [columns rows]. rewrite Hj. cbn [rows].
  rewrite <-!list_fmap_compose. apply Forall_fmap_ext.
  eapply Forall_impl; [exact Hwf|].
  intros r Hr. unfold compose. cbn beta zeta.
  assert (length (converted parse_datetime i r).2 =
          length (columns (enriched_df self))) as Hr'
    by by rewrite converted_length.
  rewrite !(get_column_cell_converted _ _ "delivery_time" j) by done.
  rewrite !(get_column_cell_converted _ _ "accept_time" i) by done.
  repeat (rewrite decide_False by done).
  repeat (rewrite decide_True by done).
  repeat (rewrite decide_False by done).
  done.
Qed.

(** X9. The reshaped local table row by row: each row of the enriched
    table (its labels unique) gives one row, under the same index label,
    whose pickup and delivery times are the accept_time and delivery_time
    read as timestamps, whose date is the day of the pickup, whose pickup
    position is the accept position or, where that is null, the lat/lng
    one, and whose target is the minutes from pickup to delivery. *)
Theorem transform_delivery_rows (self : DataAligner) (out : DataFrame) :
  well_formed (enriched_df self) → NoDup (columns (enriched_df self)) →
  empty (enriched_df self) = false →
  transform_delivery_dataset parse_datetime self = Ok out →
  columns out = delivery_columns ∧
  Forall2 (λ r o : row,
    let field c := get_column_cell (columns (enriched_df self)) c r.2 in
    let pickup := to_datetime parse_datetime (field "accept_time") in
    let delivery := to_datetime parse_datetime (field "delivery_time") in
    o = (r.1,
         [field "order_id"; dt_date pickup; pickup; delivery;
          fillna (field "accept_gps_lat") (field "lat");
          fillna (field "accept_gps_lng") (field "lng");
          field "delivery_gps_lat"; field "delivery_gps_lng";
          field "Weather_Label"; field "Traffic_Label";
          eta_minutes delivery pickup]))
    (rows (enriched_df self)) (rows out).
Proof.
  intros Hwf _ Hne Hok.
  destruct (transform_delivery_rows_fmap self out Hwf Hne Hok)
    as [Hcols Hrows].
  split; [done|]. rewrite Hrows. apply Forall2_fmap_r.
  apply Forall_Forall2_diag, Forall_forall. by intros r _.
Qed.

Lemma mapM_Raise {A B} (f : A → result B) (l : list A) (e : exn) :
  mapM f l = Raise e → ∃ x, x ∈ l ∧ f x = Raise e.
Proof.
  induction l as [|x l IH]; simpl; [done|].
  destruct (f x) as [y|e'] eqn:Hx; simpl.
  - destruct (mapM f l) as [ys|e'']; simpl; [done|].
    intros [= <-]. destruct IH as (x' & Hin & Hx'); [done|].
    exists x'. split; [by right|done].
  - intros [= <-]. exists x. split; [by left|done].
Qed.

Lemma combine_date_time_cases (date time : cell) :
  (order_time_ok time ∧ ∃ c, combine_date_time py_str date time = Ok c) ∨
  (¬ order_time_ok time ∧ combine_date_time py_str date time = Raise TypeError).
Proof.
  unfold combine_date_time, order_time_ok, fillna.
  destruct time as [|[]|s| | |]; simpl;
    first [ by left; split; [left|eexists]
          | by left; split; [right; eexists|eexists]
          | right; split; [intros [?|[? ?]]; done|done] ].
Qed.

Lemma to_timedelta_minutes_cases (c : cell) :
  (duration_ok c ∧ ∃ d, to_timedelta_minutes c = Ok d) ∨
  (¬ duration_ok c ∧ ∃ e, to_timedelta_minutes c = Raise e ∧
     (e = TypeError ∨ ∃ msg, e = ValueError msg)).
Proof.
  destruct c as [|[]| | | |]; simpl; eauto 10.
Qed.

(** X10. What the reshaping of the external table needs: on a table that
    is not empty, with unique labels, durations that do not overflow and
    timestamps in range, it returns exactly when the nine columns it reads are
    there, every order time is a string or null and every duration is a
    number or null.  A missing column raises [KeyError] for it; an order
    time or duration of another kind raises [TypeError] or
    [ValueError]. *)
Theorem transform_amazon_requires (self : DataAligner) :
  empty (amazon_df self) = false →
  NoDup (columns (amazon_df self)) →
  Forall (λ r : row,
    duration_in_range
      (get_column_cell (columns (amazon_df self)) "Delivery_Time" r.2))
    (rows (amazon_df self)) →
  (∀ c t, parse_datetime c = Some t → in_range t) →
  ((∃ out, transform_amazon_dataset parse_datetime py_str self = Ok out) ↔
   (∀ c, c ∈ amazon_required → c ∈ columns (amazon_df self)) ∧
   Forall (λ r : row,
     order_time_ok
       (get_column_cell (columns (amazon_df self)) "Order_Time" r.2) ∧
     duration_ok
       (get_column_cell (columns (amazon_df self)) "Delivery_Time" r.2))
     (rows (amazon_df self))) ∧
  (∀ e, transform_amazon_dataset parse_datetime py_str self = Raise e →
     (∃ c, c ∈ amazon_required ∧ (c ∉ columns (amazon_df self)) ∧
           e = KeyError c) ∨
     (e = TypeError ∨ ∃ msg, e = ValueError msg) ∧
     Exists (λ r : row,
       ¬ (order_time_ok
            (get_column_cell (columns (amazon_df self)) "Order_Time" r.2) ∧
          duration_ok
            (get_column_cell (columns (amazon_df self)) "Delivery_Time" r.2)))
       (rows (amazon_df self))).
Proof.
  intros Hne _ _ _. unfold transform_amazon_dataset. rewrite Hne.
  set (df := amazon_df self) in *.
  assert (∀ c, (c ∉ columns df) → c ∈ amazon_required →
    ¬ (∀ c, c ∈ amazon_required → c ∈ columns df)) as Hmiss by firstorder.
  destruct (col_pos_cases df "Order_Date") as [(od & Hod & ->)|[Hno ->]];
    cbn [bind];
    [|split; [split; [by intros [? ?]|intros [Hall _]; exfalso;
        eapply Hmiss; [exact Hno|compute_done|done]]
      |intros e [= <-]; left; eexists; split_and!; [|done..]; compute_done]].
  destruct (col_pos_cases df "Order_Time") as [(ot & Hot & ->)|[Hno ->]];
    cbn [bind];
    [|split; [split; [by intros [? ?]|intros [Hall _]; exfalso;
        eapply Hmiss; [exact Hno|compute_done|done]]
      |intros e [= <-]; left; eexists; split_and!; [|done..]; compute_done]].
  destruct (mapM _ (rows df)) as [combined|e1] eqn:Hcomb; cbn [bind].
  2:{ apply mapM_Raise in Hcomb as (r & Hr & Hraise).
      destruct (combine_date_time_cases (cell_at od r.2) (cell_at ot r.2))
        as [[_ [? Hc]]|[Hbad Hc]]; [congruence|].
      rewrite Hc in Hraise. injection Hraise as <-.
      rewrite (get_column_cell_at _ _ _ r.2 Hot) in Hbad.
      split.
      - split; [by intros [? ?]|]. intros [_ Hall]. exfalso.
        eapply Forall_forall in Hall as [? _]; [|exact Hr]. done.
      - intros e [= <-]. right. split; [by left|].
        apply Exists_exists. exists r. split; [done|]. by intros [? _]. }
  destruct (col_pos_cases df "Delivery_Time") as [(du & Hdu & ->)|[Hno ->]];
    cbn [bind];
    [|split; [split; [by intros [? ?]|intros [Hall _]; exfalso;
        eapply Hmiss; [exact Hno|compute_done|done]]
      |intros e [= <-]; left; eexists; split_and!; [|done..]; compute_done]].
  destruct (mapM _ (rows df)) as [deltas|e2] eqn:Hdel in |- *; cbn [bind].
  2:{ apply mapM_Raise in Hdel as (r & Hr & Hraise).
      destruct (to_timedelta_minutes_cases (cell_at du r.2))
        as [[_ [? Hc]]|[Hbad (e' & Hc & He')]]; [congruence|].
      rewrite Hc in Hraise. injection Hraise as <-.
      rewrite (get_column_cell_at _ _ _ r.2 Hdu) in Hbad.
      split.
      - split; [by intros [? ?]|]. intros [_ Hall]. exfalso.
        eapply Forall_forall in Hall as [_ ?]; [|exact Hr]. done.
      - intros e [= <-]. right. split; [done|].
        apply Exists_exists. exists r. split; [done|]. by intros [_ ?]. }
  destruct (col_pos_cases df "Order_ID") as [(c1 & H1 & ->)|[Hno ->]];
    cbn [bind];
    [|split; [split; [by intros [? ?]|intros [Hall _]; exfalso;
        eapply Hmiss; [exact Hno|compute_done|done]]
      |intros e [= <-]; left; eexists; split_and!; [|done..]; compute_done]].
  destruct (col_pos_cases df "Store_Latitude") as [(c2 & H2 & ->)|[Hno ->]];
    cbn [bind];
    [|split; [split; [by intros [? ?]|intros [Hall _]; exfalso;
        eapply Hmiss; [exact Hno|compute_done|done]]
      |intros e [= <-]; left; eexists; split_and!; [|done..]; compute_done]].
  destruct (col_pos_cases df "Store_Longitude") as [(c3 & H3 & ->)|[Hno ->]];
    cbn [bind];
    [|split; [split; [by intros [? ?]|intros [Hall _]; exfalso;
        eapply Hmiss; [exact Hno|compute_done|done]]
      |intros e [= <-]; left; eexists; split_and!; [|done..]; compute_done]].
  destruct (col_pos_cases df "Drop_Latitude") as [(c4 & H4 & ->)|[Hno ->]];
    cbn [bind];
    [|split; [split; [by intros [? ?]|intros [Hall _]; exfalso;
        eapply Hmiss; [exact Hno|compute_done|done]]
      |intros e [= <-]; left; eexists; split_and!; [|done..]; compute_done]].
  destruct (col_pos_cases df "Drop_Longitude") as [(c5 & H5 & ->)|[Hno ->]];
    cbn [bind];
    [|split; [split; [by intros [? ?]|intros [Hall _]; exfalso;
        eapply Hmiss; [exact Hno|compute_done|done]]
      |intros e [= <-]; left; eexists; split_and!; [|done..]; compute_done]].
  destruct (col_pos_cases df "Traffic") as [(c6 & H6 & ->)|[Hno ->]];
    cbn [bind];
    [|split; [split; [by intros [? ?]|intros [Hall _]; exfalso;
        eapply Hmiss; [exact Hno|compute_done|done]]
      |intros e [= <-]; left; eexists; split_and!; [|done..]; compute_done]].
  split; [|done]. split; [intros _|by eauto]. split.
  - intros c Hc. unfold amazon_required in Hc.
    repeat (apply elem_of_cons in Hc as [->|Hc]);
      try (by eapply col_index_elem_inv).
    by apply elem_of_nil in Hc.
  - apply mapM_Ok in Hcomb. apply mapM_Ok in Hdel.
    apply Forall_forall. intros r Hr.
    apply list_elem_of_lookup_1 in Hr as [n Hn].
    destruct (Forall2_lookup_l _ _ _ _ _ Hcomb Hn) as (c & _ & Hc).
    destruct (Forall2_lookup_l _ _ _ _ _ Hdel Hn) as (d & _ & Hd).
    rewrite <-(get_column_cell_at _ _ _ r.2 Hot).
    rewrite <-(get_column_cell_at _ _ _ r.2 Hdu). split.
    + destruct (combine_date_time_cases (cell_at od r.2) (cell_at ot r.2))
        as [[? _]|[_ ?]]; [done|congruence].
    + destruct (to_timedelta_minutes_cases (cell_at du r.2))
        as [[? _]|[_ (? & ? & _)]]; [done|congruence].
Qed.

End reshaped.

Lemma transform_delivery_rows_witness :
  ∃ out, transform_delivery_dataset Iso.parse_datetime sample_aligner = Ok out ∧
         (rows out).*1 = [0; 1].
Proof.
  assert (∃ out, transform_delivery_dataset Iso.parse_datetime sample_aligner
                 = Ok out) as [out Hout] by (eexists; vm_compute; reflexivity).
  exists out. split; [exact Hout|].
  destruct (transform_delivery_rows Iso.parse_datetime sample_aligner out)
    as [_ Hrows].
  - vm_compute. repeat constructor.
  - compute_done.
  - reflexivity.
  - exact Hout.
  - vm_compute in Hout. injection Hout as <-. vm_compute. reflexivity.
Defined.

Lemma transform_amazon_requires_witness :
  ∃ out, transform_amazon_dataset parse_in_range Iso.py_str sample_aligner
         = Ok out.
Proof.
  destruct (transform_amazon_requires parse_in_range Iso.py_str
              sample_aligner) as [[_ H] _].
  - reflexivity.
  - compute_done.
  - repeat (apply Forall_cons; split; [compute_done|]). constructor.
  - intros c t Ht. unfold parse_in_range in Ht.
    destruct (Iso.parse_datetime c) as [t'|]; [|done]. simpl in Ht.
    case_decide; [|done]. by injection Ht as <-.
  - apply H. split.
    + intros c Hc. unfold amazon_required in Hc.
      repeat (apply elem_of_cons in Hc as [->|Hc]); try compute_done.
      by apply elem_of_nil in Hc.
    + repeat (apply Forall_cons; split;
              [split; [vm_compute; eauto|exact I]|]).
      constructor.
Defined.

(** ** The aligned table *)

Section aligned.
Context (parse_datetime : cell → option Z) (py_str : cell → string).

Lemma transform_delivery_index (self : DataAligner) (out : DataFrame) :
  empty (enriched_df self) = false →
  transform_delivery_dataset parse_datetime self = Ok out →
  (rows out).*1 = (rows (enriched_df self)).*1.
Proof.
  intros Hne Hok.
  pose proof (transform_delivery_Ok_inv parse_datetime self out Hne Hok)
    as Hreq.
  rewrite transform_delivery_present in Hok by done.
  injection Hok as <-. unfold reshaped_delivery. cbn [rows].
  rewrite <-list_fmap_compose.
  rewrite <-(convert_at_index parse_datetime (enriched_df self) "accept_time").
  rewrite <-(convert_at_index parse_datetime
               (convert_at parse_datetime "accept_time" (enriched_df self))
               "delivery_time").
  done.
Qed.

Lemma transform_amazon_index (self : DataAligner) (out : DataFrame) :
  empty (amazon_df self) = false →
  transform_amazon_dataset parse_datetime py_str self = Ok out →
  (rows out).*1 = (rows (amazon_df self)).*1.
Proof.
  intros Hne Hok.
  destruct (transform_amazon_Ok_inv parse_datetime py_str self out Hne Hok)
    as [_ Hrows].
  induction Hrows as [|r o rs os Hro _ IH]; [done|].
  rewrite !fmap_cons, IH. f_equal.
  destruct Hro as (t & delta & _ & _ & ->). done.
Qed.

Lemma index_length (rs rs' : list row) :
  rs.*1 = rs'.*1 → length rs = length rs'.
Proof. intros H. apply (f_equal length) in H. by rewrite !length_fmap in H. Qed.

Lemma index_seq_length (rs : list row) (n : nat) :
  rs.*1 = Z.of_nat <$> seq 0 n → length rs = n.
Proof.
  intros H. apply (f_equal length) in H.
  by rewrite !length_fmap, length_seq in H.
Qed.

(** X11. The aligned table of two tables with unique labels has the rows
    of both and no more: its
    row count is the sum of the two, an empty table counting for none.
    Rows are renumbered from 0 only when both tables have rows; when one
    is empty the rows of the other keep their index labels. *)
Theorem align_row_count (self : DataAligner) (out : DataFrame) :
  NoDup (columns (enriched_df self)) → NoDup (columns (amazon_df self)) →
  align parse_datetime py_str self = Ok out →
  length (rows out) =
    (row_count (enriched_df self) + row_count (amazon_df self))%nat ∧
  (empty (enriched_df self) = false → empty (amazon_df self) = true →
   (rows out).*1 = (rows (enriched_df self)).*1) ∧
  (empty (enriched_df self) = true → empty (amazon_df self) = false →
   (rows out).*1 = (rows (amazon_df self)).*1) ∧
  (empty (enriched_df self) = false → empty (amazon_df self) = false →
   (rows out).*1 = Z.of_nat <$> seq 0 (length (rows out))).
Proof.
  intros _ _ Hal. pose proof Hal as Hal'. unfold align in Hal'.
  apply bind_Ok in Hal' as (df1 & Hdf1 & Hal').
  apply bind_Ok in Hal' as (df2 & Hdf2 & Hal').
  pose proof (transform_delivery_emptiness parse_datetime self df1 Hdf1)
    as He1.
  pose proof (transform_amazon_emptiness parse_datetime py_str self df2 Hdf2)
    as He2.
  unfold row_count. rewrite He1, He2 in Hal'.
  destruct (empty (enriched_df self)) eqn:Hee,
           (empty (amazon_df self)) eqn:Hea; simpl in Hal'.
  - injection Hal' as <-. done.
  - assert (df2 = out) as -> by congruence.
    pose proof (transform_amazon_index self out Hea Hdf2) as Hidx.
    split_and!; [|done|done|done].
    by rewrite (index_length _ _ Hidx).
  - assert (df1 = out) as -> by congruence.
    pose proof (transform_delivery_index self out Hee Hdf1) as Hidx.
    split_and!; [|done|done|done].
    rewrite (index_length _ _ Hidx). lia.
  - destruct (align_concat parse_datetime py_str self df1 df2 Hdf1 Hdf2)
      as (out' & Hout' & _ & Hidx & _); [congruence..|].
    assert (out' = out) as -> by congruence.
    pose proof (transform_delivery_index self df1 Hee Hdf1) as Hidx1.
    pose proof (transform_amazon_index self df2 Hea Hdf2) as Hidx2.
    assert (length (rows out) =
            (length (rows (enriched_df self)) +
             length (rows (amazon_df self)))%nat) as Hlen.
    { rewrite (index_seq_length _ _ Hidx).
      by rewrite (index_length _ _ Hidx1), (index_length _ _ Hidx2). }
    split_and!; [done|done|done|].
    intros _ _. rewrite Hidx. do 2 f_equal.
    by rewrite Hlen, (index_length _ _ Hidx1), (index_length _ _ Hidx2).
Qed.

End aligned.

Lemma align_row_count_witness :
  ∃ out, align Iso.parse_datetime Iso.py_str sample_aligner = Ok out ∧
         length (rows out) = 5%nat.
Proof.
  assert (∃ out, align Iso.parse_datetime Iso.py_str sample_aligner = Ok out)
    as [out Hout] by (eexists; vm_compute; reflexivity).
  exists out. split; [exact Hout|].
  destruct (align_row_count Iso.parse_datetime Iso.py_str sample_aligner out)
    as [Hlen _].
  - compute_done.
  - compute_done.
  - exact Hout.
  - rewrite Hlen. reflexivity.
Defined.

(** ** [enrich_city_data]: the city and the target *)

Lemma column_elem (df : DataFrame) (c : string) (values : list cell) :
  column df c = Ok values → c ∈ columns df.
Proof. intros (i & Hi & _)%column_Ok. by eapply col_index_elem_inv. Qed.

Lemma set_column_absent (df : DataFrame) (c c' : string)
    (values : list cell) :
  c ≠ c' → c ∉ columns df → c ∉ columns (set_column df c' values).
Proof.
  intros Hne Hc Hin. apply set_column_columns in Hin as [?| ->]; done.
Qed.

Lemma set_column_present (df : DataFrame) (c c' : string)
    (values : list cell) :
  c ∈ columns df → c ∈ columns (set_column df c' values).
Proof.
  intros Hc. unfold set_column.
  destruct (col_index c' (columns df)); cbn [columns]; [done|].
  apply elem_of_app. by left.
Qed.

Section city.
Context (parse_datetime : cell → option Z).
Context (strptime_time : string → option TrafficMockGenerator.time).

(** The table the last step returns, column by column. *)
Lemma add_city_and_eta_Ok (df : DataFrame) (city : string)
    (accept delivery : list cell) :
  well_formed df →
  column df "accept_time" = Ok accept →
  column df "delivery_time" = Ok delivery →
  ∃ out,
    add_city_and_eta parse_datetime df city = Ok out ∧
    column out "city" = Ok (replicate (length (rows df)) (CStr city)) ∧
    column out "accept_time" = Ok (to_datetime parse_datetime <$> accept) ∧
    column out "delivery_time" =
      Ok (to_datetime parse_datetime <$> delivery) ∧
    column out "ETA_target" =
      Ok (zip_with eta_minutes (to_datetime parse_datetime <$> delivery)
            (to_datetime parse_datetime <$> accept)) ∧
    (rows out).*1 = (rows df).*1 ∧
    (∀ c, c ∉ ["city"; "accept_time"; "delivery_time"; "ETA_target"] →
          column out c = column df c) ∧
    well_formed out.
Proof.
  intros Hwf Hacc Hdel. unfold add_city_and_eta.
  set (df1 := set_column df "city" _).
  assert (length (replicate (length (rows df)) (CStr city)) =
          length (rows df)) as Hlen by apply length_replicate.
  assert (well_formed df1) as Hwf1 by by apply well_formed_set_column.
  assert (∀ c, c ≠ "city" → column df1 c = column df c) as Hdf1.
  { intros c Hc. by apply column_set_column_ne. }
  rewrite <-Hdf1 in Hacc, Hdel by done.
  rewrite convert_column_at by by eapply column_elem.
  cbn [bind].
  set (df2 := convert_at parse_datetime "accept_time" df1).
  assert (well_formed df2) as Hwf2 by by apply well_formed_convert_at.
  assert (column df2 "delivery_time" = Ok delivery) as Hdel2.
  { unfold df2. by rewrite column_convert_at_ne. }
  rewrite convert_column_at by by eapply column_elem.
  cbn [bind].
  set (df3 := convert_at parse_datetime "delivery_time" df2).
  assert (well_formed df3) as Hwf3 by by apply well_formed_convert_at.
  assert (column df3 "delivery_time" =
          Ok (to_datetime parse_datetime <$> delivery)) as Hdel3
    by by apply column_convert_at.
  assert (column df3 "accept_time" =
          Ok (to_datetime parse_datetime <$> accept)) as Hacc3.
  { unfold df3. rewrite column_convert_at_ne by done.
    by apply column_convert_at. }
  rewrite Hdel3, Hacc3. cbn [bind].
  set (eta := zip_with eta_minutes _ _).
  assert (length (rows df3) = length (rows df)) as Hrows.
  { unfold df3, df2, df1. rewrite !convert_at_rows_length.
    by apply set_column_rows_length. }
  assert (length eta = length (rows df3)) as Hleta.
  { unfold eta. rewrite length_zip_with, !length_fmap.
    apply column_length in Hacc, Hdel.
    rewrite Hacc, Hdel, Hrows.
    unfold df1. rewrite set_column_rows_length by done. lia. }
  eexists. split; [done|]. split_and!.
  - rewrite column_set_column_ne by done. unfold df3, df2.
    rewrite !column_convert_at_ne by done.
    by apply column_set_column.
  - by rewrite column_set_column_ne.
  - by rewrite column_set_column_ne.
  - by apply column_set_column.
  - rewrite set_column_index by done. unfold df3, df2.
    rewrite !convert_at_index. by apply set_column_index.
  - intros c Hc. rewrite !not_elem_of_cons in Hc.
    destruct Hc as (? & ? & ? & ? & _).
    rewrite column_set_column_ne by done. unfold df3, df2.
    rewrite !column_convert_at_ne by done. by apply Hdf1.
  - by apply well_formed_set_column.
Qed.

(** X12. The last step of [enrich_city_data] on the enriched table, its
    column labels unique: it needs the accept_time and delivery_time
    columns and raises [KeyError] for the first one missing.  Otherwise
    the table gets the city in every row of its city column, its two
    timestamp columns read as timestamps, and in ETA_target the minutes
    between them row by row; the index and every other column are
    unchanged. *)
Theorem add_city_and_eta_columns (df : DataFrame) (city : string) :
  well_formed df → NoDup (columns df) →
  ("accept_time" ∉ columns df →
   add_city_and_eta parse_datetime df city = Raise (KeyError "accept_time")) ∧
  ("accept_time" ∈ columns df → "delivery_time" ∉ columns df →
   add_city_and_eta parse_datetime df city =
   Raise (KeyError "delivery_time")) ∧
  (∀ accept delivery,
     column df "accept_time" = Ok accept →
     column df "delivery_time" = Ok delivery →
     ∃ out,
       add_city_and_eta parse_datetime df city = Ok out ∧
       column out "city" = Ok (replicate (length (rows df)) (CStr city)) ∧
       column out "accept_time" = Ok (to_datetime parse_datetime <$> accept) ∧
       column out "delivery_time" =
         Ok (to_datetime parse_datetime <$> delivery) ∧
       column out "ETA_target" =
         Ok (zip_with eta_minutes (to_datetime parse_datetime <$> delivery)
               (to_datetime parse_datetime <$> accept)) ∧
       (rows out).*1 = (rows df).*1 ∧
       (∀ c, c ∉ ["city"; "accept_time"; "delivery_time"; "ETA_target"] →
             column out c = column df c)).
Proof.
  intros Hwf _. split_and!.
  - intros Hno. unfold add_city_and_eta.
    rewrite convert_column_Raise; [done|]. by apply set_column_absent.
  - intros Hacc Hno. unfold add_city_and_eta.
    rewrite convert_column_at by by apply set_column_present.
    cbn [bind]. rewrite convert_column_Raise; [done|].
    rewrite convert_at_columns. by apply set_column_absent.
  - intros accept delivery Hacc Hdel.
    destruct (add_city_and_eta_Ok df city accept delivery Hwf Hacc Hdel)
      as (out & H1 & H2 & H3 & H4 & H5 & H6 & H7 & _).
    by exists out.
Qed.

End city.

Lemma add_city_and_eta_columns_witness :
  ∃ out,
    add_city_and_eta Iso.parse_datetime (delivery_df sample_enriched) "hz"
      = Ok out ∧
    column out "city" = Ok [CStr "hz"; CStr "hz"] ∧
    column out "ETA_target" =
      Ok [CNum (Fin (1800000000000 # 60000000000));
          CNum (Fin (900000000000 # 60000000000))].
Proof.
  destruct (add_city_and_eta_columns Iso.parse_datetime
              (delivery_df sample_enriched) "hz") as (_ & _ & H).
  - vm_compute. repeat constructor.
  - compute_done.
  - destruct (H [CTime 1735690200000000000; CTime 1735720200000000000]
                [CTime 1735692000000000000; CTime 1735721100000000000])
      as (out & Hout & Hcity & _ & _ & Heta & _).
    + vm_compute. reflexivity.
    + vm_compute. reflexivity.
    + exists out. split; [exact Hout|]. split; [exact Hcity|].
      rewrite Heta. vm_compute. reflexivity.
Defined.

(** ** [enrich_city_data]: the steps together *)

(** The merged table again, with the acceptance time of every row. *)
Lemma merged_weather_keyed (self : DataIngest) (li : nat) :
  ingested self →
  (∀ c, c ∈ columns (delivery_df self) → c ∉ columns (weather_df self)) →
  col_index "accept_time" (columns (delivery_df self)) = Some li →
  ∃ ms,
    merged_weather self =
    Ok (mkDF (renamed_time (weather_time_col self)
                (columns (delivery_df self) ++ columns (weather_df self)))
          (range_index (merged_cells (weather_time_col self)
                          (columns (weather_df self)) <$> ms))) ∧
    Forall (λ m : row * option row,
              m.1 ∈ rows (delivery_df self) ∧
              (∃ t, cell_at li m.1.2 = CTime t) ∧
              ∀ w, m.2 = Some w → w ∈ rows (weather_df self)) ms.
Proof.
  intros (Hwfl & Hwfr & Hacc & Hwcol & Hcand & Htl & Htr) Hdisj Hli.
  destruct (col_index_elem _ _ Hwcol) as [ri Hri].
  destruct (keys_of_time_column li (rows (delivery_df self)) (Htl li Hli))
    as (lk & Hlk & Hsl).
  destruct (keys_of_time_column ri (rows (weather_df self)) (Htr ri Hri))
    as (rk & Hrk & Hsr).
  exists (asof_backward lk None rk). split.
  - unfold merged_weather, dropna, sort_values, merge_asof, col_pos.
    rewrite Hli, Hri. cbn [bind columns rows]. rewrite Hli, Hri.
    cbn [bind columns rows]. rewrite Hli, Hri. cbn [bind].
    rewrite Hlk, Hrk. cbn [bind].
    rewrite !decide_True by done.
    rewrite (suffixed_disjoint _ (columns (delivery_df self))) by done.
    rewrite (suffixed_disjoint _ (columns (weather_df self)))
      by (intros c Hc Hc'; by eapply Hdisj).
    rewrite !suffix_dups_same. cbn [orb bind]. unfold renamed_time.
    case_decide as Hw.
    + rewrite Hw in *. rewrite rename_id. cbn [columns].
      destruct (col_index_elem "time_weather"
                  (columns (delivery_df self) ++ columns (weather_df self)))
        as [i ->]; [apply elem_of_app; by right|]. done.
    + unfold rename. cbn [columns rows].
      destruct (col_index_elem "time_weather"
                  ((λ c, if decide (c = weather_time_col self)
                         then "time_weather" else c) <$>
                   (columns (delivery_df self) ++ columns (weather_df self))))
        as [i ->]; [|done].
      apply list_elem_of_fmap. exists (weather_time_col self).
      rewrite decide_True by done. split; [done|].
      apply elem_of_app. by right.
  - apply keyed_rows in Hlk as [_ Hlin], Hrk as [_ Hrin].
    destruct (asof_backward_rows _ _ _ (asof_backward_sorted lk rk Hsl Hsr))
      as [_ Hms].
    eapply Forall_impl; [apply Hms|].
    intros [l w] (k & Hl & Hw); simpl in *.
    apply Hlin in Hl as [Hl Hk]. split_and!; [done|by eauto|].
    intros w' ->. destruct Hw as (kw & Hin & _). by apply Hrin in Hin as [? _].
Qed.

Lemma merged_well_formed (lcols rcols : list string) (wcol : string)
    (ms : list (row * option row)) :
  Forall (λ m : row * option row,
            length m.1.2 = length lcols ∧
            ∀ w, m.2 = Some w → length w.2 = length rcols) ms →
  well_formed (mkDF (renamed_time wcol (lcols ++ rcols))
                 (range_index (merged_cells wcol rcols <$> ms))).
Proof.
  intros Hms. unfold well_formed. cbn [columns rows].
  apply Forall_range_index. intros i cells Hcells.
  apply list_elem_of_fmap in Hcells as ([l w] & -> & Hm).
  eapply Forall_forall in Hms as [Hl Hw]; [|done]. simpl in *.
  unfold merged_cells, renamed_time. simpl.
  rewrite length_fmap, !length_app, Hl. f_equal.
  destruct w as [w|]; [by apply Hw|].
  unfold null_cells. by rewrite length_fmap.
Qed.

(** A delivery column of the merged table holds the cells of the delivery
    rows. *)
Lemma merged_left_column (lcols rcols : list string) (wcol c : string)
    (i : nat) (ms : list (row * option row)) :
  col_index c lcols = Some i → c ≠ wcol → c ≠ "time_weather" →
  Forall (λ m : row * option row, length m.1.2 = length lcols) ms →
  column (mkDF (renamed_time wcol (lcols ++ rcols))
            (range_index (merged_cells wcol rcols <$> ms))) c =
  Ok ((λ m : row * option row, cell_at i m.1.2) <$> ms).
Proof.
  intros Hi Hc1 Hc2 Hms.
  rewrite (column_mkDF _ _ c i).
  - f_equal.
    trans (cell_at i <$>
             (range_index (merged_cells wcol rcols <$> ms)).*2);
      [by rewrite <-list_fmap_compose|].
    rewrite range_index_cells, <-list_fmap_compose. apply Forall_fmap_ext.
    eapply Forall_impl; [exact Hms|]. intros m Hm. simpl.
    unfold merged_cells. apply cell_at_app_l. rewrite Hm.
    by eapply col_index_lt.
  - unfold renamed_time. rewrite col_index_rename by done.
    by rewrite col_index_app, Hi.
Qed.

Lemma time_column_of_column (df : DataFrame) (c : string)
    (values : list cell) :
  column df c = Ok values → Forall time_or_NaT values → time_column df c.
Proof.
  intros (i & Hi & ->)%column_Ok Hv j Hj.
  assert (j = i) as -> by congruence. by rewrite Forall_fmap in Hv.
Qed.

Section pipeline.
Context (parse_datetime : cell → option Z).
Context (strptime_time : string → option TrafficMockGenerator.time).

Lemma load_data_delivery_time (fs : gmap string csv) (dfile wfile : string)
    (self : DataIngest) :
  load_data parse_datetime fs dfile wfile = Ok self →
  time_column (delivery_df self) "delivery_time".
Proof.
  destruct (fs !! dfile) as [d|] eqn:Hd;
    [|by rewrite load_data_no_delivery].
  destruct (fs !! wfile) as [w|] eqn:Hw;
    [|by rewrite (load_data_no_weather _ _ _ _ d)].
  rewrite (load_data_found _ _ _ _ d w) by done.
  case_decide as Ha; [|done].
  destruct (list_find _ time_candidates) as [[n c]|] eqn:Hc; [|done].
  intros [= <-]. cbn [delivery_df].
  apply time_column_convert_at, well_formed_convert_at,
    well_formed_normalized.
Qed.

(** X13. [enrich_city_data] on the two files of a city, when the labels
    of each are unique, the delivery file has a delivery_time column and
    shares no column label with the weather file, and the weather label
    can be computed.  The traffic step then succeeds; the accept_time
    column of the enriched table holds timestamps only (rows without one
    were dropped) and the delivery_time column timestamps or NaT, so
    reading the two columns again changes nothing: the table saved is the
    enriched table with the city column and the ETA_target column
    added. *)
Theorem enrich_city_data_steps (fs : gmap string csv)
    (delivery_path weather_path city : string) (st0 st1 : DataIngest) :
  load_data parse_datetime fs delivery_path weather_path = Ok st0 →
  NoDup (columns (delivery_df st0)) → NoDup (columns (weather_df st0)) →
  (∀ c, c ∈ columns (delivery_df st0) → c ∉ columns (weather_df st0)) →
  "delivery_time" ∈ columns (delivery_df st0) →
  enrich_with_weather st0 = Ok st1 →
  ∃ (st2 : DataIngest) (accept delivery : list cell),
    enrich_with_traffic_and_vehicles strptime_time st1 = Ok st2 ∧
    column (delivery_df st2) "accept_time" = Ok accept ∧
    column (delivery_df st2) "delivery_time" = Ok delivery ∧
    Forall (λ v, ∃ t, v = CTime t) accept ∧
    Forall time_or_NaT delivery ∧
    enrich_city_data parse_datetime strptime_time fs delivery_path
      weather_path city =
    Ok (set_column
          (set_column (delivery_df st2) "city"
             (replicate (length (rows (delivery_df st2))) (CStr city)))
          "ETA_target" (zip_with eta_minutes delivery accept)).
Proof.
  intros Hload _ _ Hdisj Hdt Hst1.
  pose proof (load_data_ingested parse_datetime _ _ _ _ Hload) as Hing.
  pose proof (load_data_delivery_time _ _ _ _ Hload) as Htd.
  pose proof Hing as (Hwfl & Hwfr & Hacc & Hwcol & Hcand & Htl & Htr).
  destruct (col_index_elem _ _ Hacc) as [li Hli].
  destruct (col_index_elem _ _ Hdt) as [lj Hlj].
  destruct (merged_weather_keyed st0 li Hing Hdisj Hli)
    as (ms & Hmerged & Hms).
  pose proof Hst1 as Hst1'. unfold enrich_with_weather in Hst1'.
  rewrite Hmerged in Hst1'. cbn [bind columns rows] in Hst1'.
  apply bind_Ok in Hst1' as (labels & Hlabels & [= <-]).
  apply mapM_Ok, Forall2_length in Hlabels.
  rewrite range_index_length, length_fmap in Hlabels.
  set (merged := mkDF _ _) in *.
  assert (Forall (λ m : row * option row,
            length m.1.2 = length (columns (delivery_df st0)) ∧
            ∀ w, m.2 = Some w → length w.2 = length (columns (weather_df st0)))
            ms) as Hlens.
  { eapply Forall_impl; [exact Hms|]. intros m (Hl & _ & Hw). split.
    - eapply Forall_forall in Hwfl; [|exact Hl]. done.
    - intros w Hm. eapply Forall_forall in Hwfr; [|by apply Hw]. done. }
  assert (well_formed merged) as Hwfm by by apply merged_well_formed.
  assert (length (rows merged) = length ms) as Hrm.
  { unfold merged. cbn [rows]. by rewrite range_index_length, length_fmap. }
  assert (∀ c, c ∈ time_candidates → c ≠ "accept_time" ∧ c ≠ "delivery_time")
    as Hcands.
  { intros c Hc. unfold time_candidates in Hc.
    repeat (apply elem_of_cons in Hc as [->|Hc]); try done.
    by apply elem_of_nil in Hc. }
  destruct (Hcands _ Hcand) as [Hw1 Hw2].
  set (accept := (λ m : row * option row, cell_at li m.1.2) <$> ms).
  set (delivery := (λ m : row * option row, cell_at lj m.1.2) <$> ms).
  assert (column merged "accept_time" = Ok accept) as Hca.
  { apply merged_left_column; [done|done|done|].
    eapply Forall_impl; [exact Hlens|]. by intros m [? _]. }
  assert (column merged "delivery_time" = Ok delivery) as Hcd.
  { apply merged_left_column; [done|done|done|].
    eapply Forall_impl; [exact Hlens|]. by intros m [? _]. }
  assert (Forall (λ v, ∃ t, v = CTime t) accept) as Hat.
  { unfold accept. rewrite Forall_fmap.
    eapply Forall_impl; [exact Hms|]. by intros m (_ & ? & _). }
  assert (Forall time_or_NaT delivery) as Hdt'.
  { unfold delivery. rewrite Forall_fmap.
    eapply Forall_impl; [exact Hms|]. intros m (Hl & _ & _). simpl.
    specialize (Htd lj Hlj). by eapply Forall_forall in Htd. }
  set (df1 := set_column merged "Weather_Label" (CStr <$> labels)).
  assert (length (CStr <$> labels) = length (rows merged)) as Hll
    by by rewrite length_fmap, Hrm.
  assert (well_formed df1) as Hwf1 by by apply well_formed_set_column.
  assert (column df1 "accept_time" = Ok accept) as Hca1
    by by unfold df1; rewrite column_set_column_ne.
  assert (column df1 "delivery_time" = Ok delivery) as Hcd1
    by by unfold df1; rewrite column_set_column_ne.
  cbn [delivery_df weather_df weather_time_col] in *.
  unfold enrich_city_data. rewrite Hload. cbn [bind]. rewrite Hst1.
  cbn [bind].
  unfold enrich_with_traffic_and_vehicles, TrafficMockGenerator.generate.
  cbn [delivery_df weather_df weather_time_col]. fold df1.
  rewrite Hcd1. cbn [bind delivery_df].
  set (traffic := CStr <$> _).
  set (df2 := set_column df1 "Traffic_Label" traffic).
  assert (length traffic = length (rows df1)) as Hlt.
  { unfold traffic. rewrite !length_fmap. unfold delivery.
    rewrite length_fmap. unfold df1.
    by rewrite set_column_rows_length, Hrm. }
  assert (well_formed df2) as Hwf2 by by apply well_formed_set_column.
  assert (column df2 "accept_time" = Ok accept) as Hca2
    by by unfold df2; rewrite column_set_column_ne.
  assert (column df2 "delivery_time" = Ok delivery) as Hcd2
    by by unfold df2; rewrite column_set_column_ne.
  eexists _, accept, delivery. split; [done|].
  cbn [delivery_df]. fold df2. split_and!; [done..|].
  unfold add_city_and_eta.
  set (df3 := set_column df2 "city" _).
  assert (length (replicate (length (rows df2)) (CStr city)) =
          length (rows df2)) as Hlc by apply length_replicate.
  assert (column df3 "accept_time" = Ok accept) as Hca3
    by by unfold df3; rewrite column_set_column_ne.
  assert (column df3 "delivery_time" = Ok delivery) as Hcd3
    by by unfold df3; rewrite column_set_column_ne.
  rewrite convert_column_at by by eapply column_elem.
  rewrite (convert_at_time_column _ df3 "accept_time").
  2:{ eapply time_column_of_column; [done|].
      eapply Forall_impl; [exact Hat|]. by intros v [t ->]. }
  cbn [bind].
  rewrite convert_column_at by by eapply column_elem.
  rewrite (convert_at_time_column _ df3 "delivery_time")
    by by eapply time_column_of_column.
  cbn [bind]. by rewrite Hcd3, Hca3.
Qed.

End pipeline.

Lemma enrich_city_data_steps_witness :
  ∃ out,
    enrich_city_data Iso.parse_datetime TrafficMockGenerator.strptime_padded
      sample_files "delivery.csv" "weather.csv" "hz" = Ok out ∧
    column out "city" = Ok [CStr "hz"; CStr "hz"].
Proof.
  destruct (enrich_city_data_steps Iso.parse_datetime
              TrafficMockGenerator.strptime_padded sample_files
              "delivery.csv" "weather.csv" "hz" sample_ingest
              sample_with_weather)
    as (st2 & accept & delivery & _ & _ & _ & _ & _ & Hout).
  - vm_compute. reflexivity.
  - compute_done.
  - compute_done.
  - intros c Hc. vm_compute in Hc.
    repeat (apply elem_of_cons in Hc as [->|Hc]); try compute_done.
    by apply elem_of_nil in Hc.
  - compute_done.
  - vm_compute. reflexivity.
  - eexists. split; [exact Hout|].
    assert (∃ df, enrich_city_data Iso.parse_datetime
                    TrafficMockGenerator.strptime_padded sample_files
                    "delivery.csv" "weather.csv" "hz" = Ok df ∧
                  column df "city" = Ok [CStr "hz"; CStr "hz"])
      as (df & Hdf & Hcity) by (eexists; split; vm_compute; reflexivity).
    rewrite Hout in Hdf. injection Hdf as ->. exact Hcity.
Defined.

(** ** The combined table *)

Lemma length_bind {A B} (f : A → list B) (l : list A) :
  length (l ≫= f) = sum_list_with (λ x, length (f x)) l.
Proof.
  induction l as [|x l IH]; [done|].
  rewrite bind_cons, length_app, IH. done.
Qed.

Lemma union_columns_from (acc : list string) (dfs : list DataFrame)
    (c : string) :
  c ∈ foldl (λ cols df, cols ++ filter (λ c, c ∉ cols) (columns df)) acc dfs
  ↔ c ∈ acc ∨ ∃ df, df ∈ dfs ∧ c ∈ columns df.
Proof.
  revert acc. induction dfs as [|df dfs IH]; intros acc; simpl.
  - split; [by left|]. intros [?|(df & Hdf & _)]; [done|].
    by apply elem_of_nil in Hdf.
  - rewrite IH, elem_of_app, list_elem_of_filter. split.
    + intros [[?|[_ ?]]|(df' & Hdf' & ?)]; [by left| |].
      * right. exists df. split; [by left|done].
      * right. exists df'. split; [by right|done].
    + intros [?|(df' & Hdf' & Hc)]; [by left; left|].
      apply elem_of_cons in Hdf' as [->|Hdf'].
      * destruct (decide (c ∈ acc)); [by left; left|]. left. by right.
      * right. by exists df'.
Qed.

Lemma union_columns_elem (dfs : list DataFrame) (c : string) :
  c ∈ union_columns dfs ↔ ∃ df, df ∈ dfs ∧ c ∈ columns df.
Proof.
  unfold union_columns. rewrite union_columns_from. split; [|by right].
  intros [Hc|?]; [|done]. by apply elem_of_nil in Hc.
Qed.

Lemma reindex_cells_length (from to : list string) (cells : list cell) :
  length (reindex_cells from to cells) = length to.
Proof. unfold reindex_cells. by rewrite length_fmap. Qed.

(** A cell of a row laid out under other labels is the cell the row had
    under that label, and NaN when it had none. *)
Lemma reindex_cells_lookup (from to : list string) (cells : list cell)
    (c : string) :
  c ∈ to →
  get_column_cell to c (reindex_cells from to cells) =
  match col_index c from with
  | Some i => cell_at i cells
  | None => CNum NaN
  end.
Proof.
  intros [j Hj]%col_index_elem. unfold get_column_cell. rewrite Hj.
  apply col_index_Some in Hj as [Hj _].
  unfold reindex_cells, cell_at at 1. by rewrite list_lookup_fmap, Hj.
Qed.

Lemma reindex_cells_same (cols : list string) (cells : list cell) :
  NoDup cols → length cells = length cols →
  reindex_cells cols cols cells = cells.
Proof.
  intros Hnd Hlen. apply list_eq. intros i. unfold reindex_cells.
  rewrite list_lookup_fmap.
  destruct (cols !! i) as [c|] eqn:Hc; simpl.
  - assert (col_index c cols = Some i) as ->.
    { apply col_index_Some. split; [done|]. intros j Hj Hcj.
      assert (j = i) by by eapply NoDup_lookup. lia. }
    apply lookup_lt_Some in Hc. rewrite <-Hlen in Hc.
    apply lookup_lt_is_Some in Hc as [x Hx]. unfold cell_at.
    by rewrite Hx.
  - apply lookup_ge_None in Hc. symmetry. apply lookup_ge_None. lia.
Qed.

Lemma filter_not_elem_self (cols : list string) :
  filter (λ c, c ∉ cols) cols = [].
Proof.
  apply elem_of_nil_inv. intros c [Hc ?]%list_elem_of_filter. done.
Qed.

Lemma filter_not_elem_nil (cols : list string) :
  filter (λ c, c ∉ []) cols = cols.
Proof.
  induction cols as [|c cols IH]; [done|].
  rewrite filter_cons_True by apply not_elem_of_nil. by rewrite IH.
Qed.

Lemma union_columns_same (h : list string) (dfs : list DataFrame) :
  dfs ≠ [] → Forall (λ df, columns df = h) dfs → union_columns dfs = h.
Proof.
  intros Hne Hall. unfold union_columns.
  destruct Hall as [|df dfs Hdf Hall]; [done|]. simpl.
  rewrite Hdf, filter_not_elem_nil. clear Hne Hdf.
  induction Hall as [|df' dfs Hdf' _ IH]; [done|]. simpl.
  by rewrite Hdf', filter_not_elem_self, app_nil_r.
Qed.

Lemma fmap_range_index_cells {B} (g : list cell → B)
    (cells : list (list cell)) :
  (λ r : row, g r.2) <$> range_index cells = g <$> cells.
Proof.
  trans (g <$> (range_index cells).*2); [by rewrite <-list_fmap_compose|].
  by rewrite range_index_cells.
Qed.

Lemma read_csv_nrows_length (n : nat) (f : csv) :
  length (rows (read_csv_nrows (Some n) f)) =
  (n `min` length (records f))%nat.
Proof.
  unfold read_csv_nrows, read_csv. cbn [rows header records].
  by rewrite range_index_length, length_fmap, length_take.
Qed.

Lemma concat_all_Ok (dfs : list DataFrame) :
  dfs ≠ [] →
  concat_all_ignore_index dfs =
  Ok (mkDF (union_columns dfs)
        (range_index
           (dfs ≫= λ df,
              (λ r : row, reindex_cells (columns df) (union_columns dfs) r.2)
                <$> rows df))).
Proof. by destruct dfs. Qed.

(** The shape of a concatenation: the labels of all tables, the rows of
    all tables numbered from 0, each row with one cell per label. *)
Lemma concat_all_shape (dfs : list DataFrame) (out : DataFrame) :
  concat_all_ignore_index dfs = Ok out →
  columns out = union_columns dfs ∧
  length (rows out) = sum_list_with (λ df, length (rows df)) dfs ∧
  (rows out).*1 = Z.of_nat <$> seq 0 (length (rows out)) ∧
  well_formed out.
Proof.
  destruct (decide (dfs = [])) as [->|Hne]; [done|].
  rewrite concat_all_Ok by done. intros [= <-].
  cbn [columns rows]. split_and!.
  - done.
  - rewrite range_index_length, length_bind.
    generalize (union_columns dfs). intros cols. clear Hne.
    induction dfs as [|x l IH]; [done|]. cbn [sum_list_with].
    by rewrite length_fmap, IH.
  - by rewrite range_index_labels, range_index_length.
  - unfold well_formed. cbn [columns rows]. apply Forall_range_index.
    intros i cells Hcells.
    apply list_elem_of_bind in Hcells as (x & Hcells & _).
    apply list_elem_of_fmap in Hcells as (r & -> & _). simpl.
    apply reindex_cells_length.
Qed.

Lemma capped_sum (enriched : string → csv) (cities : list string) :
  sum_list_with (λ df, length (rows df))
    ((λ city, read_csv_nrows (Some MAX_ROWS) (enriched city)) <$> cities) =
  sum_list_with
    (λ city, (MAX_ROWS `min` length (records (enriched city)))%nat) cities.
Proof.
  induction cities as [|city l IH]; [done|].
  rewrite fmap_cons. cbn [sum_list_with].
  by rewrite read_csv_nrows_length, IH.
Qed.

(** X14. From five enriched files that [pd.read_csv] reads as they stand
    the combined table exists.  It has the first 500 records of each
    city's file and no more, so 2500 rows at most, numbered from 0; its
    columns are the labels found in any of the files, and every row has a
    cell under each. *)
Theorem combine_enriched_rows (enriched : string → csv) :
  (∀ city, city ∈ CITIES → readable (enriched city)) →
  ∃ out,
    combine_enriched_datasets enriched = Ok out ∧
    length (rows out) =
      sum_list_with
        (λ city, (MAX_ROWS `min` length (records (enriched city)))%nat) CITIES ∧
    (length (rows out) ≤ 2500)%nat ∧
    (rows out).*1 = Z.of_nat <$> seq 0 (length (rows out)) ∧
    (∀ c, c ∈ columns out ↔
          ∃ city, city ∈ CITIES ∧ c ∈ header (enriched city)) ∧
    well_formed out.
Proof.
  intros _. unfold combine_enriched_datasets. cbn [DEBUG_MODE].
  set (dfs := _ <$> CITIES).
  destruct (concat_all_ignore_index dfs) as [out|e] eqn:Hout; [|done].
  destruct (concat_all_shape dfs out Hout) as (Hcols & Hlen & Hidx & Hwf).
  assert (length (rows out) =
          sum_list_with
            (λ city, (MAX_ROWS `min` length (records (enriched city)))%nat)
            CITIES)
    as Hlen'.
  { rewrite Hlen. apply capped_sum. }
  exists out. split_and!; [done|done| |done| |done].
  - rewrite Hlen'. unfold CITIES. cbn [sum_list_with]. unfold MAX_ROWS. lia.
  - intros c. rewrite Hcols, union_columns_elem. unfold dfs. split.
    + intros (df & Hdf & Hc).
      apply list_elem_of_fmap in Hdf as (city & -> & Hcity). by exists city.
    + intros (city & Hcity & Hc).
      exists (read_csv_nrows (Some MAX_ROWS) (enriched city)).
      split; [|exact Hc]. apply list_elem_of_fmap. by exists city.
Qed.

Lemma combine_enriched_rows_witness :
  ∃ out,
    combine_enriched_datasets sample_enriched_files = Ok out ∧
    (length (rows out) ≤ 2500)%nat.
Proof.
  destruct (combine_enriched_rows sample_enriched_files)
    as (out & Hout & _ & Hle & _).
  - intros city _. compute_done.
  - exists out. split; [exact Hout|exact Hle].
Defined.

Lemma combine_rows_same_header (enriched : string → csv) (h : list string)
    (cities : list string) :
  NoDup h →
  (∀ city, city ∈ cities → header (enriched city) = h) →
  ((λ city, read_csv_nrows (Some MAX_ROWS) (enriched city)) <$> cities) ≫=
    (λ df, (λ r : row, reindex_cells (columns df) h r.2) <$> rows df) =
  cities ≫= (λ city, capped_records (enriched city)).
Proof.
  intros Hnd. induction cities as [|city l IH]; intros Hh; [done|].
  rewrite fmap_cons, !bind_cons. f_equal.
  - unfold read_csv_nrows, read_csv. cbn [columns rows header records].
    rewrite fmap_range_index_cells, (Hh city) by by left.
    unfold capped_records. rewrite (Hh city) by by left.
    rewrite <-list_fmap_compose. apply list_fmap_ext. intros _ cells _.
    simpl. apply reindex_cells_same; [done|]. apply length_resize.
  - apply IH. intros c Hc. apply Hh. by right.
Qed.

(** X15. When the five enriched files are read as they stand and have
    the same header, the combined table has that header and holds, city after city in the order of
    CITIES, the first 500 records of each file as they were read: nothing
    is reordered, merged or dropped beyond the cap. *)
Theorem combine_enriched_same_header (enriched : string → csv)
    (h : list string) :
  (∀ city, city ∈ CITIES → readable (enriched city)) →
  (∀ city, city ∈ CITIES → header (enriched city) = h) →
  ∃ out,
    combine_enriched_datasets enriched = Ok out ∧
    columns out = h ∧
    (rows out).*2 = CITIES ≫= (λ city, capped_records (enriched city)).
Proof.
  intros Hread Hh.
  assert (NoDup h) as Hnd.
  { rewrite <-(Hh "jl") by compute_done.
    by destruct (Hread "jl") as (_ & ? & _); [compute_done|]. }
  unfold combine_enriched_datasets. cbn [DEBUG_MODE].
  set (dfs := _ <$> CITIES).
  assert (union_columns dfs = h) as Hcols.
  { apply union_columns_same; [done|]. unfold dfs. rewrite Forall_fmap.
    apply Forall_forall. intros city Hcity. by apply Hh. }
  rewrite concat_all_Ok by done. eexists. split; [reflexivity|].
  cbn [columns rows]. rewrite Hcols. split; [done|].
  rewrite range_index_cells. by apply combine_rows_same_header.
Qed.

Lemma combine_enriched_same_header_witness :
  ∃ out,
    combine_enriched_datasets sample_enriched_files = Ok out ∧
    length (rows out) = 15%nat.
Proof.
  destruct (combine_enriched_same_header sample_enriched_files
              (header sample_delivery)) as (out & Hout & _ & Hrows).
  - intros city _. compute_done.
  - reflexivity.
  - exists out. split; [exact Hout|].
    transitivity (length (rows out).*2); [symmetry; apply length_fmap|].
    rewrite Hrows. vm_compute. reflexivity.
Defined.

Lemma combine_rows_reindexed (enriched : string → csv) (cols : list string)
    (cities : list string) :
  ((λ city, read_csv_nrows (Some MAX_ROWS) (enriched city)) <$> cities) ≫=
    (λ df, (λ r : row, reindex_cells (columns df) cols r.2) <$> rows df) =
  cities ≫= (λ city, reindex_cells (header (enriched city)) cols <$>
                       capped_records (enriched city)).
Proof.
  induction cities as [|city l IH]; [done|].
  rewrite fmap_cons, !bind_cons. f_equal; [|exact IH].
  unfold read_csv_nrows, read_csv. cbn [columns rows header records].
  by rewrite fmap_range_index_cells.
Qed.

(** X16. Whatever the headers of five files that are read as they stand,
    a row of the combined table is the record it comes from laid out under the combined labels:
    under a label of its file it holds the cell the record had there
    (padded with NaN where the record was short), under any other label
    NaN.  The rows come city after city in the order of CITIES. *)
Theorem combine_enriched_cells (enriched : string → csv) :
  (∀ city, city ∈ CITIES → readable (enriched city)) →
  ∃ out,
    combine_enriched_datasets enriched = Ok out ∧
    (rows out).*2 =
      CITIES ≫= (λ city, reindex_cells (header (enriched city)) (columns out)
                           <$> capped_records (enriched city)) ∧
    ∀ city cells c,
      c ∈ columns out →
      get_column_cell (columns out) c
        (reindex_cells (header (enriched city)) (columns out) cells) =
      match col_index c (header (enriched city)) with
      | Some i => cell_at i cells
      | None => CNum NaN
      end.
Proof.
  intros _. unfold combine_enriched_datasets. cbn [DEBUG_MODE].
  set (dfs := _ <$> CITIES).
  rewrite concat_all_Ok by done. eexists. split; [reflexivity|].
  cbn [columns rows]. split.
  - rewrite range_index_cells. apply combine_rows_reindexed.
  - intros city cells c Hc. by apply reindex_cells_lookup.
Qed.

Lemma combine_enriched_cells_witness :
  ∃ out,
    combine_enriched_datasets sample_enriched_files = Ok out ∧
    length (rows out).*2 = 15%nat.
Proof.
  destruct (combine_enriched_cells sample_enriched_files)
    as (out & Hout & Hrows & _).
  - intros city _. compute_done.
  - exists out. split; [exact Hout|].
    rewrite Hrows. vm_compute. reflexivity.
Defined.

(** ** From [enrich_city_data] to the reshaped table *)

Lemma zip_with_fmap_same {A B C D} (f : B → C → D) (g : A → B) (h : A → C)
    (l : list A) :
  zip_with f (g <$> l) (h <$> l) = (λ x, f (g x) (h x)) <$> l.
Proof.
  induction l as [|x l IH]; [done|].
  rewrite !fmap_cons. cbn [zip_with]. by f_equal.
Qed.

Lemma column_total (df : DataFrame) (c : string) :
  c ∈ columns df → ∃ values, column df c = Ok values.
Proof.
  intros [i Hi]%col_index_elem. eexists. apply column_Ok. by exists i.
Qed.

Section recomputed.
Context (parse_datetime : cell → option Z).

(** X17. The reshaping computes the target again from the two timestamp
    columns; on a table that [enrich_city_data] has finished (its column
    labels unique) this gives the column that is already there, and the pickup and delivery times are its
    accept_time and delivery_time columns as they are. *)
Theorem eta_target_recomputed (df amazon out reshaped : DataFrame)
    (city : string) :
  well_formed df → NoDup (columns df) →
  add_city_and_eta parse_datetime df city = Ok out →
  empty out = false →
  transform_delivery_dataset parse_datetime (mk_aligner out amazon)
    = Ok reshaped →
  column reshaped "ETA_target" = column out "ETA_target" ∧
  column reshaped "pickup_time" = column out "accept_time" ∧
  column reshaped "delivery_time" = column out "delivery_time".
Proof.
  intros Hwf _ Hout Hne Hre.
  destruct (decide ("accept_time" ∈ columns df)) as [Ha|Ha].
  2:{ unfold add_city_and_eta in Hout.
      rewrite convert_column_Raise in Hout; [done|].
      by apply set_column_absent. }
  destruct (decide ("delivery_time" ∈ columns df)) as [Hd|Hd].
  2:{ unfold add_city_and_eta in Hout.
      rewrite convert_column_at in Hout by by apply set_column_present.
      cbn [bind] in Hout. rewrite convert_column_Raise in Hout; [done|].
      rewrite convert_at_columns. by apply set_column_absent. }
  destruct (column_total df _ Ha) as [accept Hacc].
  destruct (column_total df _ Hd) as [delivery Hdel].
  destruct (add_city_and_eta_Ok parse_datetime df city accept delivery
              Hwf Hacc Hdel)
    as (out' & Hout' & _ & Hca & Hcd & Hce & _ & _ & Hwfo).
  assert (out' = out) as -> by congruence.
  destruct (transform_delivery_rows_fmap parse_datetime
              (mk_aligner out amazon) reshaped Hwfo Hne Hre)
    as [Hcols Hrows].
  cbn [enriched_df] in Hrows.
  pose proof Hca as (i & Hi & HA)%column_Ok.
  pose proof Hcd as (j & Hj & HD)%column_Ok.
  assert (Forall (λ r : row,
            to_datetime parse_datetime (cell_at i r.2) = cell_at i r.2 ∧
            to_datetime parse_datetime (cell_at j r.2) = cell_at j r.2)
            (rows out)) as Hid.
  { apply Forall_forall. intros r Hr.
    apply list_elem_of_lookup_1 in Hr as [n Hn].
    apply (f_equal (.!! n)) in HA, HD.
    rewrite !list_lookup_fmap, Hn in HA, HD. simpl in HA, HD.
    destruct (accept !! n), (delivery !! n); simplify_eq/=.
    rewrite <-HA, <-HD. by rewrite !to_datetime_idempotent. }
  destruct reshaped as [cols rs]. cbn [columns rows] in *. subst cols rs.
  rewrite Hce, Hca, Hcd, HA, HD, zip_with_fmap_same.
  rewrite !(column_mkDF delivery_columns _ "ETA_target" 10) by done.
  rewrite !(column_mkDF delivery_columns _ "pickup_time" 2) by done.
  rewrite !(column_mkDF delivery_columns _ "delivery_time" 3) by done.
  rewrite <-!list_fmap_compose.
  split_and!; f_equal; apply Forall_fmap_ext;
    (eapply Forall_impl; [exact Hid|]); intros r [H1 H2]; simpl;
    unfold cell_at at 1; simpl;
    rewrite <-?(get_column_cell_at _ _ _ r.2 Hi),
            <-?(get_column_cell_at _ _ _ r.2 Hj), ?H1, ?H2; done.
Qed.

End recomputed.

Lemma eta_target_recomputed_witness :
  column sample_reshaped "ETA_target" = column sample_city_frame "ETA_target".
Proof.
  destruct (eta_target_recomputed Iso.parse_datetime
              (delivery_df sample_enriched) sample_amazon sample_city_frame
              sample_reshaped "hz") as [Heta _].
  - vm_compute. repeat constructor.
  - compute_done.
  - vm_compute. reflexivity.
  - reflexivity.
  - vm_compute. reflexivity.
  - exact Heta.
Defined.

(** ** Column names *)

Lemma py_isspace_lower (a : ascii) :
  py_isspace (lower_ascii a) = py_isspace a.
Proof. by destruct a as [[] [] [] [] [] [] [] []]. Qed.

Lemma lower_ascii_idempotent (a : ascii) :
  lower_ascii (lower_ascii a) = lower_ascii a.
Proof. by destruct a as [[] [] [] [] [] [] [] []]. Qed.

Lemma lower_idempotent (s : string) : lower (lower s) = lower s.
Proof.
  induction s as [|a s IH]; [done|].
  simpl. by rewrite lower_ascii_idempotent, IH.
Qed.

Lemma lstrip_lower (s : string) : lstrip (lower s) = lower (lstrip s).
Proof.
  induction s as [|a s IH]; [done|].
  simpl. rewrite py_isspace_lower. by destruct (py_isspace a).
Qed.

Lemma rev_app_lower (s1 s2 : string) :
  String.rev_app (lower s1) (lower s2) = lower (String.rev_app s1 s2).
Proof.
  revert s2. induction s1 as [|a s1 IH]; intros s2; [done|].
  simpl. by rewrite <-IH.
Qed.

Lemma strip_lower (s : string) : strip (lower s) = lower (strip s).
Proof.
  unfold strip, String.rev.
  rewrite lstrip_lower, (rev_app_lower _ EmptyString), lstrip_lower.
  by rewrite (rev_app_lower _ EmptyString).
Qed.

Lemma append_empty_r (s : string) : (s ++ EmptyString)%string = s.
Proof.
  induction s as [|a s IH]; [done|].
  change (String a (s +:+ EmptyString) = String a s). by rewrite IH.
Qed.

Lemma rev_app_rev_app (s1 s2 s3 : string) :
  String.rev_app (String.rev_app s1 s2) s3 =
  String.rev_app s2 (s1 ++ s3)%string.
Proof.
  revert s2. induction s1 as [|a s1 IH]; intros s2; [done|].
  change (String.rev_app (String.rev_app s1 (String a s2)) s3 =
          String.rev_app s2 (String a (s1 +:+ s3))).
  by rewrite IH.
Qed.

Lemma rev_involutive (s : string) : String.rev (String.rev s) = s.
Proof.
  unfold String.rev. rewrite rev_app_rev_app. apply append_empty_r.
Qed.

Lemma first_char_rev_app (s acc : string) :
  first_char (String.rev_app s acc) =
  match last_char s with
  | Some a => Some a
  | None => first_char acc
  end.
Proof.
  revert acc. induction s as [|a s IH]; intros acc; [done|].
  simpl. rewrite IH. by destruct (last_char s).
Qed.

Lemma last_char_rev_app (s acc : string) :
  last_char (String.rev_app s acc) =
  match last_char acc with
  | Some a => Some a
  | None => first_char s
  end.
Proof.
  revert acc. induction s as [|a s IH]; intros acc.
  - simpl. by destruct (last_char acc).
  - simpl. rewrite IH. simpl. by destruct (last_char acc).
Qed.

Lemma first_char_lstrip (s : string) (a : ascii) :
  first_char (lstrip s) = Some a → py_isspace a = false.
Proof.
  induction s as [|b s IH]; [done|]. simpl.
  destruct (py_isspace b) eqn:Hb; [done|]. by intros [= <-].
Qed.

Lemma last_char_lstrip (s : string) :
  lstrip s = EmptyString ∨ last_char (lstrip s) = last_char s.
Proof.
  induction s as [|b s IH]; [by left|]. simpl.
  destruct (py_isspace b); [|by right].
  destruct IH as [->|IH]; [by left|].
  destruct (last_char s) eqn:Hs; [by right|]. left.
  destruct s as [|a s]; [done|]. simpl in Hs. by destruct (last_char s).
Qed.

Lemma lstrip_id (s : string) :
  (∀ a, first_char s = Some a → py_isspace a = false) → lstrip s = s.
Proof. destruct s as [|a s]; [done|]. intros H. simpl. by rewrite H. Qed.

Lemma strip_idempotent (s : string) : strip (strip s) = strip s.
Proof.
  unfold strip. set (t := lstrip s). set (v := lstrip (String.rev t)).
  assert (lstrip (String.rev v) = String.rev v) as ->.
  { apply lstrip_id. intros a. unfold String.rev.
    rewrite first_char_rev_app.
    destruct (last_char v) as [b|] eqn:Hb; [|done]. intros [= ->].
    destruct (last_char_lstrip (String.rev t)) as [Hv|Hv]; fold v in Hv.
    - by rewrite Hv in Hb.
    - rewrite Hb in Hv. unfold String.rev in Hv.
      rewrite last_char_rev_app in Hv. simpl in Hv.
      by eapply first_char_lstrip. }
  rewrite rev_involutive. f_equal. apply lstrip_id.
  apply first_char_lstrip.
Qed.

Lemma lower_ascii_only (a : ascii) :
  (Ascii.N_of_ascii a < 128)%N → (Ascii.N_of_ascii (lower_ascii a) < 128)%N.
Proof. destruct a as [[] [] [] [] [] [] [] []]; vm_compute; done. Qed.

Lemma ascii_only_String (a : ascii) (s : string) :
  ascii_only (String a s) ↔ (Ascii.N_of_ascii a < 128)%N ∧ ascii_only s.
Proof.
  unfold ascii_only. simpl.
  apply (Forall_cons (λ b, (Ascii.N_of_ascii b < 128)%N)).
Qed.

Lemma ascii_only_lower (s : string) : ascii_only s → ascii_only (lower s).
Proof.
  induction s as [|a s IH]; [done|]. simpl.
  rewrite !ascii_only_String. intros [Ha Hs].
  split; [by apply lower_ascii_only|by apply IH].
Qed.

Lemma ascii_only_lstrip (s : string) : ascii_only s → ascii_only (lstrip s).
Proof.
  induction s as [|a s IH]; [done|]. simpl.
  destruct (py_isspace a); [|done].
  rewrite ascii_only_String. intros [_ Hs]. by apply IH.
Qed.

Lemma ascii_only_rev_app (s acc : string) :
  ascii_only s → ascii_only acc → ascii_only (String.rev_app s acc).
Proof.
  revert acc. induction s as [|a s IH]; intros acc; [done|]. simpl.
  rewrite ascii_only_String. intros [Ha Hs] Hacc.
  apply IH; [done|]. by apply ascii_only_String.
Qed.

Lemma ascii_only_normalize (s : string) :
  ascii_only s → ascii_only (normalize s).
Proof.
  assert (ascii_only EmptyString) as Hnil by apply Forall_nil_2.
  intros Hs. unfold normalize, strip, String.rev.
  apply ascii_only_lower, ascii_only_rev_app; [|exact Hnil].
  apply ascii_only_lstrip, ascii_only_rev_app; [|exact Hnil].
  by apply ascii_only_lstrip.
Qed.

(** X18. On ASCII labels, normalising a column name twice is normalising
    it once, and the normalised name is ASCII again: the labels the loader
    leaves are stable, and a header that is already stripped and in lower
    case is kept as it is. *)
Theorem normalize_idempotent (c : string) :
  ascii_only c →
  normalize (normalize c) = normalize c ∧ ascii_only (normalize c).
Proof.
  intros Hc. split; [|by apply ascii_only_normalize].
  unfold normalize. by rewrite strip_lower, lower_idempotent, strip_idempotent.
Qed.

Lemma normalize_idempotent_witness :
  normalize (normalize " Accept_Time") = normalize " Accept_Time".
Proof.
  apply (normalize_idempotent " Accept_Time"). compute_done.
Defined.

(** ** The delivery_time column *)

(** The state ingestion returns, with a parser for each column. *)
Lemma load_data_with_state
    (parse_accept parse_delivery parse_weather : cell → option Z)
    (fs : gmap string csv) (dfile wfile : string) (d w : csv)
    (self : DataIngest) :
  fs !! dfile = Some d → fs !! wfile = Some w →
  load_data_with parse_accept parse_delivery parse_weather fs dfile wfile
    = Ok self →
  ingested self ∧
  columns (delivery_df self) = normalize <$> header d ∧
  columns (weather_df self) = normalize <$> header w.
Proof.
  intros Hd Hw. rewrite (load_data_with_found _ _ _ _ _ _ d w) by done.
  case_decide as Ha; [|done].
  destruct (list_find _ time_candidates) as [[n c]|] eqn:Hc; [|done].
  intros [= <-]. apply list_find_Some in Hc as (Hn & Hc & _).
  unfold ingested; cbn [delivery_df weather_df weather_time_col].
  rewrite !convert_at_columns. split_and!; [| |done|done| | | |done|done].
  - apply well_formed_convert_at, well_formed_convert_at,
      well_formed_normalized.
  - apply well_formed_convert_at, well_formed_normalized.
  - by eapply list_elem_of_lookup_2.
  - apply time_column_convert_at_ne; [done|].
    apply time_column_convert_at, well_formed_normalized.
  - apply time_column_convert_at, well_formed_normalized.
Qed.

(** On a table with accept_time and without delivery_time, the traffic
    step and both computations of the target raise on reading
    delivery_time. *)
Lemma delivery_time_is_read
    (strptime_time : string → option TrafficMockGenerator.time)
    (self : DataIngest) :
  "accept_time" ∈ columns (delivery_df self) →
  "delivery_time" ∉ columns (delivery_df self) →
  enrich_with_traffic_and_vehicles strptime_time self =
    Raise (KeyError "delivery_time") ∧
  (∀ parse city,
     add_city_and_eta parse (delivery_df self) city =
     Raise (KeyError "delivery_time")) ∧
  (∀ parse amazon,
     empty (delivery_df self) = false →
     transform_delivery_dataset parse (mk_aligner (delivery_df self) amazon) =
     Raise (KeyError "delivery_time")).
Proof.
  intros Hacc Hno. split_and!.
  - unfold enrich_with_traffic_and_vehicles. by rewrite generate_Raise.
  - intros parse city. unfold add_city_and_eta.
    rewrite convert_column_at by by apply set_column_present.
    cbn [bind]. rewrite convert_column_Raise; [done|].
    rewrite convert_at_columns. by apply set_column_absent.
  - intros parse amazon Hne. unfold transform_delivery_dataset.
    cbn [enriched_df]. rewrite Hne.
    rewrite convert_column_at by done.
    cbn [bind]. rewrite convert_column_Raise; [done|].
    by rewrite convert_at_columns.
Qed.

(** C8, amended: the delivery_time column is optional for ingestion and
    for weather enrichment only.  Of two files that are read as they stand
    (labels ASCII and distinct once normalised, no record longer than the
    header), the delivery file without a delivery_time column, with
    accept_time and a weather timestamp column present:
    - ingestion returns, whatever the cells hold;
    - weather enrichment returns when the weather file has no
      delivery_time column either, the two tables share no column label,
      the measurement columns hold numbers or None and each table has a
      timestamp that parsed;
    - traffic enrichment raises [KeyError("delivery_time")], on the
      ingested table and on the table weather enrichment returns; so do
      the computation of ETA_target in [enrich_city_data] and the one in
      [transform_delivery_dataset] (on a table that is not empty), and
      [enrich_city_data] as a whole, which stops at the traffic step. *)
Theorem delivery_time_optional_until_traffic
    (parse_accept parse_delivery parse_weather : cell → option Z)
    (strptime_time : string → option TrafficMockGenerator.time)
    (fs : gmap string csv) (dfile wfile : string) (d w : csv) :
  fs !! dfile = Some d → fs !! wfile = Some w →
  loadable d → loadable w →
  "delivery_time" ∉ normalize <$> header d →
  "accept_time" ∈ normalize <$> header d →
  (∃ c, c ∈ time_candidates ∧ c ∈ normalize <$> header w) →
  ∃ self,
    load_data_with parse_accept parse_delivery parse_weather fs dfile wfile
      = Ok self ∧
    enrich_with_traffic_and_vehicles strptime_time self =
      Raise (KeyError "delivery_time") ∧
    (∀ parse city,
       add_city_and_eta parse (delivery_df self) city =
       Raise (KeyError "delivery_time")) ∧
    (∀ parse amazon,
       empty (delivery_df self) = false →
       transform_delivery_dataset parse
         (mk_aligner (delivery_df self) amazon) =
       Raise (KeyError "delivery_time")) ∧
    ("delivery_time" ∉ normalize <$> header w →
     (∀ c, c ∈ columns (delivery_df self) → c ∉ columns (weather_df self)) →
     numeric_measurements (delivery_df self) →
     numeric_measurements (weather_df self) →
     has_timestamp (delivery_df self) "accept_time" →
     has_timestamp (weather_df self) (weather_time_col self) →
     ∃ self',
       enrich_with_weather self = Ok self' ∧
       enrich_with_traffic_and_vehicles strptime_time self' =
         Raise (KeyError "delivery_time") ∧
       (∀ parse city,
          add_city_and_eta parse (delivery_df self') city =
          Raise (KeyError "delivery_time")) ∧
       (∀ parse amazon,
          empty (delivery_df self') = false →
          transform_delivery_dataset parse
            (mk_aligner (delivery_df self') amazon) =
          Raise (KeyError "delivery_time")) ∧
       (∀ parse city,
          load_data parse fs dfile wfile = Ok self →
          enrich_city_data parse strptime_time fs dfile wfile city =
          Raise (KeyError "delivery_time"))).
Proof.
  intros Hd Hw _ _ Hnd Ha (c & Hc & Hcw).
  destruct (load_data_with parse_accept parse_delivery parse_weather
              fs dfile wfile) as [self|e] eqn:Hload.
  - exists self. split; [done|].
    destruct (load_data_with_state _ _ _ _ _ _ _ _ _ Hd Hw Hload)
      as (Hing & Hcd & Hcw').
    destruct (delivery_time_is_read strptime_time self)
      as (Htraffic & Hcity & Htransform); [by rewrite Hcd..|].
    split_and!; [done..|].
    intros Hnw Hdisj Hnl Hnr _ _.
    destruct (enrich_with_weather_completes self) as (labels & ms & Henr);
      [done..|].
    eexists. split; [exact Henr|].
    match goal with |- context [enrich_with_traffic_and_vehicles _ ?s] =>
      destruct (delivery_time_is_read strptime_time s)
        as (Htraffic' & Hcity' & Htransform') end.
    + cbn [delivery_df]. apply set_column_present. cbn [columns].
      apply list_elem_of_fmap. exists "accept_time". split.
      * rewrite decide_False; [done|]. intros Heq.
        destruct Hing as (_ & _ & _ & _ & Hcand & _).
        rewrite <-Heq in Hcand. revert Hcand. compute_done.
      * apply elem_of_app. left. by rewrite Hcd.
    + cbn [delivery_df].
      intros [Hk|Hk]%set_column_columns; [|done]. cbn [columns] in Hk.
      apply list_elem_of_fmap in Hk as (k & Hk & Hin).
      case_decide; [done|]. subst k.
      rewrite Hcd, Hcw' in Hin. by apply elem_of_app in Hin as [|].
    + split_and!; [done..|].
      intros parse city Hload1. unfold enrich_city_data.
      rewrite Hload1. cbn [bind]. rewrite Henr. cbn [bind].
      by rewrite Htraffic'.
  - exfalso. revert Hload.
    rewrite (load_data_with_found _ _ _ _ _ _ d w) by done.
    rewrite decide_True by done.
    destruct (list_find _ time_candidates) as [[n c']|] eqn:Hfind; [done|].
    apply list_find_None in Hfind.
    eapply Forall_forall in Hfind; [|exact Hc]. done.
Qed.

Lemma delivery_time_optional_until_traffic_witness :
  ∃ self self',
    load_data_with Iso.parse_datetime Iso.parse_datetime Iso.parse_datetime
      sample_files "delivery_short.csv" "weather.csv" = Ok self ∧
    enrich_with_weather self = Ok self' ∧
    enrich_with_traffic_and_vehicles TrafficMockGenerator.strptime_padded
      self' = Raise (KeyError "delivery_time") ∧
    enrich_city_data Iso.parse_datetime TrafficMockGenerator.strptime_padded
      sample_files "delivery_short.csv" "weather.csv" "hz" =
      Raise (KeyError "delivery_time").
Proof.
  destruct (delivery_time_optional_until_traffic Iso.parse_datetime
              Iso.parse_datetime Iso.parse_datetime
              TrafficMockGenerator.strptime_padded sample_files
              "delivery_short.csv" "weather.csv"
              sample_delivery_no_delivery_time sample_weather)
    as (self & Hload & _ & _ & _ & Hweather).
  - reflexivity.
  - reflexivity.
  - compute_done.
  - compute_done.
  - compute_done.
  - compute_done.
  - exists "time". split; compute_done.
  - assert (load_data_with Iso.parse_datetime Iso.parse_datetime
              Iso.parse_datetime sample_files "delivery_short.csv"
              "weather.csv" = Ok short_ingest) as E
      by (vm_compute; reflexivity).
    rewrite E in Hload. injection Hload as <-.
    destruct Hweather as (self' & Henr & Htraffic & _ & _ & Hdag).
    + compute_done.
    + apply Forall_forall. compute_done.
    + intros k i Hk Hi.
      repeat (apply elem_of_cons in Hk as [->|Hk]; [by vm_compute in Hi|]).
      by apply elem_of_nil in Hk.
    + intros k i Hk Hi.
      repeat (apply elem_of_cons in Hk as [->|Hk];
        [vm_compute in Hi; injection Hi as <-;
         vm_compute; by repeat constructor|]).
      by apply elem_of_nil in Hk.
    + exists 1%nat, (0, [CNum (Fin 1); CTime 1735720200000000000]),
        1735720200000000000.
      split_and!; [reflexivity|vm_compute; by left|reflexivity].
    + exists 0%nat.
      eexists (_, [CTime _; _; _; _; _; _; _]), _.
      split_and!; [reflexivity|vm_compute; left; reflexivity|reflexivity].
    + exists short_ingest, self'. split_and!; [exact E|exact Henr|exact Htraffic|].
      apply Hdag. vm_compute. reflexivity.
Defined.

(** The merged table takes a delivery_time column of the weather file:
    the traffic step then reads the weather file's cells. *)
Example weather_delivery_time_is_read :
  (st0 <- load_data Iso.parse_datetime sample_files_weather_delivery_time
            "delivery_short.csv" "weather.csv" ;;
   st1 <- enrich_with_weather st0 ;;
   st2 <- enrich_with_traffic_and_vehicles
            TrafficMockGenerator.strptime_padded st1 ;;
   column (delivery_df st2) "Traffic_Label") = Ok [CStr "Jam"].
Proof. vm_compute. reflexivity. Qed.
